(** * Notes App: note lifecycle, validation, backup and export/import

    A shallow embedding of the note workflow code of the repository
    (js/businessLogic.js, the data manager's export functions and
    js/errorHandler.js), with the properties of the specification
    stated and proved over it.

    Conventions of the embedding.
    - A JavaScript string is a [string]; each [ascii] stands for one
      UTF-16 code unit, so the embedding carries the code units below 256.
    - A JavaScript value that came out of [JSON.parse] is a [json]; numbers
      are the integers ([Z]), objects keep their keys in order.
    - [undefined] is [None] in an [option json].
    - Code that can throw returns a [result]; code that reads or writes
      [localStorage], the clock, the modal system or the toast system is
      a state transformer over [World]. *)

From Stdlib Require Import String Ascii List ZArith Lia Bool.
From Stdlib Require Import Decimal DecimalString DecimalN.
From Stdlib Require Import Sorting.Sorted Sorting.Permutation.
From stdpp Require Import base gmap strings.
Import ListNotations.

#[local] Open Scope string_scope.
#[local] Open Scope list_scope.

(* ===================================================================== *)
(** * JavaScript strings                                                  *)
(* ===================================================================== *)

Module JsString.

Abbreviation chars := list_ascii_of_string.
Abbreviation str := string_of_list_ascii.

(** Decimal digits of a natural number, as [Number.prototype.toString]
    prints an integer. *)
Definition digitsN (n : N) : string := NilEmpty.string_of_uint (N.to_uint n).

(** [String(z)] for an integer [z]. *)
Definition of_Z (z : Z) : string :=
  if (z <? 0)%Z then String "-" (digitsN (Z.abs_N z)) else digitsN (Z.abs_N z).

(** [String.prototype.length]. *)
Definition len (s : string) : Z := Z.of_nat (String.length s).

(** White space and line terminators that [String.prototype.trim] strips,
    among the code units below 256: TAB, LF, VT, FF, CR, SPACE, NBSP. *)
Definition is_trim_ws (c : ascii) : bool :=
  match nat_of_ascii c with
  | 9 | 10 | 11 | 12 | 13 | 32 | 160 => true
  | _ => false
  end.

Fixpoint trim_start (s : list ascii) : list ascii :=
  match s with
  | c :: r => if is_trim_ws c then trim_start r else s
  | [] => []
  end.

(** [s.trim()] *)
Definition trim (s : string) : string :=
  str (rev (trim_start (rev (trim_start (chars s))))).

(** [s.toLowerCase()] on the code units below 256: A-Z and the Latin-1
    capitals (U+00C0..U+00DE except the multiplication sign U+00D7). *)
Definition lower_char (c : ascii) : ascii :=
  let n := nat_of_ascii c in
  if ((65 <=? n) && (n <=? 90))%nat then ascii_of_nat (n + 32)
  else if ((192 <=? n) && (n <=? 222) && negb (n =? 215))%nat then ascii_of_nat (n + 32)
  else c.

Fixpoint toLowerCase (s : string) : string :=
  match s with
  | EmptyString => EmptyString
  | String c r => String (lower_char c) (toLowerCase r)
  end.

(** [s.startsWith(p)] *)
Fixpoint startsWith (p s : string) : bool :=
  match p, s with
  | EmptyString, _ => true
  | String a p', String b s' => Ascii.eqb a b && startsWith p' s'
  | String _ _, EmptyString => false
  end.

(** [s.includes(p)] *)
Fixpoint includes (s p : string) : bool :=
  startsWith p s ||
  match s with
  | EmptyString => false
  | String _ r => includes r p
  end.

(** [s.replace] of every double quote (global flag) by two double
    quotes, as the CSV export escapes a field. *)
Fixpoint double_quotes (s : string) : string :=
  match s with
  | EmptyString => EmptyString
  | String c r =>
      if Ascii.eqb c "034"%char then String c (String c (double_quotes r))
      else String c (double_quotes r)
  end.

(** [parts.join(sep)] over strings. *)
Fixpoint join (sep : string) (parts : list string) : string :=
  match parts with
  | [] => ""
  | [p] => p
  | p :: rest => p +:+ sep +:+ join sep rest
  end.

(** [s.split(sep)] for a separator that is not empty. *)
Fixpoint split_from (sep : string) (skip : nat) (piece : list ascii) (s : string)
  : list string :=
  match s with
  | EmptyString => [str (rev piece)]
  | String c r =>
      match skip with
      | S k => split_from sep k piece r
      | O =>
          if startsWith sep s
          then str (rev piece) :: split_from sep (String.length sep - 1) [] r
          else split_from sep 0 (c :: piece) r
      end
  end.

Definition split (sep s : string) : list string := split_from sep 0 [] s.

End JsString.

(* ===================================================================== *)
(** * JSON values and the JSON codec                                      *)
(* ===================================================================== *)

Module Json.
Import JsString.

#[local] Unset Elimination Schemes.

(** The values [JSON.parse] produces. An object is its list of members in
    property order; a property read takes the first member with the key. *)
Inductive json : Type :=
| JNull
| JBool (b : bool)
| JNum (z : Z)
| JStr (s : string)
| JArr (items : list json)
| JObj (members : list (string * json)).

#[local] Set Elimination Schemes.

Section Induction.
Variable P : json -> Prop.
Hypothesis Hnull : P JNull.
Hypothesis Hbool : forall b, P (JBool b).
Hypothesis Hnum : forall z, P (JNum z).
Hypothesis Hstr : forall s, P (JStr s).
Hypothesis Harr : forall items, Forall P items -> P (JArr items).
Hypothesis Hobj : forall members, Forall (fun m => P (snd m)) members -> P (JObj members).

Fixpoint json_ind (v : json) : P v :=
  match v with
  | JNull => Hnull
  | JBool b => Hbool b
  | JNum z => Hnum z
  | JStr s => Hstr s
  | JArr items =>
      Harr items
        ((fix go (l : list json) : Forall P l :=
            match l with
            | [] => @List.Forall_nil _ P
            | x :: r => @List.Forall_cons _ P x r (json_ind x) (go r)
            end) items)
  | JObj members =>
      Hobj members
        ((fix go (l : list (string * json)) : Forall (fun m => P (snd m)) l :=
            match l with
            | [] => @List.Forall_nil _ _
            | m :: r => @List.Forall_cons _ (fun m => P (snd m)) m r (json_ind (snd m)) (go r)
            end) members)
  end.
End Induction.

(** ** [JSON.stringify(value, null, gap)] *)

#[local] Open Scope char_scope.

Definition hex_digit (n : nat) : ascii :=
  if (n <? 10)%nat then ascii_of_nat (48 + n) else ascii_of_nat (87 + n).

(** QuoteJSONString, one code unit: the short escapes, [\u00XX] for the
    other control characters, the unit itself otherwise. *)
Definition escape_char (c : ascii) : list ascii :=
  match nat_of_ascii c with
  | 8 => ["\"; "b"]
  | 9 => ["\"; "t"]
  | 10 => ["\"; "n"]
  | 12 => ["\"; "f"]
  | 13 => ["\"; "r"]
  | 34 => ["\"; "034"]
  | 92 => ["\"; "\"]
  | n => if (n <? 32)%nat
         then ["\"; "u"; "0"; "0"; hex_digit (n / 16); hex_digit (n mod 16)]
         else [c]
  end.

Definition quote (s : string) : list ascii :=
  "034" :: flat_map escape_char (chars s) ++ ["034"].

Definition print_Z (z : Z) : list ascii := chars (of_Z z).

(** Joining already serialized parts with a separator. *)
Fixpoint join_parts (sep : list ascii) (parts : list (list ascii)) : list ascii :=
  match parts with
  | [] => []
  | [p] => p
  | p :: rest => p ++ sep ++ join_parts sep rest
  end.

Definition newline : ascii := "010".

(** A line break followed by the current indentation; nothing at all when
    the gap is empty. *)
Definition line (gap ind : nat) : list ascii :=
  match gap with
  | O => []
  | S _ => newline :: repeat " " ind
  end.

Definition colon (gap : nat) : list ascii :=
  match gap with
  | O => [":"]
  | S _ => [":"; " "]
  end.

(** SerializeJSONProperty with a gap of [gap] spaces at indentation [ind]. *)
Fixpoint print (gap ind : nat) (v : json) {struct v} : list ascii :=
  match v with
  | JNull => ["n"; "u"; "l"; "l"]
  | JBool true => ["t"; "r"; "u"; "e"]
  | JBool false => ["f"; "a"; "l"; "s"; "e"]
  | JNum z => print_Z z
  | JStr s => quote s
  | JArr [] => ["["; "]"]
  | JArr items =>
      "[" :: line gap (ind + gap)
        ++ join_parts ("," :: line gap (ind + gap)) (map (print gap (ind + gap)) items)
        ++ line gap ind ++ ["]"]
  | JObj [] => ["{"; "}"]
  | JObj members =>
      "{" :: line gap (ind + gap)
        ++ join_parts ("," :: line gap (ind + gap))
             (map (fun m => quote (fst m) ++ colon gap ++ print gap (ind + gap) (snd m)) members)
        ++ line gap ind ++ ["}"]
  end.

(** [JSON.stringify(v)] and [JSON.stringify(v, null, 2)]. *)
Definition stringify (v : json) : string := str (print 0 0 v).
Definition stringify2 (v : json) : string := str (print 2 0 v).

(** ** [JSON.parse] *)

Definition is_json_ws (c : ascii) : bool :=
  match nat_of_ascii c with
  | 9 | 10 | 13 | 32 => true
  | _ => false
  end.

Fixpoint skip_ws (s : list ascii) : list ascii :=
  match s with
  | c :: r => if is_json_ws c then skip_ws r else s
  | [] => []
  end.

Definition hex_value (c : ascii) : option nat :=
  let n := nat_of_ascii c in
  if ((48 <=? n) && (n <=? 57))%nat then Some (n - 48)
  else if ((97 <=? n) && (n <=? 102))%nat then Some (n - 87)
  else if ((65 <=? n) && (n <=? 70))%nat then Some (n - 55)
  else None.

(** The code unit of [\uXXXX]; [None] for a malformed escape and for a
    unit of 256 or more, which the embedding does not carry. *)
Definition unicode_escape (a b c d : ascii) : option ascii :=
  match hex_value a, hex_value b, hex_value c, hex_value d with
  | Some 0, Some 0, Some h, Some l => Some (ascii_of_nat (16 * h + l))
  | _, _, _, _ => None
  end.

Definition cons_char (c : ascii) (r : option (list ascii * list ascii)) :=
  match r with
  | Some (cs, rest) => Some (c :: cs, rest)
  | None => None
  end.

(** The characters of a string literal after its opening quote, up to
    the closing quote. *)
Fixpoint parse_chars (s : list ascii) : option (list ascii * list ascii) :=
  match s with
  | [] => None
  | "034" :: r => Some ([], r)
  | "\" :: e :: r =>
      match e with
      | "034" => cons_char "034" (parse_chars r)
      | "\" => cons_char "\" (parse_chars r)
      | "/" => cons_char "/" (parse_chars r)
      | "b" => cons_char "008" (parse_chars r)
      | "f" => cons_char "012" (parse_chars r)
      | "n" => cons_char "010" (parse_chars r)
      | "r" => cons_char "013" (parse_chars r)
      | "t" => cons_char "009" (parse_chars r)
      | "u" =>
          match r with
          | a :: b :: c :: d :: r' =>
              match unicode_escape a b c d with
              | Some u => cons_char u (parse_chars r')
              | None => None
              end
          | _ => None
          end
      | _ => None
      end
  | c :: r =>
      if (nat_of_ascii c <? 32)%nat then None else cons_char c (parse_chars r)
  end.

Definition is_digit (c : ascii) : bool :=
  let n := nat_of_ascii c in ((48 <=? n) && (n <=? 57))%nat.

Fixpoint span_digits (s : list ascii) : list ascii * list ascii :=
  match s with
  | c :: r =>
      if is_digit c then let (ds, rest) := span_digits r in (c :: ds, rest)
      else ([], s)
  | [] => ([], [])
  end.

(** A fraction or an exponent follows: a number outside the integers. *)
Definition fraction_follows (s : list ascii) : bool :=
  match s with
  | "." :: _ | "e" :: _ | "E" :: _ => true
  | _ => false
  end.

(** An integer literal without sign: [0] or a digit sequence that does
    not start with [0]. *)
Definition parse_digits (s : list ascii) : option (N * list ascii) :=
  let (ds, rest) := span_digits s in
  match ds with
  | [] => None
  | _ =>
      if fraction_follows rest then None
      else
        match NilEmpty.uint_of_string (str ds) with
        | Some d => if uint_beq (unorm d) d then Some (N.of_uint d, rest) else None
        | None => None
        end
  end.

Definition parse_number (s : list ascii) : option (json * list ascii) :=
  match s with
  | "-" :: r =>
      match parse_digits r with
      | Some (n, rest) => Some (JNum (- Z.of_N n), rest)
      | None => None
      end
  | _ =>
      match parse_digits s with
      | Some (n, rest) => Some (JNum (Z.of_N n), rest)
      | None => None
      end
  end.

Fixpoint parse_value (fuel : nat) (s : list ascii) {struct fuel}
  : option (json * list ascii) :=
  match fuel with
  | O => None
  | S f =>
      match skip_ws s with
      | "n" :: "u" :: "l" :: "l" :: r => Some (JNull, r)
      | "t" :: "r" :: "u" :: "e" :: r => Some (JBool true, r)
      | "f" :: "a" :: "l" :: "s" :: "e" :: r => Some (JBool false, r)
      | "034" :: r =>
          match parse_chars r with
          | Some (cs, rest) => Some (JStr (str cs), rest)
          | None => None
          end
      | "[" :: r =>
          match skip_ws r with
          | "]" :: rest => Some (JArr [], rest)
          | _ =>
              match parse_elements f r with
              | Some (items, rest) => Some (JArr items, rest)
              | None => None
              end
          end
      | "{" :: r =>
          match skip_ws r with
          | "}" :: rest => Some (JObj [], rest)
          | _ =>
              match parse_members f r with
              | Some (members, rest) => Some (JObj members, rest)
              | None => None
              end
          end
      | r => parse_number r
      end
  end
with parse_elements (fuel : nat) (s : list ascii) {struct fuel}
  : option (list json * list ascii) :=
  match fuel with
  | O => None
  | S f =>
      match parse_value f s with
      | Some (v, r) =>
          match skip_ws r with
          | "," :: r' =>
              match parse_elements f r' with
              | Some (vs, rest) => Some (v :: vs, rest)
              | None => None
              end
          | "]" :: rest => Some ([v], rest)
          | _ => None
          end
      | None => None
      end
  end
with parse_members (fuel : nat) (s : list ascii) {struct fuel}
  : option (list (string * json) * list ascii) :=
  match fuel with
  | O => None
  | S f =>
      match skip_ws s with
      | "034" :: r =>
          match parse_chars r with
          | Some (k, r1) =>
              match skip_ws r1 with
              | ":" :: r2 =>
                  match parse_value f r2 with
                  | Some (v, r3) =>
                      match skip_ws r3 with
                      | "," :: r4 =>
                          match parse_members f r4 with
                          | Some (ms, rest) => Some ((str k, v) :: ms, rest)
                          | None => None
                          end
                      | "}" :: rest => Some ([(str k, v)], rest)
                      | _ => None
                      end
                  | None => None
                  end
              | _ => None
              end
          | None => None
          end
      | _ => None
      end
  end.

(** [JSON.parse(text)]; [None] stands for the [SyntaxError] (and for a
    text with a number or a code unit the embedding does not carry). *)
Definition parse (text : string) : option json :=
  let s := chars text in
  match parse_value (2 * length s + 2) s with
  | Some (v, rest) =>
      match skip_ws rest with
      | [] => Some v
      | _ => None
      end
  | None => None
  end.

(** ** What the proof of the codec speaks of *)

(** What may follow a number in a text: nothing, or a character that
    neither continues the digits nor opens a fraction or an exponent. *)
Definition ends_number (rest : list ascii) : bool :=
  match rest with
  | [] => true
  | c :: _ => negb (is_digit c) && negb (fraction_follows rest)
  end.

(** The first character of a serialized value: no white space, and not
    a closing bracket. *)
Definition starts_value (s : list ascii) : bool :=
  match s with
  | c :: _ => negb (is_json_ws c) && negb (Ascii.eqb c "]")
  | [] => false
  end.

(** Fuel that [parse_value] needs to read a value back. *)
Fixpoint need (v : json) : nat :=
  match v with
  | JArr items =>
      S ((fix go (l : list json) : nat :=
            match l with
            | [] => O
            | x :: r => S (Nat.max (need x) (go r))
            end) items)
  | JObj members =>
      S ((fix go (l : list (string * json)) : nat :=
            match l with
            | [] => O
            | m :: r => S (Nat.max (need (snd m)) (go r))
            end) members)
  | _ => 1
  end.

Definition need_elements (l : list json) : nat :=
  fold_right (fun x acc => S (Nat.max (need x) acc)) O l.

Definition need_members (l : list (string * json)) : nat :=
  fold_right (fun m acc => S (Nat.max (need (snd m)) acc)) O l.

(** The value is read back from its text, whatever the gap, the
    indentation and what follows it. *)
Definition parses (v : json) : Prop :=
  forall gap ind fuel rest,
    need v <= fuel -> ends_number rest = true ->
    parse_value fuel (print gap ind v ++ rest) = Some (v, rest).

End Json.

(* ===================================================================== *)
(** * JavaScript values and the operations the code applies to them      *)
(* ===================================================================== *)

Module Js.
Import JsString Json.

(** A computation that returns or throws; an error is its message. *)
Inductive result (A : Type) : Type :=
| Ok (a : A)
| Throw (message : string).
Arguments Ok {A} a.
Arguments Throw {A} message.

Definition rbind {A B : Type} (r : result A) (k : A -> result B) : result B :=
  match r with
  | Ok a => k a
  | Throw e => Throw e
  end.

Notation "'let?' x ':=' r 'in' k" := (rbind r (fun x => k))
  (at level 10, x pattern, r at level 100, k at level 200).

(** The message of the TypeError the engine raises; its wording is the
    engine's own. *)
Definition TypeError : string := "TypeError".

(** A value or [undefined]. *)
Abbreviation value := (option json).
Abbreviation undefined := (@None json).

(** ToBoolean. *)
Definition truthy (v : value) : bool :=
  match v with
  | None => false
  | Some JNull => false
  | Some (JBool b) => b
  | Some (JNum z) => negb (z =? 0)%Z
  | Some (JStr s) => negb (String.eqb s "")
  | Some (JArr _) => true
  | Some (JObj _) => true
  end.

(** [a || b] *)
Definition or_else (a b : value) : value := if truthy a then a else b.

Fixpoint lookup (k : string) (members : list (string * json)) : value :=
  match members with
  | [] => None
  | (k', v) :: rest => if String.eqb k k' then Some v else lookup k rest
  end.

(** [o[k] = v] on an object: the member is replaced where it stands, or
    added at the end. *)
Fixpoint set (k : string) (v : json) (members : list (string * json))
  : list (string * json) :=
  match members with
  | [] => [(k, v)]
  | (k', v') :: rest =>
      if String.eqb k k' then (k, v) :: rest else (k', v') :: set k v rest
  end.

(** [v.k] for the member names the code reads (none is an index,
    [length] or an inherited member): a member of an object, [undefined]
    on an array, a string, a number or a boolean, a TypeError on [null]. *)
Definition get (k : string) (v : json) : result value :=
  match v with
  | JNull => Throw TypeError
  | JObj members => Ok (lookup k members)
  | _ => Ok None
  end.

(** [a === b]. Two arrays or two objects are equal when they are the
    same object; the values compared in the code are read from two
    separately built records, so they never are. *)
Definition strict_eq (a b : value) : bool :=
  match a, b with
  | None, None => true
  | Some JNull, Some JNull => true
  | Some (JBool x), Some (JBool y) => Bool.eqb x y
  | Some (JNum x), Some (JNum y) => (x =? y)%Z
  | Some (JStr x), Some (JStr y) => String.eqb x y
  | _, _ => false
  end.

Definition has_key (k : string) (members : list (string * json)) : bool :=
  match lookup k members with
  | Some _ => true
  | None => false
  end.

(** ToString of a value, as a template literal and [join] apply it.
    An array is its elements joined by a comma, [null] elements giving
    the empty string; an object is [[object Object]], unless it carries
    its own [toString] member, which is not callable: a TypeError. *)
Fixpoint to_string (v : json) : result string :=
  match v with
  | JNull => Ok "null"
  | JBool true => Ok "true"
  | JBool false => Ok "false"
  | JNum z => Ok (of_Z z)
  | JStr s => Ok s
  | JArr items =>
      (fix go (l : list json) : result string :=
         match l with
         | [] => Ok ""
         | x :: rest =>
             let? sx := match x with JNull => Ok "" | _ => to_string x end in
             match rest with
             | [] => Ok sx
             | _ => let? sr := go rest in Ok (sx +:+ "," +:+ sr)
             end
         end) items
  | JObj members =>
      if has_key "toString" members then Throw TypeError else Ok "[object Object]"
  end.

Definition to_string_value (v : value) : result string :=
  match v with
  | None => Ok "undefined"
  | Some x => to_string x
  end.

(** [items.join(sep)] on an array. *)
Fixpoint join_values (sep : string) (items : list json) : result string :=
  match items with
  | [] => Ok ""
  | x :: rest =>
      let? sx := match x with JNull => Ok "" | _ => to_string x end in
      match rest with
      | [] => Ok sx
      | _ => let? sr := join_values sep rest in Ok (sx +:+ sep +:+ sr)
      end
  end.

(** The own enumerable members that a spread copies: the members of an
    object, the indexed elements of an array, the indexed code units of
    a string, nothing for the other values. *)
Fixpoint indexed {A : Type} (f : A -> json) (i : N) (l : list A) : list (string * json) :=
  match l with
  | [] => []
  | x :: rest => (digitsN i, f x) :: indexed f (N.succ i) rest
  end.

Definition own_members (v : json) : list (string * json) :=
  match v with
  | JObj members => members
  | JArr items => indexed (fun x => x) 0 items
  | JStr s => indexed (fun c => JStr (String c "")) 0 (chars s)
  | _ => []
  end.

(** [{ ...v }] *)
Definition spread (v : json) : list (string * json) := own_members v.

(** [v.length] of a truthy value. *)
Definition length_value (v : json) : value :=
  match v with
  | JStr s => Some (JNum (len s))
  | JArr items => Some (JNum (Z.of_nat (length items)))
  | JObj members => lookup "length" members
  | _ => None
  end.

(** [Array.isArray(v)] *)
Definition isArray (v : value) : bool :=
  match v with
  | Some (JArr _) => true
  | _ => false
  end.

End Js.

(* ===================================================================== *)
(** * Dates                                                               *)
(* ===================================================================== *)

Module JsDate.
Import JsString.
#[local] Open Scope Z_scope.

(** The decimal digits of [n], padded with zeros on the left to [width]. *)
Definition pad (width : nat) (n : Z) : string :=
  let d := digitsN (Z.to_N n) in
  JsString.str (repeat "0"%char (width - String.length d)) +:+ d.

(** Year, month and day of the day number [days] counted from
    1970-01-01, in the proleptic Gregorian calendar. *)
Definition civil_from_days (days : Z) : Z * Z * Z :=
  let z := days + 719468 in
  let era := z / 146097 in
  let doe := z - era * 146097 in
  let yoe := (doe - doe / 1460 + doe / 36524 - doe / 146096) / 365 in
  let doy := doe - (365 * yoe + yoe / 4 - yoe / 100) in
  let mp := (5 * doy + 2) / 153 in
  let d := doy - (153 * mp + 2) / 5 + 1 in
  let m := if mp <? 10 then mp + 3 else mp - 9 in
  let y := yoe + era * 400 + (if m <=? 2 then 1 else 0) in
  (y, m, d).

Definition year_string (y : Z) : string :=
  if (0 <=? y) && (y <=? 9999) then pad 4 y
  else (if y <? 0 then "-" else "+") +:+ pad 6 (Z.abs y).

(** [new Date(t).toISOString()] for a time value [t] in milliseconds. *)
Definition toISOString (t : Z) : string :=
  let '(y, m, d) := civil_from_days (t / 86400000) in
  let ms := t mod 86400000 in
  year_string y +:+ "-" +:+ pad 2 m +:+ "-" +:+ pad 2 d +:+ "T"
    +:+ pad 2 (ms / 3600000) +:+ ":" +:+ pad 2 (ms / 60000 mod 60) +:+ ":"
    +:+ pad 2 (ms / 1000 mod 60) +:+ "." +:+ pad 3 (ms mod 1000) +:+ "Z".

End JsDate.

(* ===================================================================== *)
(** * The application state and its environment                           *)
(* ===================================================================== *)

Module App.
Import JsString Json Js.

(** A dialog of the modal system and a message of the toast system. *)
Record Dialog : Type := { dialog_title : string; dialog_message : string }.
Record Toast : Type := { toast_kind : string; toast_message : string }.

(** The in-memory Workflow Record. A step result is kept as the JSON
    value of the object the code pushes; an error is its message. *)
Record Workflow : Type := {
  wf_type : string;
  wf_startTime : Z;
  wf_steps : list (string * json);
  wf_data : json;
  wf_endTime : option Z;
  wf_duration : option Z;
  wf_status : option string;
  wf_error : option string
}.

(** What the host gives and the code cannot compute: how a text reads
    as a date, how a date is written in the host's time zone and locale,
    and how a text compares with a number once coerced. *)
Record Host : Type := {
  (** [Date.parse(text)], [None] for NaN *)
  Date_parse : string -> option Z;
  (** [toDateString()] of the date with this time value *)
  toDateString : Z -> string;
  (** [toLocaleString()] of the date with this time value *)
  toLocaleString : Z -> string;
  (** [text > n], the text coerced by ToNumber *)
  StringToNumber_gt : string -> Z -> bool
}.

(** What surrounds one run: the readings of the clock and of the random
    generator, the user's answers to the confirmation dialogs, and what
    the data manager's loaders resolve to. *)
Record Env : Type := {
  host : Host;
  (** the n-th reading of the clock, in milliseconds *)
  clock : nat -> Z;
  (** the n-th [Math.random().toString(36).substr(2, 9)] *)
  random : nat -> string;
  (** the answer to the n-th confirmation dialog *)
  answers : nat -> bool;
  (** [dataManager.loadCategories()] *)
  categories : list json;
  (** the [appSettings] of the settings data that [dataManager.loadSettings()]
      fetches, or of its fallback *)
  appSettings : value;
  (** [dataManager.getNotesStatistics()] *)
  statistics : json
}.

Record State : Type := {
  localStorage : gmap string string;
  clock_reads : nat;
  random_reads : nat;
  dialogs : list Dialog;
  toasts : list Toast;
  events : list string;
  currentWorkflow : option Workflow;
  workflowHistory : list Workflow
}.

Definition set_localStorage (m : gmap string string) (s : State) : State :=
  {| localStorage := m; clock_reads := clock_reads s; random_reads := random_reads s;
     dialogs := dialogs s; toasts := toasts s; events := events s;
     currentWorkflow := currentWorkflow s; workflowHistory := workflowHistory s |}.

Definition set_clock_reads (n : nat) (s : State) : State :=
  {| localStorage := localStorage s; clock_reads := n; random_reads := random_reads s;
     dialogs := dialogs s; toasts := toasts s; events := events s;
     currentWorkflow := currentWorkflow s; workflowHistory := workflowHistory s |}.

Definition set_random_reads (n : nat) (s : State) : State :=
  {| localStorage := localStorage s; clock_reads := clock_reads s; random_reads := n;
     dialogs := dialogs s; toasts := toasts s; events := events s;
     currentWorkflow := currentWorkflow s; workflowHistory := workflowHistory s |}.

Definition set_dialogs (d : list Dialog) (s : State) : State :=
  {| localStorage := localStorage s; clock_reads := clock_reads s;
     random_reads := random_reads s; dialogs := d; toasts := toasts s; events := events s;
     currentWorkflow := currentWorkflow s; workflowHistory := workflowHistory s |}.

Definition set_toasts (t : list Toast) (s : State) : State :=
  {| localStorage := localStorage s; clock_reads := clock_reads s;
     random_reads := random_reads s; dialogs := dialogs s; toasts := t; events := events s;
     currentWorkflow := currentWorkflow s; workflowHistory := workflowHistory s |}.

Definition set_events (e : list string) (s : State) : State :=
  {| localStorage := localStorage s; clock_reads := clock_reads s;
     random_reads := random_reads s; dialogs := dialogs s; toasts := toasts s; events := e;
     currentWorkflow := currentWorkflow s; workflowHistory := workflowHistory s |}.

Definition set_currentWorkflow (w : option Workflow) (s : State) : State :=
  {| localStorage := localStorage s; clock_reads := clock_reads s;
     random_reads := random_reads s; dialogs := dialogs s; toasts := toasts s;
     events := events s; currentWorkflow := w; workflowHistory := workflowHistory s |}.

Definition set_workflowHistory (h : list Workflow) (s : State) : State :=
  {| localStorage := localStorage s; clock_reads := clock_reads s;
     random_reads := random_reads s; dialogs := dialogs s; toasts := toasts s;
     events := events s; currentWorkflow := currentWorkflow s; workflowHistory := h |}.

(** ** The monad of the asynchronous methods: state and exceptions.
    The state survives a throw, as the effects of JavaScript code do. *)

Definition M (A : Type) : Type := State -> result A * State.

Definition ret {A : Type} (a : A) : M A := fun s => (Ok a, s).

Definition throw {A : Type} (e : string) : M A := fun s => (Throw e, s).

Definition bind {A B : Type} (m : M A) (k : A -> M B) : M B :=
  fun s =>
    match m s with
    | (Ok a, s') => k a s'
    | (Throw e, s') => (Throw e, s')
    end.

Definition lift {A : Type} (r : result A) : M A := fun s => (r, s).

(** [try { body } catch (error) { handler(error) }] *)
Definition try_catch {A : Type} (body : M A) (handler : string -> M A) : M A :=
  fun s =>
    match body s with
    | (Ok a, s') => (Ok a, s')
    | (Throw e, s') => handler e s'
    end.

Notation "'let*' x ':=' m 'in' k" := (bind m (fun x => k))
  (at level 10, x pattern, m at level 100, k at level 200).
Notation "m ';;' k" := (bind m (fun _ => k))
  (at level 100, k at level 200, right associativity).

Definition modify (f : State -> State) : M unit := fun s => (Ok tt, f s).
Definition read {A : Type} (f : State -> A) : M A := fun s => (Ok (f s), s).

Section Primitives.
Variable E : Env.

(** [Date.now()] *)
Definition Date_now : M Z :=
  fun s => (Ok (clock E (clock_reads s)), set_clock_reads (S (clock_reads s)) s).

(** [new Date().toISOString()] *)
Definition Date_toISOString : M string :=
  let* t := Date_now in ret (JsDate.toISOString t).

(** [Math.random().toString(36).substr(2, 9)] *)
Definition Math_random_suffix : M string :=
  fun s => (Ok (random E (random_reads s)), set_random_reads (S (random_reads s)) s).

(** [localStorage.getItem(key) || fallback] *)
Definition getItem_or (key fallback : string) : M string :=
  read (fun s =>
          match localStorage s !! key with
          | Some text => if String.eqb text "" then fallback else text
          | None => fallback
          end).

(** [localStorage.setItem(key, text)] *)
Definition setItem (key text : string) : M unit :=
  modify (fun s => set_localStorage (<[key := text]> (localStorage s)) s).

(** [JSON.parse(text)] *)
Definition JSON_parse (text : string) : result json :=
  match parse text with
  | Some v => Ok v
  | None => Throw "SyntaxError"
  end.

(** [modalSystem.confirm({ title, message, ... })]: the dialog is shown
    and the user's answer comes back. *)
Definition confirm (title message : string) : M bool :=
  fun s =>
    (Ok (answers E (length (dialogs s))),
     set_dialogs (dialogs s ++ [{| dialog_title := title; dialog_message := message |}]) s).

(** [toastSystem.success(message)], [toastSystem.warning(message)] *)
Definition toast (kind message : string) : M unit :=
  modify (fun s => set_toasts (toasts s ++ [{| toast_kind := kind; toast_message := message |}]) s).

(** [window.dispatchEvent(new CustomEvent(name, ...))] *)
Definition dispatchEvent (name : string) : M unit :=
  modify (fun s => set_events (events s ++ [name]) s).

End Primitives.

Section HostFunctions.
Variable E : Env.
#[local] Open Scope Z_scope.

(** ToPrimitive, then the text the host has to read: a string as it is,
    an array or an object through ToString. *)
Definition coerced_text (x : json) : result string :=
  match x with
  | JStr s => Ok s
  | _ => to_string x
  end.

(** [v > n]: [undefined] is NaN and compares false, a boolean and
    [null] count as 1, 0 and 0, the other values are coerced. *)
Definition gt (v : value) (n : Z) : result bool :=
  match v with
  | None => Ok false
  | Some (JNum z) => Ok (z >? n)
  | Some (JBool b) => Ok ((if b then 1 else 0) >? n)
  | Some JNull => Ok (0 >? n)
  | Some x => let? text := coerced_text x in Ok (StringToNumber_gt (host E) text n)
  end.

(** [v && v.length > n] *)
Definition longer_than (v : value) (n : Z) : result bool :=
  match v with
  | Some x => if truthy v then gt (length_value x) n else Ok false
  | None => Ok false
  end.

(** The time value of [new Date(v)], [None] for an invalid date. *)
Definition time_value (v : value) : result (option Z) :=
  match v with
  | None => Ok None
  | Some JNull => Ok (Some 0)
  | Some (JBool b) => Ok (Some (if b then 1 else 0))
  | Some (JNum z) => Ok (if Z.abs z <=? 8640000000000000 then Some z else None)
  | Some x => let? text := coerced_text x in Ok (Date_parse (host E) text)
  end.

(** [new Date(v).toDateString()] *)
Definition dateString (v : value) : result string :=
  let? t := time_value v in
  Ok (match t with
      | Some t => toDateString (host E) t
      | None => "Invalid Date"%string
      end).

(** [new Date(v).toLocaleString()] *)
Definition localeString (v : value) : result string :=
  let? t := time_value v in
  Ok (match t with
      | Some t => toLocaleString (host E) t
      | None => "Invalid Date"%string
      end).

End HostFunctions.

End App.

(* ===================================================================== *)
(** * The data manager: exporting notes                                   *)
(* ===================================================================== *)

Module DataManager.
Import JsString Json Js App.
#[local] Open Scope Z_scope.

Definition dq : string := String "034"%char "".
Definition nl : string := String "010"%char "".

(** [(v || '').replace(...)] with every double quote doubled: only a
    string has [replace]. *)
Definition escaped (v : value) : result string :=
  match or_else v (Some (JStr "")) with
  | Some (JStr s) => Ok (double_quotes s)
  | _ => Throw TypeError
  end.

(** [(v || []).join(sep)]: only an array has [join]. *)
Definition joined (sep : string) (v : value) : result string :=
  match or_else v (Some (JArr [])) with
  | Some (JArr items) => join_values sep items
  | _ => Throw TypeError
  end.

(** An element of a row as [row.join(',')] writes it. *)
Definition cell (v : value) : result string :=
  match v with
  | None => Ok ""%string
  | Some JNull => Ok ""%string
  | Some x => to_string x
  end.

Definition yes_no (v : value) : string := if truthy v then "Yes" else "No".

Definition headers : list string :=
  ["ID"; "Title"; "Content"; "Category"; "Priority"; "Tags"; "Has Audio"; "Is Public";
   "Created Date"; "Modified Date"; "Character Count"]%string.

(** The row of one note in [exportToCSV], joined by commas. *)
Definition csvRow (note : json) : result string :=
  let? id := get "id" note in
  let? idText := to_string_value (or_else id (Some (JStr ""))) in
  let? title := get "title" note in
  let? titleText := escaped title in
  let? content := get "content" note in
  let? contentText := escaped content in
  let? category := get "category" note in
  let? categoryText := to_string_value (or_else category (Some (JStr ""))) in
  let? priority := get "priority" note in
  let? priorityText := to_string_value (or_else priority (Some (JStr "medium"))) in
  let? tags := get "tags" note in
  let? tagsText := joined "; " tags in
  let? audio := get "audio" note in
  let? isPublic := get "isPublic" note in
  let? createdAt := get "createdAt" note in
  let? createdText := to_string_value (or_else createdAt (Some (JStr ""))) in
  let? lastModified := get "lastModified" note in
  let? modifiedText := to_string_value (or_else lastModified (Some (JStr ""))) in
  let? count :=
    cell (match or_else content (Some (JStr "")) with
          | Some x => length_value x
          | None => None
          end) in
  Ok (join ","
        [dq +:+ idText +:+ dq;
         dq +:+ titleText +:+ dq;
         dq +:+ contentText +:+ dq;
         dq +:+ categoryText +:+ dq;
         dq +:+ priorityText +:+ dq;
         dq +:+ tagsText +:+ dq;
         yes_no audio;
         yes_no isPublic;
         dq +:+ createdText +:+ dq;
         dq +:+ modifiedText +:+ dq;
         count]).

(** The [forEach] of [exportToCSV]. *)
Fixpoint csvRows (notes : list json) (csv : string) : result string :=
  match notes with
  | [] => Ok csv
  | note :: rest =>
      let? row := csvRow note in
      csvRows rest (csv +:+ row +:+ nl)
  end.

(** [exportToCSV(notes)] *)
Definition exportToCSV (notes : list json) : result string :=
  csvRows notes (join "," headers +:+ nl).

(** [c.repeat(n)] for a one-unit string. *)
Definition repeat_char (c : ascii) (n : nat) : string := str (repeat c n).

Section ExportData.
Variable E : Env.

(** [v ? new Date(v).toLocaleString() : 'Unknown'] *)
Definition localeString_or_unknown (v : value) : result string :=
  if truthy v then localeString E v else Ok "Unknown"%string.

(** The block of one note in [exportToTXT]; [index] counts from 0. *)
Definition txtBlock (index : Z) (note : json) : result string :=
  let? title := get "title" note in
  let? titleText := to_string_value (or_else title (Some (JStr "Untitled"))) in
  let? category := get "category" note in
  let? categoryText := to_string_value (or_else category (Some (JStr "Uncategorized"))) in
  let? priority := get "priority" note in
  let? priorityText := to_string_value (or_else priority (Some (JStr "Medium"))) in
  let? tags := get "tags" note in
  let? tagsJoined := joined ", " tags in
  let tagsText := if String.eqb tagsJoined "" then "None"%string else tagsJoined in
  let? audio := get "audio" note in
  let? createdAt := get "createdAt" note in
  let? createdText := localeString_or_unknown createdAt in
  let? lastModified := get "lastModified" note in
  let? modifiedText := localeString_or_unknown lastModified in
  let? content := get "content" note in
  let? contentText := to_string_value (or_else content (Some (JStr "No content"))) in
  Ok ("NOTE " +:+ of_Z (index + 1) +:+ nl
        +:+ "────────────────────────────────────────" +:+ nl
        +:+ "Title: " +:+ titleText +:+ nl
        +:+ "Category: " +:+ categoryText +:+ nl
        +:+ "Priority: " +:+ priorityText +:+ nl
        +:+ "Tags: " +:+ tagsText +:+ nl
        +:+ "Has Audio: " +:+ yes_no audio +:+ nl
        +:+ "Created: " +:+ createdText +:+ nl
        +:+ "Modified: " +:+ modifiedText +:+ nl
        +:+ nl +:+ "Content:" +:+ nl +:+ contentText +:+ nl +:+ nl
        +:+ repeat_char "="%char 60 +:+ nl +:+ nl).

(** The [forEach] of [exportToTXT]. *)
Fixpoint txtBlocks (index : Z) (notes : list json) (txt : string) : result string :=
  match notes with
  | [] => Ok txt
  | note :: rest =>
      let? block := txtBlock index note in
      txtBlocks (index + 1) rest (txt +:+ block)
  end.

(** [exportToTXT(notes)] *)
Definition exportToTXT (notes : list json) : M string :=
  let* now := Date_now E in
  let txt :=
    ("NOTES EXPORT - " +:+ toLocaleString (host E) now +:+ nl
       +:+ repeat_char "="%char 60 +:+ nl +:+ nl
       +:+ "Total Notes: " +:+ of_Z (Z.of_nat (length notes)) +:+ nl +:+ nl)%string in
  lift (txtBlocks 0 notes txt).

(** [loadSettings()]: [data.appSettings || {}] *)
Definition loadSettings : json :=
  match or_else (appSettings E) (Some (JObj [])) with
  | Some settings => settings
  | None => JObj []
  end.

(** The document that the JSON export serializes. *)
Definition exportDocument (date : string) (version : json) (notes : list json) : json :=
  JObj [("exportInfo",
         JObj [("date", JStr date); ("version", version); ("format", JStr "json");
               ("totalNotes", JNum (Z.of_nat (length notes)))]);
        ("notes", JArr notes);
        ("categories", JArr (categories E));
        ("metadata", statistics E)]%string.

(** [exportData(notes, format)] *)
Definition exportData (notes : list json) (format : string) : M string :=
  try_catch
    (let format' := toLowerCase format in
     if String.eqb format' "json"
     then
       let* date := Date_toISOString E in
       let* version := lift (get "version" loadSettings) in
       let version' :=
         match or_else version (Some (JStr "2.1.0")) with
         | Some v => v
         | None => JStr "2.1.0"
         end in
       ret (stringify2 (exportDocument date version' notes))
     else if String.eqb format' "csv" then lift (exportToCSV notes)
     else if String.eqb format' "txt" then exportToTXT notes
     else throw ("Unsupported export format: " +:+ format))
    (fun error => throw ("Export failed: " +:+ error)).

End ExportData.

End DataManager.

(* ===================================================================== *)
(** * js/errorHandler.js: categorizing an error                           *)
(* ===================================================================== *)

Module ErrorHandler.
Import JsString Json Js.

(** [error.k] for the members [message], [name] and [type]: a TypeError on
    [undefined] as on [null]. *)
Definition property (error : value) (k : string) : result value :=
  match error with
  | Some e => get k e
  | None => Throw TypeError
  end.

(** [(v || '').toLowerCase()]: only a string has [toLowerCase]. *)
Definition lowered (v : value) : result string :=
  match or_else v (Some (JStr "")) with
  | Some (JStr s) => Ok (toLowerCase s)
  | _ => Throw TypeError
  end.

(** [categorizeError(error)] *)
Definition categorizeError (error : value) : result string :=
  let? message := property error "message" in
  let? message := lowered message in
  let? name := property error "name" in
  let? name := lowered name in
  (* Network errors *)
  if includes message "fetch" || includes message "network"
     || includes message "connection" || includes name "networkerror"
  then Ok "NETWORK"%string
  (* Storage errors *)
  else if includes message "storage" || includes message "quota"
          || includes name "quotaexceedederror"
  then Ok "STORAGE"%string
  (* Permission errors *)
  else if includes message "permission" || includes message "denied"
          || includes message "not allowed" || includes name "notallowederror"
  then Ok "PERMISSION"%string
  (* Audio/Media errors *)
  else if includes message "audio" || includes message "microphone"
          || includes message "media" || includes name "mediaerror"
  then Ok "AUDIO"%string
  (* File errors *)
  else if includes message "file" || includes message "blob"
          || includes message "upload" || includes message "download"
  then Ok "FILE"%string
  (* Validation errors *)
  else if includes message "validation" || includes message "invalid"
          || includes message "required"
  then Ok "VALIDATION"%string
  else
    let? type := property error "type" in
    if strict_eq type (Some (JStr "VALIDATION"))
    then Ok "VALIDATION"%string
    else Ok "UNKNOWN"%string.

(** ** The category order as the specification words it *)

(** The text in which the keywords are looked for: the empty text for a
    member that is missing or falsy, the text in small letters for a
    string; a truthy member that is not a string has none. *)
Definition keyword_text (v : value) : option string :=
  match v with
  | Some (JStr s) => Some (toLowerCase s)
  | _ => if truthy v then None else Some ""
  end.

(** A keyword test: on the lowered message, the lowered name and the
    type of the error. *)
Definition KeywordTest : Type := string -> string -> value -> bool.

Definition any_of (text : string) (keywords : list string) : bool :=
  existsb (includes text) keywords.

(** The categories in their fixed order of checking: Network, Storage,
    Permission, Audio, File, Validation. *)
Definition category_order : list (string * KeywordTest) :=
  [("NETWORK", fun m n _ => any_of m ["fetch"; "network"; "connection"]
                            || any_of n ["networkerror"]);
   ("STORAGE", fun m n _ => any_of m ["storage"; "quota"]
                            || any_of n ["quotaexceedederror"]);
   ("PERMISSION", fun m n _ => any_of m ["permission"; "denied"; "not allowed"]
                               || any_of n ["notallowederror"]);
   ("AUDIO", fun m n _ => any_of m ["audio"; "microphone"; "media"]
                          || any_of n ["mediaerror"]);
   ("FILE", fun m _ _ => any_of m ["file"; "blob"; "upload"; "download"]);
   ("VALIDATION", fun m _ t => any_of m ["validation"; "invalid"; "required"]
                               || strict_eq t (Some (JStr "VALIDATION")))]%string.

(** First match wins, else Unknown. *)
Fixpoint first_match (tests : list (string * KeywordTest)) (m n : string) (t : value)
  : string :=
  match tests with
  | [] => "UNKNOWN"
  | (category, test) :: rest => if test m n t then category else first_match rest m n t
  end.

(** The claim as it is worded: a category for every error value. *)
Definition categorizes_every_error : Prop :=
  forall error : value, exists category, categorizeError error = Ok category.

End ErrorHandler.

(* ===================================================================== *)
(** * js/errorHandler.js: the handling strategy                           *)
(* ===================================================================== *)

Module ErrorStrategy.
Import JsString Json Js.
#[local] Open Scope Z_scope.

(** The names of [errorCategories] and the names that any object
    inherits: the value read under one of the latter is no category and
    has no [retryable]. *)
Definition category_names : list string :=
  ["NETWORK"; "VALIDATION"; "STORAGE"; "PERMISSION"; "AUDIO"; "FILE"; "UNKNOWN"].

Definition inherited_names : list string :=
  ["constructor"; "__defineGetter__"; "__defineSetter__"; "hasOwnProperty";
   "__lookupGetter__"; "__lookupSetter__"; "isPrototypeOf"; "propertyIsEnumerable";
   "toString"; "valueOf"; "__proto__"; "toLocaleString"].

(** [retryable] of the categories set by [initializeErrorCategories]. *)
Definition retryable (name : string) : bool :=
  negb (String.eqb name "VALIDATION" || String.eqb name "FILE").

(** [(this.errorCategories[key] || this.errorCategories.UNKNOWN).retryable] *)
Definition category_retryable (key : string) : value :=
  if existsb (String.eqb key) category_names then Some (JBool (retryable key))
  else if existsb (String.eqb key) inherited_names then None
  else Some (JBool (retryable "UNKNOWN")).

(** [v?.k] *)
Definition optional_get (v : value) (k : string) : result value :=
  match v with
  | None | Some JNull => Ok None
  | Some x => get k x
  end.

Record Strategy : Type := {
  strategy_type : string;
  showModal : bool;
  allowRetry : value;
  autoRetry : bool;
  showDetails : value;
  silent : value;
  retryDelay : option Z
}.

Definition maxRetries : Z := 3.

Section Strategy.
(** [navigator.onLine] *)
Variable onLine : value.
(** [this.getRetryCount(operation)]: what the map of the retry attempts
    holds for the operation, 0 when it holds nothing *)
Variable getRetryCount : value -> nat.

(** [getHandlingStrategy(error, options = {})] *)
Definition getHandlingStrategy (error : json) (options : value) : result Strategy :=
  let options := match options with Some o => o | None => JObj [] end in
  let? category := get "category" error in
  let? key := to_string_value category in
  let? retry :=
    match category_retryable key with
    | Some (JBool true) =>
        let? noRetry := get "noRetry" options in
        Ok (Some (JBool (negb (truthy noRetry))))
    | other => Ok other
    end in
  let? details := get "showDetails" options in
  let? quiet := get "silent" options in
  let strategy :=
    {| strategy_type := "TOAST"; showModal := false; allowRetry := retry;
       autoRetry := false;
       showDetails := or_else details (Some (JBool false));
       silent := or_else quiet (Some (JBool false));
       retryDelay := None |} in
  (* Determine strategy based on severity and context *)
  let? severity := get "severity" error in
  let? context := get "context" error in
  let? critical := optional_get context "critical" in
  let? strategy :=
    (if strict_eq severity (Some (JStr "critical")) || truthy critical
     then Ok {| strategy_type := "MODAL"; showModal := true;
                allowRetry := allowRetry strategy; autoRetry := false;
                showDetails := showDetails strategy; silent := silent strategy;
                retryDelay := None |}
     else if strict_eq category (Some (JStr "VALIDATION"))
     then Ok {| strategy_type := "INLINE"; showModal := false;
                allowRetry := Some (JBool false); autoRetry := false;
                showDetails := showDetails strategy; silent := silent strategy;
                retryDelay := None |}
     else if strict_eq category (Some (JStr "NETWORK"))
             && strict_eq onLine (Some (JBool false))
     then Ok {| strategy_type := "OFFLINE_BANNER"; showModal := false;
                allowRetry := allowRetry strategy; autoRetry := false;
                showDetails := showDetails strategy; silent := silent strategy;
                retryDelay := None |}
     else
       let? userInitiated := get "userInitiated" options in
       if truthy userInitiated
       then Ok {| strategy_type := "MODAL"; showModal := true;
                  allowRetry := Some (JBool true); autoRetry := false;
                  showDetails := showDetails strategy; silent := silent strategy;
                  retryDelay := None |}
       else Ok strategy) in
  (* Auto-retry for certain categories *)
  if strict_eq category (Some (JStr "NETWORK"))
  then
    let? operation := optional_get context "operation" in
    let count := Z.of_nat (getRetryCount operation) in
    if count <? maxRetries
    then Ok {| strategy_type := strategy_type strategy; showModal := showModal strategy;
               allowRetry := allowRetry strategy; autoRetry := true;
               showDetails := showDetails strategy; silent := silent strategy;
               retryDelay := Some (2 ^ count * 1000) |}
    else Ok strategy
  else Ok strategy.

End Strategy.

End ErrorStrategy.

(* ===================================================================== *)
(** * js/businessLogic.js: BusinessLogicManager                           *)
(* ===================================================================== *)

Module BusinessLogic.
Import JsString Json Js App.
#[local] Open Scope Z_scope.

(** The double quote and the line feed inside message texts. *)
Definition dq : string := String "034"%char "".
Definition nl : string := String "010"%char "".

(** ** The rules set by [initializeBusinessRules] *)

Record CreationRules : Type := {
  requiresTemplate : bool;
  requiresCategory : bool;
  allowEmptyContent : bool;
  maxDailyNotes : Z;
  autoSaveEnabled : bool
}.

Record FieldRule : Type := { required : bool; minLength : Z; maxLength : Z }.

Record NoteRules : Type := {
  title_rule : FieldRule;
  content_rule : FieldRule;
  category_required : bool;
  category_validCategories : bool;
  tags_maxCount : Z;
  tags_maxLength : Z;
  priority_enum : list string
}.

(** [businessRules.get('note_creation')] *)
Definition creationRules : CreationRules :=
  {| requiresTemplate := false; requiresCategory := true; allowEmptyContent := false;
     maxDailyNotes := 100; autoSaveEnabled := true |}.

(** [validationRules.get('note')] *)
Definition noteRules : NoteRules :=
  {| title_rule := {| required := true; minLength := 1; maxLength := 200 |};
     content_rule := {| required := true; minLength := 1; maxLength := 50000 |};
     category_required := true; category_validCategories := true;
     tags_maxCount := 10; tags_maxLength := 30;
     priority_enum := ["low"; "medium"; "high"]%string |}.

(** ** Validation *)

Record Validation : Type := {
  isValid : bool;
  errors : list string;
  warnings : list string;
  businessRuleViolations : list string
}.

(** [validation.errors.push(message); validation.isValid = false] *)
Definition fail_error (message : string) (v : Validation) : Validation :=
  {| isValid := false; errors := errors v ++ [message]; warnings := warnings v;
     businessRuleViolations := businessRuleViolations v |}.

(** [validation.warnings.push(message)] *)
Definition warn (message : string) (v : Validation) : Validation :=
  {| isValid := isValid v; errors := errors v; warnings := warnings v ++ [message];
     businessRuleViolations := businessRuleViolations v |}.

(** [validation.businessRuleViolations.push(message); validation.isValid = false] *)
Definition fail_rule (message : string) (v : Validation) : Validation :=
  {| isValid := false; errors := errors v; warnings := warnings v;
     businessRuleViolations := businessRuleViolations v ++ [message] |}.

(** [v.trim().length] of a truthy value: only a string has [trim]. *)
Definition trim_length (v : value) : result Z :=
  match v with
  | Some (JStr s) => Ok (len (trim s))
  | _ => Throw TypeError
  end.

(** [!v || v.trim().length === 0] *)
Definition blank (v : value) : result bool :=
  if negb (truthy v) then Ok true
  else let? n := trim_length v in Ok (n =? 0).

Section Validation.
Variable E : Env.

(** [categories.find(c => c.id === category && c.isActive)] *)
Fixpoint find_active_category (category : value) (cs : list json) : result value :=
  match cs with
  | [] => Ok None
  | c :: rest =>
      let? id := get "id" c in
      let? hit :=
        (if strict_eq id category
         then let? active := get "isActive" c in Ok (truthy active)
         else Ok false) in
      if hit then Ok (Some c) else find_active_category category rest
  end.

(** The [forEach] over the tags in [validateNoteData]. *)
Fixpoint check_tags (tags : list json) (v : Validation) : result Validation :=
  match tags with
  | [] => Ok v
  | tag :: rest =>
      let? long := longer_than E (Some tag) (tags_maxLength noteRules) in
      let? v' :=
        (if long
         then let? text := to_string tag in
              Ok (warn ("Tag " +:+ dq +:+ text +:+ dq +:+ " too long (max "
                          +:+ of_Z (tags_maxLength noteRules) +:+ " chars)") v)
         else Ok v) in
      check_tags rest v'
  end.

(** The [filter] of [getTodayNoteCount] and the length of what it keeps. *)
Fixpoint count_today (today : string) (notes : list json) : result Z :=
  match notes with
  | [] => Ok 0
  | note :: rest =>
      let? createdAt := get "createdAt" note in
      let? noteDate := dateString E createdAt in
      let? n := count_today today rest in
      Ok (if String.eqb noteDate today then 1 + n else n)
  end.


(** [getTodayNoteCount()] *)
Definition getTodayNoteCount : M Z :=
  let* text := getItem_or "notes" "[]" in
  let* notes := lift (JSON_parse text) in
  let* now := Date_now E in
  let today := toDateString (host E) now in
  match notes with
  | JArr items => lift (count_today today items)
  | _ => throw TypeError
  end.

(** [validateBusinessRules(noteData, validation)] *)
Definition validateBusinessRules (noteData : json) (validation : Validation)
  : M Validation :=
  let* validation :=
    (if negb (maxDailyNotes creationRules =? 0)
     then
       let* todayCount := getTodayNoteCount in
       if todayCount >=? maxDailyNotes creationRules
       then ret (fail_rule ("Daily note limit reached ("
                              +:+ of_Z (maxDailyNotes creationRules) +:+ ")") validation)
       else ret validation
     else ret validation) in
  let* empty :=
    (if negb (allowEmptyContent creationRules)
     then let* content := lift (get "content" noteData) in lift (blank content)
     else ret false) in
  if empty
  then ret (fail_rule "Empty content not allowed by business rules" validation)
  else ret validation.

(** [validateNoteData(noteData)] *)
Definition validateNoteData (noteData : json) : M Validation :=
  let validation :=
    {| isValid := true; errors := []; warnings := []; businessRuleViolations := [] |} in
  (* Validate title *)
  let* title := lift (get "title" noteData) in
  let* missing :=
    (if required (title_rule noteRules) then lift (blank title) else ret false) in
  let validation :=
    if missing then fail_error "Title is required" validation else validation in
  let* long := lift (longer_than E title (maxLength (title_rule noteRules))) in
  let validation :=
    if long
    then fail_error ("Title too long (max " +:+ of_Z (maxLength (title_rule noteRules))
                       +:+ " characters)") validation
    else validation in
  (* Validate content *)
  let* content := lift (get "content" noteData) in
  let* missing :=
    (if required (content_rule noteRules) then lift (blank content) else ret false) in
  let validation :=
    if missing then fail_error "Content is required" validation else validation in
  let* long := lift (longer_than E content (maxLength (content_rule noteRules))) in
  let validation :=
    if long
    then fail_error ("Content too long (max " +:+ of_Z (maxLength (content_rule noteRules))
                       +:+ " characters)") validation
    else validation in
  (* Validate category *)
  let* category := lift (get "category" noteData) in
  let validation :=
    if category_required noteRules && negb (truthy category)
    then fail_error "Category is required" validation
    else validation in
  let* validation :=
    (if category_validCategories noteRules && truthy category
     then
       let* validCategory := lift (find_active_category category (categories E)) in
       if negb (truthy validCategory)
       then ret (fail_error "Invalid category selected" validation)
       else ret validation
     else ret validation) in
  (* Validate tags *)
  let* tags := lift (get "tags" noteData) in
  let* validation :=
    match tags with
    | Some (JArr items) =>
        let validation :=
          if Z.of_nat (length items) >? tags_maxCount noteRules
          then warn ("Too many tags (max " +:+ of_Z (tags_maxCount noteRules) +:+ ")")
                 validation
          else validation in
        lift (check_tags items validation)
    | _ => ret validation
    end in
  (* Validate priority *)
  let* priority := lift (get "priority" noteData) in
  let validation :=
    if truthy priority
       && negb (match priority with
                | Some (JStr p) => existsb (String.eqb p) (priority_enum noteRules)
                | _ => false
                end)
    then fail_error "Invalid priority value" validation
    else validation in
  (* Business rule validations *)
  validateBusinessRules noteData validation.

End Validation.

(** ** Workflow records *)

(** [this.currentWorkflow = { type, startTime: Date.now(), steps: [], data }] *)
Definition newWorkflow (type : string) (startTime : Z) (data : json) : Workflow :=
  {| wf_type := type; wf_startTime := startTime; wf_steps := []; wf_data := data;
     wf_endTime := None; wf_duration := None; wf_status := None; wf_error := None |}.

Definition add_step (step : string) (result : json) (w : Workflow) : Workflow :=
  {| wf_type := wf_type w; wf_startTime := wf_startTime w;
     wf_steps := wf_steps w ++ [(step, result)]; wf_data := wf_data w;
     wf_endTime := wf_endTime w; wf_duration := wf_duration w;
     wf_status := wf_status w; wf_error := wf_error w |}.

(** The assignments of [completeWorkflow] to the current record. *)
Definition finish (endTime : Z) (status : string) (error : option string) (w : Workflow)
  : Workflow :=
  {| wf_type := wf_type w; wf_startTime := wf_startTime w; wf_steps := wf_steps w;
     wf_data := wf_data w;
     wf_endTime := Some endTime; wf_duration := Some (endTime - wf_startTime w);
     wf_status := Some status;
     wf_error := match error with Some e => Some e | None => wf_error w end |}.

(** [history.slice(-50)] when the history is longer than 50. *)
Definition keep_last_50 (history : list Workflow) : list Workflow :=
  if (50 <? length history)%nat then skipn (length history - 50) history else history.

Section Workflows.
Variable E : Env.

(** [this.currentWorkflow = { ... }] at the start of a workflow. *)
Definition beginWorkflow (type : string) (data : json) : M unit :=
  let* startTime := Date_now E in
  modify (set_currentWorkflow (Some (newWorkflow type startTime data))).

(** [this.currentWorkflow.steps.push({ step, result })] *)
Definition pushStep (step : string) (result : json) : M unit :=
  let* current := read currentWorkflow in
  match current with
  | Some w => modify (set_currentWorkflow (Some (add_step step result w)))
  | None => throw TypeError
  end.

(** [completeWorkflow(status, error = null)] *)
Definition completeWorkflow (status : string) (error : option string) : M unit :=
  let* current := read currentWorkflow in
  match current with
  | Some w =>
      let* endTime := Date_now E in
      let finished := finish endTime status error w in
      modify (fun s => set_workflowHistory (workflowHistory s ++ [finished]) s) ;;
      modify (set_currentWorkflow None) ;;
      modify (fun s => set_workflowHistory (keep_last_50 (workflowHistory s)) s)
  | None => ret tt
  end.

(** [generateNoteId()] *)
Definition generateNoteId : M string :=
  let* now := Date_now E in
  let* suffix := Math_random_suffix E in
  ret ("note_" +:+ of_Z now +:+ "_" +:+ suffix).

(** [updateDashboardStats()] *)
Definition updateDashboardStats : M unit := dispatchEvent "statsUpdated".

(** ** Deleting a note *)

(** [notes.find(n => n.id === noteId)] *)
Fixpoint find_by_id (noteId : json) (notes : list json) : result value :=
  match notes with
  | [] => Ok None
  | n :: rest =>
      let? id := get "id" n in
      if strict_eq id (Some noteId) then Ok (Some n) else find_by_id noteId rest
  end.

(** [notes.findIndex(n => n.id === noteId)], [None] for -1 *)
Fixpoint findIndex_by_id (noteId : json) (notes : list json) : result (option nat) :=
  match notes with
  | [] => Ok None
  | n :: rest =>
      let? id := get "id" n in
      if strict_eq id (Some noteId) then Ok (Some O)
      else let? i := findIndex_by_id noteId rest in Ok (option_map S i)
  end.

(** [notes.splice(index, 1)]: the array without the element at [index]. *)
Definition remove_at (index : nat) (notes : list json) : list json :=
  firstn index notes ++ skipn (S index) notes.

(** [loadNoteForEditing(noteId)] *)
Definition loadNoteForEditing (noteId : json) : M json :=
  let* text := getItem_or "notes" "[]" in
  let* notes := lift (JSON_parse text) in
  match notes with
  | JArr items =>
      let* note := lift (find_by_id noteId items) in
      match note with
      | Some n => if truthy note then ret n else throw "Note not found"
      | None => throw "Note not found"
      end
  | _ => throw TypeError
  end.

(** The object [validateDeletionPermissions] returns. *)
Record Permission : Type := { canDelete : bool; permission_reason : option string }.

Definition Permission_json (p : Permission) : json :=
  JObj [("canDelete"%string, JBool (canDelete p));
        ("reason"%string,
         match permission_reason p with Some r => JStr r | None => JNull end)].

(** [validateDeletionPermissions(note)] *)
Definition validateDeletionPermissions (note : json) : M Permission :=
  let* isProtected := lift (get "isProtected" note) in
  if truthy isProtected
  then ret {| canDelete := false;
              permission_reason := Some "Note is protected from deletion"%string |}
  else ret {| canDelete := true; permission_reason := None |}.

(** [confirmNoteDeletion(note)], through [modalSystem.confirmDelete] *)
Definition confirmNoteDeletion (note : json) : M bool :=
  let* audio := lift (get "audio" note) in
  let hasAudio :=
    if truthy audio
    then nl +:+ nl +:+ "⚠️ This note contains an audio recording that will also be deleted."
    else ""%string in
  let* title := lift (get "title" note) in
  let* text := lift (to_string_value title) in
  confirm E "Delete Confirmation"
    ("Are you sure you want to delete " +:+ dq +:+ text +:+ dq +:+ "?" +:+ hasAudio
       +:+ nl +:+ nl +:+ "This action cannot be undone.").

(** The backup record [{ note: { ...note }, timestamp, type }]. *)
Definition backupRecord (note : json) (timestamp type : string) : json :=
  JObj [("note"%string, JObj (spread note)); ("timestamp"%string, JStr timestamp);
        ("type"%string, JStr type)].

(** [backups[backupId] = record] on what the backup store parses to.
    The methods are strict mode code: the assignment throws on [null]
    and on a primitive; on an array it adds a member that is not an
    element, which [JSON.stringify] leaves out. *)
Definition assign_backup (backupId : string) (record : json) (backups : json)
  : result json :=
  match backups with
  | JObj members => Ok (JObj (set backupId record members))
  | JArr items => Ok (JArr items)
  | _ => Throw TypeError
  end.

(** [createDeletionBackup(note)] *)
Definition createDeletionBackup (note : json) : M string :=
  let* now := Date_now E in
  let* id := lift (get "id" note) in
  let* idText := lift (to_string_value id) in
  let backupId := ("deletion_backup_" +:+ of_Z now +:+ "_" +:+ idText)%string in
  let* text := getItem_or "note_backups" "{}" in
  let* backups := lift (JSON_parse text) in
  let* timestamp := Date_toISOString E in
  let* backups' :=
    lift (assign_backup backupId (backupRecord note timestamp "deletion_backup") backups) in
  setItem "note_backups" (stringify backups') ;;
  ret backupId.

(** [performNoteDeletion(noteId)]: the deleted note *)
Definition performNoteDeletion (noteId : json) : M value :=
  let* text := getItem_or "notes" "[]" in
  let* notes := lift (JSON_parse text) in
  match notes with
  | JArr items =>
      let* noteIndex := lift (findIndex_by_id noteId items) in
      match noteIndex with
      | None => throw "Note not found for deletion"
      | Some i =>
          setItem "notes" (stringify (JArr (remove_at i items))) ;;
          ret (nth_error items i)
      end
  | _ => throw TypeError
  end.

(** [handlePostDeletionActions(deletedNote)] *)
Definition handlePostDeletionActions (deletedNote : json) : M unit :=
  let* title := lift (get "title" deletedNote) in
  let* text := lift (to_string_value title) in
  toast "success" ("Note " +:+ dq +:+ text +:+ dq +:+ " deleted successfully") ;;
  updateDashboardStats.

(** What [startNoteDeletionWorkflow] resolves to:
    [{ success: false, reason }] or
    [{ success: true, deletedNote, backup, workflow }]. *)
Inductive DeletionResult : Type :=
| DeletionCancelled (reason : string)
| Deleted (deletedNote : json) (backup : string) (workflow : option Workflow).

Definition deletion_success (r : DeletionResult) : bool :=
  match r with
  | DeletionCancelled _ => false
  | Deleted _ _ _ => true
  end.

(** [startNoteDeletionWorkflow(noteId)] *)
Definition startNoteDeletionWorkflow (noteId : json) : M DeletionResult :=
  try_catch
    (beginWorkflow "note_deletion" (JObj [("noteId"%string, noteId)]) ;;
     (* Step 1: Load note for deletion *)
     let* note := loadNoteForEditing noteId in
     pushStep "load_note" note ;;
     (* Step 2: Validate deletion permissions *)
     let* permissionResult := validateDeletionPermissions note in
     pushStep "validate_permissions" (Permission_json permissionResult) ;;
     if negb (canDelete permissionResult)
     then
       let* reason :=
         lift (to_string (match permission_reason permissionResult with
                          | Some r => JStr r
                          | None => JNull
                          end)) in
       throw ("Cannot delete note: " +:+ reason)
     else
       (* Step 3: Confirm deletion with user *)
       let* userConfirmed := confirmNoteDeletion note in
       pushStep "user_confirmation" (JBool userConfirmed) ;;
       if negb userConfirmed
       then
         completeWorkflow "cancelled" None ;;
         ret (DeletionCancelled "User cancelled deletion")
       else
         (* Step 4: Create deletion backup *)
         let* backupId := createDeletionBackup note in
         pushStep "create_backup"
           (JObj [("backupId"%string, JStr backupId); ("success"%string, JBool true)]) ;;
         (* Step 5: Perform deletion *)
         let* deletedNote := performNoteDeletion noteId in
         pushStep "deletion"
           (JObj (("success"%string, JBool true)
                    :: match deletedNote with
                       | Some d => [("deletedNote"%string, d)]
                       | None => []
                       end)) ;;
         (* Step 6: Post-deletion cleanup *)
         handlePostDeletionActions note ;;
         completeWorkflow "success" None ;;
         let* workflow := read currentWorkflow in
         ret (Deleted note backupId workflow))
    (fun error => completeWorkflow "error" (Some error) ;; throw error).

End Workflows.

(** ** Comparing two versions of a note *)

(** An element [{ field, from, to }] of the changes. *)
Record Change : Type := { field : string; from : value; to : value }.

(** [JSON.stringify(v)], [undefined] for [undefined]. *)
Definition stringify_value (v : value) : option string := option_map stringify v.

(** [calculateNoteChanges(original, updated)] *)
Definition calculateNoteChanges (original updated : json) : result (list Change) :=
  let changes := [] in
  let? title0 := get "title" original in
  let? title1 := get "title" updated in
  let changes :=
    if negb (strict_eq title0 title1)
    then changes ++ [{| field := "title"; from := title0; to := title1 |}]
    else changes in
  let? content0 := get "content" original in
  let? content1 := get "content" updated in
  let changes :=
    if negb (strict_eq content0 content1)
    then changes ++ [{| field := "content"; from := content0; to := content1 |}]
    else changes in
  let? category0 := get "category" original in
  let? category1 := get "category" updated in
  let changes :=
    if negb (strict_eq category0 category1)
    then changes ++ [{| field := "category"; from := category0; to := category1 |}]
    else changes in
  let? tags0 := get "tags" original in
  let? tags1 := get "tags" updated in
  let changes :=
    if negb (bool_decide (stringify_value tags0 = stringify_value tags1))
    then changes ++ [{| field := "tags"; from := tags0; to := tags1 |}]
    else changes in
  let? priority0 := get "priority" original in
  let? priority1 := get "priority" updated in
  let changes :=
    if negb (strict_eq priority0 priority1)
    then changes ++ [{| field := "priority"; from := priority0; to := priority1 |}]
    else changes in
  let? audio0 := get "audio" original in
  let? audio1 := get "audio" updated in
  let changes :=
    if negb (Bool.eqb (truthy audio0) (truthy audio1))
    then changes ++ [{| field := "audio"; from := Some (JBool (truthy audio0));
                        to := Some (JBool (truthy audio1)) |}]
    else changes in
  Ok changes.

(** ** Importing notes *)

(** The uploaded file: its name, size and MIME type, and the text the
    FileReader gives, [None] when the read fails. *)
Record File : Type := {
  file_name : string;
  file_size : Z;
  file_type : string;
  file_text : option string
}.

(** [{ isValid, errors }] of [validateImportFile] *)
Record FileValidation : Type := { fv_isValid : bool; fv_errors : list string }.

(** [validateImportFile(file)] *)
Definition validateImportFile (file : File) : FileValidation :=
  let validation := {| fv_isValid := true; fv_errors := [] |} in
  let validation :=
    if file_size file >? 10 * 1024 * 1024
    then {| fv_isValid := false;
            fv_errors := fv_errors validation ++ ["File too large (max 10MB)"%string] |}
    else validation in
  let allowedTypes := ["application/json"; "text/plain"; "text/csv"]%string in
  if negb (existsb (String.eqb (file_type file)) allowedTypes)
  then {| fv_isValid := false;
          fv_errors := fv_errors validation ++ ["Unsupported file type"%string] |}
  else validation.

(** [{ isValid, warnings }] of [validateImportData] *)
Record DataValidation : Type := { dv_isValid : bool; dv_warnings : list string }.

(** The [forEach] of [validateImportData]; [index] counts from 0. *)
Fixpoint check_import_notes (index : Z) (notes : list json) (warnings : list string)
  : result (list string) :=
  match notes with
  | [] => Ok warnings
  | note :: rest =>
      let? title := get "title" note in
      let warnings :=
        if negb (truthy title)
        then warnings ++ [("Note " +:+ of_Z (index + 1) +:+ " missing title")%string]
        else warnings in
      let? content := get "content" note in
      let warnings :=
        if negb (truthy content)
        then warnings ++ [("Note " +:+ of_Z (index + 1) +:+ " missing content")%string]
        else warnings in
      check_import_notes (index + 1) rest warnings
  end.

(** [validateImportData(data)] *)
Definition validateImportData (data : json) : result DataValidation :=
  let validation := {| dv_isValid := true; dv_warnings := [] |} in
  let? notes := get "notes" data in
  let validation :=
    if negb (truthy notes) || negb (isArray notes)
    then {| dv_isValid := dv_isValid validation;
            dv_warnings := dv_warnings validation
                             ++ ["No valid notes found in import data"%string] |}
    else validation in
  if truthy notes
  then
    match notes with
    | Some (JArr items) =>
        let? warnings := check_import_notes 0 items (dv_warnings validation) in
        Ok {| dv_isValid := dv_isValid validation; dv_warnings := warnings |}
    | _ => Throw TypeError
    end
  else Ok validation.

(** [v ? v.length : 0] *)
Definition length_or_zero (v : value) : value :=
  match v with
  | Some x => if truthy v then length_value x else Some (JNum 0)
  | None => Some (JNum 0)
  end.

(** [{ imported, skipped, errors }] of [performDataImport] *)
Record ImportResult : Type := { imported : Z; skipped : Z; import_errors : list string }.

(** [{ confirmed, options }] of [showImportPreview] *)
Record ImportOptions : Type := {
  mergeCategories : bool; mergeTemplates : bool; skipDuplicates : bool
}.

(** What [startImportWorkflow] resolves to: [{ success: false, reason }]
    or [{ success: true, imported, skipped, errors }]. *)
Inductive ImportOutcome : Type :=
| ImportCancelled (reason : string)
| Imported (imported skipped : Z) (errors : list string).

Section ImportWorkflow.
Variable E : Env.

(** One note of [parseTextToNotes]. *)
Definition textNote (id title content createdAt lastModified : string) : json :=
  JObj [("id", JStr id); ("title", JStr title); ("content", JStr content);
        ("category", JStr "personal"); ("tags", JArr [JStr "imported"]);
        ("priority", JStr "medium"); ("isPublic", JBool false); ("audio", JNull);
        ("createdAt", JStr createdAt); ("lastModified", JStr lastModified)]%string.

(** The [forEach] of [parseTextToNotes]; [index] counts from 0. *)
Fixpoint parseSections (index : Z) (sections : list string) : M (list json) :=
  match sections with
  | [] => ret []
  | section :: rest =>
      let lines := split nl (trim section) in
      let* note :=
        match lines with
        | [] => ret []
        | first :: others =>
            let* id := generateNoteId E in
            let title :=
              if String.eqb first "" then ("Imported Note " +:+ of_Z (index + 1))%string
              else first in
            let body := join nl others in
            let content := if String.eqb body "" then first else body in
            let* createdAt := Date_toISOString E in
            let* lastModified := Date_toISOString E in
            ret [textNote id title content createdAt lastModified]
        end in
      let* notes := parseSections (index + 1) rest in
      ret (note ++ notes)
  end.

(** [parseTextToNotes(content)] *)
Definition parseTextToNotes (content : string) : M (list json) :=
  parseSections 0 (split (nl +:+ nl) content).

(** [parseImportFile(file)]: the parsed data; the format is the file's type. *)
Definition parseImportFile (file : File) : M json :=
  match file_text file with
  | None => throw "Failed to read file"
  | Some content =>
      try_catch
        (if String.eqb (file_type file) "application/json"
         then lift (JSON_parse content)
         else let* notes := parseTextToNotes content in
              ret (JObj [("notes"%string, JArr notes)]))
        (fun error => throw ("Failed to parse file: " +:+ error))
  end.

(** [showImportPreview(data)]: whether the user confirmed, and the options *)
Definition showImportPreview (data : json) : M (bool * ImportOptions) :=
  let* notes := lift (get "notes" data) in
  let* noteCount := lift (to_string_value (length_or_zero notes)) in
  let* cats := lift (get "categories" data) in
  let* hasCategories := lift (to_string_value (length_or_zero cats)) in
  let* templates := lift (get "templates" data) in
  let* hasTemplates := lift (to_string_value (length_or_zero templates)) in
  let message :=
    ("Import Preview:" +:+ nl +:+ "        " +:+ nl
       +:+ "📝 Notes: " +:+ noteCount +:+ nl
       +:+ "📁 Categories: " +:+ hasCategories +:+ nl
       +:+ "📋 Templates: " +:+ hasTemplates +:+ nl +:+ nl
       +:+ "This will add the imported items to your existing data.")%string in
  let* confirmed := confirm E "Confirm Import" message in
  ret (confirmed,
       {| mergeCategories := true; mergeTemplates := true; skipDuplicates := true |}).

(** The imported copy [{ ...note, id, createdAt, lastModified }]. *)
Definition importedNote (note : json) (id createdAt lastModified : string) : json :=
  JObj (set "lastModified" (JStr lastModified)
          (set "createdAt" (JStr createdAt)
             (set "id" (JStr id) (spread note)))).

(** [existingNotes.push(note)]: only an array has [push]. *)
Definition push (existingNotes : json) (note : json) : result json :=
  match existingNotes with
  | JArr items => Ok (JArr (items ++ [note]))
  | _ => Throw TypeError
  end.

(** The body of the [try] in the loop of [performDataImport]. *)
Definition importOne (note existingNotes : json) : M json :=
  let* id := generateNoteId E in
  let* createdAt := Date_toISOString E in
  let* lastModified := Date_toISOString E in
  lift (push existingNotes (importedNote note id createdAt lastModified)).

(** The loop of [performDataImport] over the incoming notes. *)
Fixpoint importLoop (notes : list json) (existingNotes : json) (result : ImportResult)
  : M (json * ImportResult) :=
  match notes with
  | [] => ret (existingNotes, result)
  | note :: rest =>
      let* step :=
        try_catch
          (let* existingNotes' := importOne note existingNotes in
           ret (existingNotes',
                {| imported := imported result + 1; skipped := skipped result;
                   import_errors := import_errors result |}))
          (fun error =>
             let* title := lift (get "title" note) in
             let* text := lift (to_string_value title) in
             ret (existingNotes,
                  {| imported := imported result; skipped := skipped result;
                     import_errors :=
                       import_errors result
                         ++ [("Failed to import note " +:+ dq +:+ text +:+ dq +:+ ": "
                                +:+ error)%string] |})) in
      importLoop rest (fst step) (snd step)
  end.

(** [performDataImport(data, options)] *)
Definition performDataImport (data : json) (options : ImportOptions) : M ImportResult :=
  let result := {| imported := 0; skipped := 0; import_errors := [] |} in
  let* notes := lift (get "notes" data) in
  match notes with
  | Some (JArr items) =>
      let* text := getItem_or "notes" "[]" in
      let* existingNotes := lift (JSON_parse text) in
      let* done := importLoop items existingNotes result in
      setItem "notes" (stringify (fst done)) ;;
      ret (snd done)
  | _ => ret result
  end.

(** [handlePostImportActions(importResult)] *)
Definition handlePostImportActions (importResult : ImportResult) : M unit :=
  toast "success"
    ("Import completed! " +:+ of_Z (imported importResult) +:+ " notes imported") ;;
  (if (0 <? length (import_errors importResult))%nat
   then toast "warning"
          (of_Z (Z.of_nat (length (import_errors importResult))) +:+ " items had errors")
   else ret tt) ;;
  updateDashboardStats.

Definition FileValidation_json (v : FileValidation) : json :=
  JObj [("isValid", JBool (fv_isValid v)); ("errors", JArr (map JStr (fv_errors v)))]%string.

Definition DataValidation_json (v : DataValidation) : json :=
  JObj [("isValid", JBool (dv_isValid v));
        ("warnings", JArr (map JStr (dv_warnings v)))]%string.

Definition ImportOptions_json (o : ImportOptions) : json :=
  JObj [("mergeCategories", JBool (mergeCategories o));
        ("mergeTemplates", JBool (mergeTemplates o));
        ("skipDuplicates", JBool (skipDuplicates o))]%string.

Definition ImportResult_json (r : ImportResult) : json :=
  JObj [("imported", JNum (imported r)); ("skipped", JNum (skipped r));
        ("errors", JArr (map JStr (import_errors r)))]%string.

(** [startImportWorkflow(file)] *)
Definition startImportWorkflow (file : File) : M ImportOutcome :=
  try_catch
    (beginWorkflow E "data_import"
       (JObj [("filename", JStr (file_name file)); ("fileSize", JNum (file_size file))]%string) ;;
     (* Step 1: Validate file *)
     let fileValidation := validateImportFile file in
     pushStep "validate_file" (FileValidation_json fileValidation) ;;
     if negb (fv_isValid fileValidation)
     then throw ("Invalid file: " +:+ join ", " (fv_errors fileValidation))
     else
       (* Step 2: Read and parse file *)
       let* data := parseImportFile file in
       pushStep "parse_file"
         (JObj [("data", data); ("format", JStr (file_type file))]%string) ;;
       (* Step 3: Validate import data *)
       let* dataValidation := lift (validateImportData data) in
       pushStep "validate_data" (DataValidation_json dataValidation) ;;
       let* proceed :=
         (if negb (dv_isValid dataValidation)
          then confirm E "Import Warnings"
                 ("Import has issues:" +:+ nl +:+ join nl (dv_warnings dataValidation)
                    +:+ nl +:+ nl +:+ "Proceed anyway?")
          else ret true) in
       if negb proceed
       then
         completeWorkflow E "cancelled" None ;;
         ret (ImportCancelled "User cancelled due to validation issues")
       else
         (* Step 4: Show import preview *)
         let* importPreview := showImportPreview data in
         pushStep "preview"
           (JObj [("confirmed", JBool (fst importPreview));
                  ("options", ImportOptions_json (snd importPreview))]%string) ;;
         if negb (fst importPreview)
         then
           completeWorkflow E "cancelled" None ;;
           ret (ImportCancelled "User cancelled after preview")
         else
           (* Step 5: Perform import *)
           let* importResult := performDataImport data (snd importPreview) in
           pushStep "import" (ImportResult_json importResult) ;;
           (* Step 6: Post-import actions *)
           handlePostImportActions importResult ;;
           completeWorkflow E "success" None ;;
           ret (Imported (imported importResult) (skipped importResult)
                  (import_errors importResult)))
    (fun error => completeWorkflow E "error" (Some error) ;; throw error).

End ImportWorkflow.

End BusinessLogic.

(* ===================================================================== *)
(** * js/businessLogic.js: editing a note                                 *)
(* ===================================================================== *)

Module Editing.
Import JsString Json Js App BusinessLogic.
#[local] Open Scope Z_scope.

(** [{ ...a, ...b }]: the members of [a], those that [b] has too with
    the value [b] gives them, then the other members of [b]. *)
Definition merge (a b : list (string * json)) : list (string * json) :=
  fold_left (fun acc kv => set (fst kv) (snd kv) acc) b a.

(** [[...v]] on what [JSON.parse] can give: the elements of an array,
    the code units of a string; the other values are not iterable. *)
Definition iterate (v : json) : result (list json) :=
  match v with
  | JArr items => Ok items
  | JStr s => Ok (map (fun c => JStr (String c "")) (chars s))
  | _ => Throw TypeError
  end.

(** A member that [JSON.stringify] writes only when it is defined. *)
Definition defined (k : string) (v : value) : list (string * json) :=
  match v with
  | Some x => [(k, x)]
  | None => []
  end.

(** The element [{ field, from, to }] of the changes as it is persisted. *)
Definition Change_json (c : Change) : json :=
  JObj ([("field", JStr (field c))] ++ defined "from" (from c) ++ defined "to" (to c)).

(** [a !== b] between a member of [originalNote] and the member of the
    same name of [updatedNote]. The updated note is built by spreading
    the original, so a member that it took from the original ([shared])
    is one and the same value as there, which never differs from itself,
    be it an array or an object; the other members come from a record
    built apart. *)
Definition differs (shared : bool) (a b : value) : bool := negb (shared || strict_eq a b).

(** [calculateNoteChanges(originalNote, updatedNote)] on an updated note
    that took from the original its members [k] with [shared k]. *)
Definition calculateNoteChanges_sharing (shared : string -> bool) (original updated : json)
  : result (list Change) :=
  let changes := [] in
  let? title0 := get "title" original in
  let? title1 := get "title" updated in
  let changes :=
    if differs (shared "title") title0 title1
    then changes ++ [{| field := "title"; from := title0; to := title1 |}]
    else changes in
  let? content0 := get "content" original in
  let? content1 := get "content" updated in
  let changes :=
    if differs (shared "content") content0 content1
    then changes ++ [{| field := "content"; from := content0; to := content1 |}]
    else changes in
  let? category0 := get "category" original in
  let? category1 := get "category" updated in
  let changes :=
    if differs (shared "category") category0 category1
    then changes ++ [{| field := "category"; from := category0; to := category1 |}]
    else changes in
  let? tags0 := get "tags" original in
  let? tags1 := get "tags" updated in
  let changes :=
    if negb (bool_decide (stringify_value tags0 = stringify_value tags1))
    then changes ++ [{| field := "tags"; from := tags0; to := tags1 |}]
    else changes in
  let? priority0 := get "priority" original in
  let? priority1 := get "priority" updated in
  let changes :=
    if differs (shared "priority") priority0 priority1
    then changes ++ [{| field := "priority"; from := priority0; to := priority1 |}]
    else changes in
  let? audio0 := get "audio" original in
  let? audio1 := get "audio" updated in
  let changes :=
    if negb (Bool.eqb (truthy audio0) (truthy audio1))
    then changes ++ [{| field := "audio"; from := Some (JBool (truthy audio0));
                        to := Some (JBool (truthy audio1)) |}]
    else changes in
  Ok changes.

(** [{ ...originalNote, ...updatedData }] keeps the member [k] of the
    original when the updated data has none of that name. *)
Definition kept (updatedData : json) (k : string) : bool :=
  negb (has_key k (spread updatedData)).

(** The object [validateEditPermissions] returns. *)
Record EditPermission : Type := { canEdit : bool; edit_reason : option string }.

Definition EditPermission_json (p : EditPermission) : json :=
  JObj [("canEdit", JBool (canEdit p));
        ("reason", match edit_reason p with Some r => JStr r | None => JNull end)].

(** What [startNoteEditingWorkflow] resolves to:
    [{ success: true, note, canEdit: true, backup, workflow }]. *)
Record EditingStarted : Type := {
  started_note : json;
  started_backup : string;
  started_workflow : option Workflow
}.

(** What [completeNoteEditingWorkflow] resolves to:
    [{ success: true, note, changes }]. *)
Record EditingCompleted : Type := {
  completed_note : json;
  completed_changes : list Change
}.

Section EditingWorkflows.
Variable E : Env.

(** [validateEditPermissions(note)] *)
Definition validateEditPermissions (note : json) : M EditPermission :=
  ret {| canEdit := true; edit_reason := None |}.

(** [createNoteBackup(note)] *)
Definition createNoteBackup (note : json) : M string :=
  let* now := Date_now E in
  let* id := lift (get "id" note) in
  let* idText := lift (to_string_value id) in
  let backupId := ("backup_" +:+ of_Z now +:+ "_" +:+ idText)%string in
  let* text := getItem_or "note_backups" "{}" in
  let* backups := lift (JSON_parse text) in
  let* timestamp := Date_toISOString E in
  let* backups' :=
    lift (assign_backup backupId (backupRecord note timestamp "edit_backup") backups) in
  setItem "note_backups" (stringify backups') ;;
  ret backupId.

(** [updateExistingNote(noteId, updatedNote)] *)
Definition updateExistingNote (noteId updatedNote : json) : M json :=
  let* text := getItem_or "notes" "[]" in
  let* notes := lift (JSON_parse text) in
  match notes with
  | JArr items =>
      let* noteIndex := lift (findIndex_by_id noteId items) in
      match noteIndex with
      | None => throw "Note not found for update"
      | Some i =>
          setItem "notes" (stringify (JArr (<[i := updatedNote]> items))) ;;
          ret updatedNote
      end
  | _ => throw TypeError
  end.

(** [handlePostUpdateActions(originalNote, updatedNote)], the updated
    note having taken from the original its members [k] with [shared k] *)
Definition handlePostUpdateActions (shared : string -> bool) (originalNote updatedNote : json)
  : M unit :=
  let* changes := lift (calculateNoteChanges_sharing shared originalNote updatedNote) in
  let changeText := join ", " (map field changes) in
  toast "success" ("Note updated! Changed: " +:+ changeText) ;;
  updateDashboardStats.

(** [startNoteEditingWorkflow(noteId)] *)
Definition startNoteEditingWorkflow (noteId : json) : M EditingStarted :=
  try_catch
    (beginWorkflow E "note_editing" (JObj [("noteId"%string, noteId)]) ;;
     (* Step 1: Load note *)
     let* note := loadNoteForEditing noteId in
     pushStep "load_note" note ;;
     (* Step 2: Validate edit permissions *)
     let* permissionResult := validateEditPermissions note in
     pushStep "validate_permissions" (EditPermission_json permissionResult) ;;
     if negb (canEdit permissionResult)
     then
       let* reason :=
         lift (to_string (match edit_reason permissionResult with
                          | Some r => JStr r
                          | None => JNull
                          end)) in
       throw ("Cannot edit note: " +:+ reason)
     else
       (* Step 3: Create backup *)
       let* backupId := createNoteBackup note in
       pushStep "create_backup"
         (JObj [("backupId"%string, JStr backupId); ("success"%string, JBool true)]) ;;
       completeWorkflow E "editing_started" None ;;
       let* workflow := read currentWorkflow in
       ret {| started_note := note; started_backup := backupId;
              started_workflow := workflow |})
    (fun error => completeWorkflow E "error" (Some error) ;; throw error).

(** The note that [completeNoteEditingWorkflow] saves:
    [{ ...originalNote, ...updatedData, lastModified, editHistory }]. *)
Definition editedNote (originalNote updatedData : json) (lastModified : string)
    (editHistory : list json) : json :=
  JObj (set "editHistory" (JArr editHistory)
          (set "lastModified" (JStr lastModified)
             (merge (spread originalNote) (spread updatedData)))).

(** [completeNoteEditingWorkflow(noteId, updatedData)] *)
Definition completeNoteEditingWorkflow (noteId updatedData : json) : M EditingCompleted :=
  try_catch
    ((* Step 1: Validate updated data *)
     let* validationResult := validateNoteData E updatedData in
     if negb (isValid validationResult)
     then throw ("Validation failed: " +:+ join ", " (errors validationResult))
     else
       (* Step 2: Load original note *)
       let* originalNote := loadNoteForEditing noteId in
       (* Step 3: Apply changes *)
       let* lastModified := Date_toISOString E in
       let* oldHistory := lift (get "editHistory" originalNote) in
       let* history :=
         lift (match or_else oldHistory (Some (JArr [])) with
               | Some h => iterate h
               | None => Ok []
               end) in
       let* timestamp := Date_toISOString E in
       let* changes := lift (calculateNoteChanges originalNote updatedData) in
       let entry :=
         JObj [("timestamp"%string, JStr timestamp);
               ("changes"%string, JArr (map Change_json changes))] in
       let updatedNote := editedNote originalNote updatedData lastModified (history ++ [entry]) in
       (* Step 4: Save updated note *)
       let* saveResult := updateExistingNote noteId updatedNote in
       (* Step 5: Post-update actions *)
       handlePostUpdateActions (kept updatedData) originalNote updatedNote ;;
       let* changes' := lift (calculateNoteChanges originalNote updatedData) in
       ret {| completed_note := updatedNote; completed_changes := changes' |})
    (fun error => throw error).

End EditingWorkflows.

End Editing.

(* ===================================================================== *)
(** * js/businessLogic.js: the data of a new note                         *)
(* ===================================================================== *)

Module Creation.
Import JsString Json Js App BusinessLogic Editing.

Section CreatingNotes.
Variable E : Env.

(** [template ? template.k : fallback] *)
Definition from_template (template : value) (k : string) (fallback : json) : result value :=
  match template with
  | Some t => if truthy template then get k t else Ok (Some fallback)
  | None => Ok (Some fallback)
  end.

(** [handleNoteCreation(template, category)]: the note data; a member
    whose value is [undefined] is left out, as [JSON.stringify] and a
    property read see it. *)
Definition handleNoteCreation (template category : value) : M json :=
  let* id := generateNoteId E in
  let* title := lift (from_template template "title" (JStr "New Note")) in
  let* content := lift (from_template template "content" (JStr "")) in
  let* categoryId :=
    lift (match category with
          | Some c => get "id" c
          | None => Throw TypeError
          end) in
  let* tags :=
    lift (match template with
          | Some t =>
              if truthy template
              then let? tags := get "tags" t in
                   match tags with
                   | Some x => iterate x
                   | None => Throw TypeError
                   end
              else Ok []
          | None => Ok []
          end) in
  let* templateId := lift (from_template template "id" JNull) in
  let* createdAt := Date_toISOString E in
  let* lastModified := Date_toISOString E in
  ret (JObj ([("id", JStr id)]
               ++ defined "title" title
               ++ defined "content" content
               ++ defined "category" categoryId
               ++ [("tags", JArr tags); ("priority", JStr "medium");
                   ("isPublic", JBool false); ("audio", JNull)]
               ++ defined "template" templateId
               ++ [("createdAt", JStr createdAt); ("lastModified", JStr lastModified)])).

End CreatingNotes.

End Creation.

(* ===================================================================== *)
(** * js/businessLogic.js: saving a note and its statistics               *)
(* ===================================================================== *)

Module Saving.
Import JsString Json Js App BusinessLogic.
#[local] Open Scope Z_scope.

(** The integer [z] as a Number: itself below 2^53, and above it the
    nearest integer with 53 significant bits, the even one of two that
    are equally near; [None] is an infinity, from 2^1024 on. *)
Definition to_double (z : Z) : option Z :=
  let a := Z.abs z in
  if a <? 2 ^ 53 then Some z
  else
    let e := Z.log2 a - 52 in
    let q := a / 2 ^ e in
    let r := a mod 2 ^ e in
    let half := 2 ^ (e - 1) in
    let q' := if (half <? r) || ((r =? half) && Z.odd q) then q + 1 else q in
    let d := q' * 2 ^ e in
    if d <? 2 ^ 1024 then Some (Z.sgn z * d) else None.

(** What [JSON.stringify] writes for a Number: an infinity is [null]. *)
Definition number_json (d : option Z) : json :=
  match d with
  | Some z => JNum z
  | None => JNull
  end.

(** [(v || 0) + 1]: a number is incremented, [true] counts as 1, and a
    text, an array or an object is followed by the text [1]. *)
Definition plus_one (v : value) : result json :=
  match or_else v (Some (JNum 0)) with
  | Some (JNum z) =>
      Ok (number_json (match to_double z with
                       | Some d => to_double (d + 1)
                       | None => None
                       end))
  | Some (JBool _) => Ok (JNum 2)
  | Some (JStr s) => Ok (JStr (s +:+ "1"))
  | Some x => let? text := to_string x in Ok (JStr (text +:+ "1"))
  | None => Ok (JNum 1)
  end.

(** [o[k] = v] as [JSON.stringify] shows it afterwards: a member of an
    object is set, or dropped when the value is [undefined]; on an array
    the member is not an element and is not written; on [null] and on a
    primitive the assignment throws, the methods being strict mode code. *)
Fixpoint remove (k : string) (members : list (string * json)) : list (string * json) :=
  match members with
  | [] => []
  | (k', v) :: rest => if String.eqb k k' then remove k rest else (k', v) :: remove k rest
  end.

Definition assign (k : string) (v : value) (o : json) : result json :=
  match o with
  | JObj members =>
      Ok (JObj (match v with
                | Some x => set k x members
                | None => remove k members
                end))
  | JArr items => Ok (JArr items)
  | _ => Throw TypeError
  end.

(** [trackNoteCreated(note)] *)
Definition trackNoteCreated (note : json) : M unit :=
  let* text := getItem_or "app_stats" "{}" in
  let* stats := lift (JSON_parse text) in
  let* total := lift (get "totalNotesCreated" stats) in
  let* total' := lift (plus_one total) in
  let* stats := lift (assign "totalNotesCreated" (Some total') stats) in
  let* createdAt := lift (get "createdAt" note) in
  let* stats := lift (assign "lastNoteCreated" createdAt stats) in
  let* audio := lift (get "audio" note) in
  let* stats :=
    (if truthy audio
     then
       let* withAudio := lift (get "notesWithAudio" stats) in
       let* withAudio' := lift (plus_one withAudio) in
       lift (assign "notesWithAudio" (Some withAudio') stats)
     else ret stats) in
  setItem "app_stats" (stringify stats).

(** [saveNote(noteData)]: the note and the [noteCount] of the result *)
Definition saveNote (noteData : json) : M (json * Z) :=
  try_catch
    (let* text := getItem_or "notes" "[]" in
     let* existingNotes := lift (JSON_parse text) in
     match existingNotes with
     | JArr items =>
         setItem "notes" (stringify (JArr (items ++ [noteData]))) ;;
         trackNoteCreated noteData ;;
         ret (noteData, Z.of_nat (length (items ++ [noteData])))
     | _ => throw TypeError
     end)
    (fun error => throw ("Failed to save note: " +:+ error)).

End Saving.

Module Achievements.
Import JsString Json Js App BusinessLogic.
#[local] Open Scope Z_scope.

(** [achievements.includes(name)]: an element of an array, a part of a
    text; the other values have no [includes]. *)
Definition includes_value (achievements : json) (name : string) : result bool :=
  match achievements with
  | JArr items => Ok (existsb (fun x => strict_eq (Some x) (Some (JStr name))) items)
  | JStr t => Ok (includes t name)
  | _ => Throw TypeError
  end.

(** One of the three tests of [checkAchievements]:
    [if (reached && !achievements.includes(name)) { push; toast }]. *)
Definition grant (reached : bool) (name message : string) (achievements : json) : M json :=
  if reached
  then
    let* has := lift (includes_value achievements name) in
    if negb has
    then
      let* achievements' := lift (push achievements (JStr name)) in
      toast "success" message ;;
      ret achievements'
    else ret achievements
  else ret achievements.

(** [checkAchievements()] *)
Definition checkAchievements : M unit :=
  let* statsText := getItem_or "app_stats" "{}" in
  let* stats := lift (JSON_parse statsText) in
  let* achievementsText := getItem_or "achievements" "[]" in
  let* achievements := lift (JSON_parse achievementsText) in
  (* First note achievement *)
  let* total := lift (get "totalNotesCreated" stats) in
  let* achievements :=
    grant (strict_eq total (Some (JNum 1))) "first_note"
      "🏆 Achievement unlocked: Created your first note!" achievements in
  (* 10 notes achievement *)
  let* total := lift (get "totalNotesCreated" stats) in
  let* achievements :=
    grant (strict_eq total (Some (JNum 10))) "ten_notes"
      "🏆 Achievement unlocked: Created 10 notes!" achievements in
  (* First audio note achievement *)
  let* withAudio := lift (get "notesWithAudio" stats) in
  let* achievements :=
    grant (strict_eq withAudio (Some (JNum 1))) "first_audio"
      "🏆 Achievement unlocked: Added your first voice note!" achievements in
  setItem "achievements" (stringify achievements).

End Achievements.

(* ===================================================================== *)
(** * js/businessLogic.js: the automatic backups                          *)
(* ===================================================================== *)

Module Backups.
Import JsString Json Js App BusinessLogic.

(** [keys.sort()]: the keys in the order of their code units. *)
Fixpoint insert_key (k : string) (sorted : list string) : list string :=
  match sorted with
  | [] => [k]
  | x :: rest => if String.leb k x then k :: sorted else x :: insert_key k rest
  end.

Definition sort (keys : list string) : list string := fold_right insert_key [] keys.

(** [Object.keys(localStorage).filter(key => key.startsWith('auto_backup_'))] *)
Definition backup_keys (store : gmap string string) : list string :=
  List.filter (startsWith "auto_backup_") (map fst (map_to_list store)).

(** The keys that [cleanOldBackups] removes: all but the last five of
    the sorted keys, when there are more than five. *)
Definition old_backups (store : gmap string string) : list string :=
  let keys := backup_keys store in
  if (5 <? length keys)%nat then firstn (length keys - 5) (sort keys) else [].

(** [cleanOldBackups()] *)
Definition cleanOldBackups : M unit :=
  modify (fun s =>
            set_localStorage
              (fold_left (fun store key => delete key store) (old_backups (localStorage s))
                 (localStorage s))
              s).

End Backups.

(* ===================================================================== *)
(** * js/businessLogic.js: the data of an export                          *)
(* ===================================================================== *)

Module ExportPreparation.
Import JsString Json Js App BusinessLogic.

(** [noteIds.includes(note.id)] *)
Definition selected (noteIds : list json) (note : json) : result bool :=
  let? id := get "id" note in
  Ok (existsb (fun x => strict_eq id (Some x)) noteIds).

(** [notes.filter(note => noteIds.includes(note.id))] *)
Fixpoint filter_selected (noteIds : list json) (notes : list json) : result (list json) :=
  match notes with
  | [] => Ok []
  | note :: rest =>
      let? keep := selected noteIds note in
      let? kept := filter_selected noteIds rest in
      Ok (if keep then note :: kept else kept)
  end.

(** [{ ...note, audio: null }] *)
Definition without_audio (note : json) : json := JObj (set "audio" JNull (spread note)).

Section PreparingExports.
Variable E : Env.
(** [dataManager.loadTemplates()] *)
Variable templates : json.

(** [prepareExportData({ noteIds, includeAudio, includeCategories,
    includeTemplates })] *)
Definition prepareExportData (noteIds includeAudio includeCategories includeTemplates : value)
  : M json :=
  let* text := getItem_or "notes" "[]" in
  let* notes := lift (JSON_parse text) in
  (* Filter notes if specific IDs provided *)
  let* notes :=
    lift (match noteIds with
          | Some (JArr ids) =>
              match notes with
              | JArr items => let? kept := filter_selected ids items in Ok (JArr kept)
              | _ => Throw TypeError
              end
          | _ => Ok notes
          end) in
  (* Remove audio if not included *)
  let* notes :=
    lift (if negb (truthy includeAudio)
          then match notes with
               | JArr items => Ok (JArr (map without_audio items))
               | _ => Throw TypeError
               end
          else Ok notes) in
  ret (JObj ([("notes", notes)]
               ++ (if truthy includeCategories then [("categories", JArr (categories E))]
                   else [])
               ++ (if truthy includeTemplates then [("templates", templates)] else []))).

End PreparingExports.

End ExportPreparation.

(* ===================================================================== *)
(** * Vocabulary of the properties                                        *)
(* ===================================================================== *)

Module Spec.
Import JsString Json Js App DataManager BusinessLogic.

(** The state after [dc] more readings of the clock and [dr] more of the
    random generator. *)
Definition advance (dc dr : nat) (s : State) : State :=
  set_random_reads (dr + random_reads s) (set_clock_reads (dc + clock_reads s) s).

(** What the store holds under [key], as the code reads it:
    [localStorage.getItem(key) || fallback]. *)
Definition stored (key fallback : string) (s : State) : string :=
  match localStorage s !! key with
  | Some text => if String.eqb text "" then fallback else text
  | None => fallback
  end.

(** The persisted collection is the array [notes]. *)
Definition notes_are (s : State) (notes : list json) : Prop :=
  parse (stored "notes" "[]" s) = Some (JArr notes).

(** The backup store is the object with these members. *)
Definition backups_are (s : State) (backups : list (string * json)) : Prop :=
  parse (stored "note_backups" "{}" s) = Some (JObj backups).

(** The own member [k] of a value, [undefined] when it has none. *)
Definition member (k : string) (v : json) : value := lookup k (own_members v).

(** The copy that the import makes of [note] when the clock has been read
    [c] times and the random generator [r] times. *)
Definition imported_at (E : Env) (c r : nat) (note : json) : json :=
  importedNote note
    ("note_" +:+ of_Z (clock E c) +:+ "_" +:+ random E r)
    (JsDate.toISOString (clock E (S c)))
    (JsDate.toISOString (clock E (S (S c)))).

(** The copies of the incoming notes, in order. *)
Fixpoint imports (E : Env) (c r : nat) (notes : list json) : list json :=
  match notes with
  | [] => []
  | note :: rest => imported_at E c r note :: imports E (3 + c) (1 + r) rest
  end.

(** The version that the export writes. *)
Definition export_version (E : Env) : json :=
  match get "version" (loadSettings E) with
  | Ok version =>
      match or_else version (Some (JStr "2.1.0")) with
      | Some v => v
      | None => JStr "2.1.0"
      end
  | Throw _ => JStr "2.1.0"
  end.

(** The five fields that the import carries over. *)
Definition carried : list string := ["title"; "content"; "category"; "tags"; "priority"].

(** What relates a note to its imported copy: the carried fields are
    those of the note, and the id and the two timestamps are the ones
    generated at the import, from the clock read [c] times and the
    random generator read [r] times. *)
Definition copy_of (E : Env) (c r : nat) (note copy : json) : Prop :=
  Forall (fun k => member k copy = member k note) carried
  /\ member "id" copy = Some (JStr ("note_" +:+ of_Z (clock E c) +:+ "_" +:+ random E r))
  /\ member "createdAt" copy = Some (JStr (JsDate.toISOString (clock E (S c))))
  /\ member "lastModified" copy = Some (JStr (JsDate.toISOString (clock E (S (S c))))).

(** The copies, one for one: the i-th copy is made at clock reading
    [c + 3 i] and random reading [r + i]. *)
Inductive copies_of (E : Env) : nat -> nat -> list json -> list json -> Prop :=
| copies_nil c r : copies_of E c r [] []
| copies_cons c r note copy notes copies :
    copy_of E c r note copy ->
    copies_of E (3 + c) (1 + r) notes copies ->
    copies_of E c r (note :: notes) (copy :: copies).

(** What the import appends for [note], whatever the note is: an object
    with the own members of the note, but for the id and the two
    timestamps, which are the ones generated at the import, from the
    clock read [c] times and the random generator read [r] times. *)
Definition appended_for (E : Env) (c r : nat) (note copy : json) : Prop :=
  (exists members, copy = JObj members)
  /\ (forall k, k <> "id" -> k <> "createdAt" -> k <> "lastModified" ->
      member k copy = member k note)
  /\ member "id" copy = Some (JStr ("note_" +:+ of_Z (clock E c) +:+ "_" +:+ random E r))
  /\ member "createdAt" copy = Some (JStr (JsDate.toISOString (clock E (S c))))
  /\ member "lastModified" copy = Some (JStr (JsDate.toISOString (clock E (S (S c))))).

(** The note has the id [noteId]: the test of [find] and [findIndex]. *)
Definition has_id (noteId : json) (n : json) : bool :=
  match get "id" n with
  | Ok id => strict_eq id (Some noteId)
  | Throw _ => false
  end.

(** At most one note of the collection has the id. *)
Definition unique_id (noteId : json) (items : list json) : Prop :=
  forall i j a b,
    nth_error items i = Some a -> nth_error items j = Some b ->
    has_id noteId a = true -> has_id noteId b = true -> i = j.
End Spec.

(** ** Vocabulary of the validation *)

Module ValidationSpec.
Import JsString Json Js App BusinessLogic Spec.
#[local] Open Scope Z_scope.

(** The messages of [validateNoteData]. *)
Definition title_too_long : string := "Title too long (max 200 characters)".
Definition content_too_long : string := "Content too long (max 50000 characters)".
Definition too_many_tags : string := "Too many tags (max 10)".
Definition tag_too_long (tag : string) : string :=
  "Tag " +:+ dq +:+ tag +:+ dq +:+ " too long (max 30 chars)".
Definition daily_limit_reached : string := "Daily note limit reached (100)".

(** The validation with these checks failed and these warnings. *)
Definition assemble (title_missing title_long content_missing content_long
                       category_missing category_invalid : bool)
    (tag_warnings : list string) (priority_invalid limit_reached content_empty : bool)
  : Validation :=
  {| isValid :=
       negb (title_missing || title_long || content_missing || content_long
             || category_missing || category_invalid || priority_invalid
             || limit_reached || content_empty);
     errors :=
       (if title_missing then ["Title is required"] else [])
         ++ (if title_long then [title_too_long] else [])
         ++ (if content_missing then ["Content is required"] else [])
         ++ (if content_long then [content_too_long] else [])
         ++ (if category_missing then ["Category is required"] else [])
         ++ (if category_invalid then ["Invalid category selected"] else [])
         ++ (if priority_invalid then ["Invalid priority value"] else []);
     warnings := tag_warnings;
     businessRuleViolations :=
       (if limit_reached then [daily_limit_reached] else [])
         ++ (if content_empty then ["Empty content not allowed by business rules"] else []) |}.

(** Whether the category check fails: the category is given and no
    active category has it as its id. *)
Definition category_invalid (E : Env) (category : value) : result bool :=
  if truthy category
  then let? found := find_active_category category (categories E) in
       Ok (negb (truthy found))
  else Ok false.

(** The warnings of the loop over the tags. *)
Fixpoint long_tag_warnings (E : Env) (tags : list json) : result (list string) :=
  match tags with
  | [] => Ok []
  | tag :: rest =>
      let? long := longer_than E (Some tag) 30 in
      let? w := (if long then let? text := to_string tag in Ok [tag_too_long text]
                 else Ok []) in
      let? ws := long_tag_warnings E rest in
      Ok (w ++ ws)
  end.

(** The warnings of the tags check. *)
Definition tag_warnings (E : Env) (tags : value) : result (list string) :=
  match tags with
  | Some (JArr items) =>
      let? ws := long_tag_warnings E items in
      Ok ((if Z.of_nat (length items) >? 10 then [too_many_tags] else []) ++ ws)
  | _ => Ok []
  end.

(** Whether the priority check fails. *)
Definition priority_invalid (priority : value) : bool :=
  truthy priority
  && negb (match priority with
           | Some (JStr p) => existsb (String.eqb p) ["low"; "medium"; "high"]%string
           | _ => false
           end).

(** The day of the clock reading that [getTodayNoteCount] takes. *)
Definition today (E : Env) (s : State) : string :=
  toDateString (host E) (clock E (clock_reads s)).

(** A value that is a string, or is missing. *)
Definition text_or_missing (v : value) : Prop := v = None \/ exists t, v = Some (JStr t).

(** A note whose title and content are strings or missing and whose
    tags, when it has any, are an array of strings. *)
Definition plain_note (members : list (string * json)) : Prop :=
  text_or_missing (lookup "title" members)
  /\ text_or_missing (lookup "content" members)
  /\ (lookup "tags" members = None
      \/ exists items, lookup "tags" members = Some (JArr items)
                       /\ Forall (fun x => exists t, x = JStr t) items).

(** The loaded categories hold no [null]. *)
Definition plain_categories (E : Env) : Prop := Forall (fun c => c <> JNull) (categories E).

(** The persisted collection is an array of objects whose [createdAt]
    is a string or missing. *)
Definition plain_store (s : State) : Prop :=
  exists items,
    notes_are s items
    /\ Forall (fun n => exists members,
                   n = JObj members /\ text_or_missing (lookup "createdAt" members)) items.

(** The note was created on the day [day]: the test of the filter in
    [getTodayNoteCount]. *)
Definition on_day (E : Env) (day : string) (note : json) : bool :=
  match get "createdAt" note with
  | Ok createdAt =>
      match dateString E createdAt with
      | Ok noteDate => String.eqb noteDate day
      | Throw _ => false
      end
  | Throw _ => false
  end.

(** How many notes of the collection were created on the day. *)
Definition created_on (E : Env) (day : string) (items : list json) : Z :=
  Z.of_nat (length (List.filter (on_day E day) items)).

End ValidationSpec.

Module CollectionSpec.
Import JsString Json Js App BusinessLogic Spec.

(** A note of the collection that the search for [noteId] passes over:
    it is not [null] and its id is another. *)
Definition lacks_id (noteId : json) (n : json) : Prop :=
  n <> JNull /\ has_id noteId n = false.

(** The collection holds [note] as its first note with the id, after
    [before] and followed by [after]. *)
Definition first_with_id (noteId : json) (items before : list json) (note : json)
    (after : list json) : Prop :=
  items = before ++ note :: after
  /\ Forall (lacks_id noteId) before
  /\ has_id noteId note = true.

(** The store is the same but for the key [key]. *)
Definition same_but (key : string) (s s' : State) : Prop :=
  forall k, k <> key -> localStorage s' !! k = localStorage s !! k.

End CollectionSpec.

Module TextImportSpec.
Import JsString Json Js App BusinessLogic Spec.
#[local] Open Scope Z_scope.

(** The note that [parseTextToNotes] makes of the section number [index]
    (from 0), when the clock has been read [c] times and the random
    generator [r] times. Its title is the first line of the trimmed
    section, or [Imported Note] with the number of the section when that
    line is empty, so it is never empty; its content is the other lines,
    or the first line when there is no other; the category, tags,
    priority, visibility and audio are fixed; the id and the two
    timestamps are generated. It has no other member. *)
Definition text_note (E : Env) (c r : nat) (index : Z) (section : string) (n : json) : Prop :=
  exists first others title,
    split nl (trim section) = first :: others
    /\ title = (if String.eqb first "" then "Imported Note " +:+ of_Z (index + 1) else first)
    /\ title <> ""%string
    /\ member "title" n = Some (JStr title)
    /\ member "content" n
       = Some (JStr (if String.eqb (join nl others) "" then first else join nl others))
    /\ member "category" n = Some (JStr "personal")
    /\ member "tags" n = Some (JArr [JStr "imported"])
    /\ member "priority" n = Some (JStr "medium")
    /\ member "isPublic" n = Some (JBool false)
    /\ member "audio" n = Some JNull
    /\ member "id" n = Some (JStr ("note_" +:+ of_Z (clock E c) +:+ "_" +:+ random E r))
    /\ member "createdAt" n = Some (JStr (JsDate.toISOString (clock E (S c))))
    /\ member "lastModified" n = Some (JStr (JsDate.toISOString (clock E (S (S c)))))
    /\ map fst (own_members n)
       = ["id"; "title"; "content"; "category"; "tags"; "priority"; "isPublic"; "audio";
          "createdAt"; "lastModified"]%string.

End TextImportSpec.

Module ImportSpec.
Import JsString Json Js App BusinessLogic Spec.

(** The MIME types that [validateImportFile] lets through. *)
Definition allowed_types : list string := ["application/json"; "text/plain"; "text/csv"].

(** The note has a truthy member [k]. *)
Definition has_field (k : string) (note : json) : bool :=
  match get k note with
  | Ok v => truthy v
  | Throw _ => false
  end.

(** How many of the title and the content the note misses. *)
Definition missing_fields (note : json) : nat :=
  (if has_field "title" note then 0 else 1) + (if has_field "content" note then 0 else 1).

Fixpoint total_missing (notes : list json) : nat :=
  match notes with
  | [] => 0
  | note :: rest => missing_fields note + total_missing rest
  end.

End ImportSpec.

Module ExportSpec.
Import JsString Json Js App DataManager.

(** The formats that [exportData] knows, in lower case. *)
Definition supported_formats : list string := ["json"; "csv"; "txt"].

End ExportSpec.

Module AcceptanceSpec.
Import JsString Json Js App BusinessLogic Spec ValidationSpec.

(** The loaded categories hold an active category with the id [id]. *)
Definition active_category (E : Env) (id : string) : Prop :=
  exists c, In (JObj c) (categories E)
            /\ lookup "id" c = Some (JStr id)
            /\ truthy (lookup "isActive" c) = true.

(** The priority is not given, or is one of the three that the rules
    list. *)
Definition known_priority (priority : value) : Prop :=
  priority = None
  \/ exists p, priority = Some (JStr p) /\ In p ["low"; "medium"; "high"].

(** A text that is not blank once trimmed. *)
Definition not_blank (t : string) : Prop := trim t <> "".

End AcceptanceSpec.

Module ChangesSpec.
Import JsString Json Js BusinessLogic.

(** The change read backwards. *)
Definition reversed (c : Change) : Change :=
  {| field := field c; from := to c; to := from c |}.

End ChangesSpec.

Module EditingSpec.
Import JsString Json Js App BusinessLogic Spec Editing.

(** The edit history of the note is [history]: the note has none, or it
    is this array. *)
Definition history_is (note : list (string * json)) (history : list json) : Prop :=
  (lookup "editHistory" note = None /\ history = [])
  \/ lookup "editHistory" note = Some (JArr history).

(** The element of an edit history that records the change: its
    [field], and its [from] and [to], absent when [undefined]. *)
Definition records_change (c : Change) (j : json) : Prop :=
  member "field" j = Some (JStr (field c))
  /\ member "from" j = from c
  /\ member "to" j = to c.

(** The entry of an edit history written at [timestamp] for [changes]. *)
Definition history_entry (timestamp : string) (changes : list Change) (entry : json) : Prop :=
  member "timestamp" entry = Some (JStr timestamp)
  /\ exists recorded,
       member "changes" entry = Some (JArr recorded)
       /\ Forall2 records_change changes recorded.

(** The fields that [calculateNoteChanges] compares, in its order. *)
Definition compared_fields : list string :=
  ["title"; "content"; "category"; "tags"; "priority"; "audio"].

(** The toast that announces an edit and the fields it changed. *)
Definition edit_toast (fields : list string) : Toast :=
  {| toast_kind := "success";
     toast_message := "Note updated! Changed: " +:+ join ", " fields |}.

End EditingSpec.

Module SavingSpec.
Import JsString Json Js App BusinessLogic Spec Saving.

(** The statistics store is the object with these members. *)
Definition stats_are (s : State) (stats : list (string * json)) : Prop :=
  parse (stored "app_stats" "{}" s) = Some (JObj stats).

(** A counter of the statistics: missing, or a number that counts, so
    an integer from 0 that a Number holds exactly. *)
Definition counter (v : value) : Prop :=
  v = None \/ exists z, v = Some (JNum z) /\ (0 <= z < 2 ^ 53)%Z.

(** The value of a counter, a missing one counting as 0. *)
Definition count_of (v : value) : Z :=
  match v with
  | Some (JNum z) => z
  | _ => 0
  end.

(** The store is the same but for the keys [k1] and [k2]. *)
Definition same_but2 (k1 k2 : string) (s s' : State) : Prop :=
  forall k, k <> k1 -> k <> k2 -> localStorage s' !! k = localStorage s !! k.

End SavingSpec.

Module AchievementsSpec.
Import JsString Json Js App BusinessLogic Spec Achievements.
#[local] Open Scope Z_scope.

(** The achievements store is the array [items]. *)
Definition achievements_are (s : State) (items : list json) : Prop :=
  parse (stored "achievements" "[]" s) = Some (JArr items).

(** The achievements that the statistics have reached, in the order of
    the tests. *)
Definition reached (stats : list (string * json)) : list string :=
  (if strict_eq (lookup "totalNotesCreated" stats) (Some (JNum 1)) then ["first_note"] else [])
    ++ (if strict_eq (lookup "totalNotesCreated" stats) (Some (JNum 10))
        then ["ten_notes"] else [])
    ++ (if strict_eq (lookup "notesWithAudio" stats) (Some (JNum 1))
        then ["first_audio"] else []).

(** The list holds the achievement. *)
Definition held (items : list json) (name : string) : bool :=
  existsb (fun x => strict_eq (Some x) (Some (JStr name))) items.

(** The achievements that a run grants: those reached and not held. *)
Definition granted (stats : list (string * json)) (items : list json) : list string :=
  List.filter (fun name => negb (held items name)) (reached stats).

(** The toast that announces an achievement. *)
Definition announcement (name : string) : Toast :=
  {| toast_kind := "success";
     toast_message :=
       if String.eqb name "first_note"
       then "🏆 Achievement unlocked: Created your first note!"
       else if String.eqb name "ten_notes"
            then "🏆 Achievement unlocked: Created 10 notes!"
            else "🏆 Achievement unlocked: Added your first voice note!" |}.

End AchievementsSpec.

Module BackupsSpec.
Import JsString Json Js App BusinessLogic Backups.

(** The keys are in the order of their code units. *)
Definition ordered : list string -> Prop := StronglySorted (fun a b => String.leb a b = true).

End BackupsSpec.

Module ExportPreparationSpec.
Import JsString Json Js App BusinessLogic Spec ExportPreparation.

(** The note has one of the ids. *)
Definition has_one_of (noteIds : list json) (note : json) : bool :=
  existsb (fun x => has_id x note) noteIds.

End ExportPreparationSpec.

(* ===================================================================== *)
(** * Sample data for the examples                                       *)
(* ===================================================================== *)

Module Samples.
Import JsString Json Js App DataManager BusinessLogic Spec.
#[local] Open Scope Z_scope.

(** A host in UTC for the examples: it reads one timestamp, names a day
    by its number and writes a date in ISO format. *)
Definition utc_host : Host :=
  {| Date_parse := fun text =>
       if String.eqb text "2023-11-14T22:13:20.000Z" then Some 1700000000000 else None;
     toDateString := fun t => "day " +:+ of_Z (t / 86400000);
     toLocaleString := JsDate.toISOString;
     StringToNumber_gt := fun _ _ => false |}.

(** An environment in which the whole run falls in the millisecond
    [now] and the user gives the same answer to every dialog. *)
Definition env_at (now : Z) (answer : bool) : Env :=
  {| host := utc_host;
     clock := fun _ => now;
     random := fun _ => "k3x9q2m1z";
     answers := fun _ => answer;
     categories := [JObj [("id", JStr "personal"); ("name", JStr "Personal");
                          ("isActive", JBool true)]];
     appSettings := None;
     statistics := JObj [("total", JNum 1)] |}.

Definition state_with (store : gmap string string) : State :=
  {| localStorage := store; clock_reads := 0; random_reads := 0; dialogs := [];
     toasts := []; events := []; currentWorkflow := None; workflowHistory := [] |}.

Definition no_store : gmap string string := empty.

Definition default_options : ImportOptions :=
  {| mergeCategories := true; mergeTemplates := true; skipDuplicates := true |}.

(** A note written in the millisecond 1700000000000. *)
Definition note_now : json :=
  JObj [("id", JStr "note_1700000000000_a1b2c3d4e");
        ("title", JStr "Shopping"); ("content", JStr "milk");
        ("category", JStr "personal"); ("tags", JArr [JStr "home"]);
        ("priority", JStr "low"); ("isPublic", JBool false); ("audio", JNull);
        ("createdAt", JStr "2023-11-14T22:13:20.000Z");
        ("lastModified", JStr "2023-11-14T22:13:20.000Z")].

(** The id and the timestamps of the copy differ from those of the note. *)
Definition regenerated_differ (note copy : json) : Prop :=
  member "id" copy <> member "id" note
  /\ member "createdAt" copy <> member "createdAt" note
  /\ member "lastModified" copy <> member "lastModified" note.

(** The round trip as the claim words it: the fields are carried over
    and the id and the timestamps are not equal to the originals. *)
Definition roundtrip_as_stated (E : Env) (notes old : list json) (options : ImportOptions)
    (s : State) : Prop :=
  notes_are s old ->
  exists (text : string) (s1 : State) (doc : json) (s2 : State) (copies : list json),
    exportData E notes "json" s = (Ok text, s1)
    /\ parse text = Some doc
    /\ performDataImport E doc options s1
       = (Ok {| imported := Z.of_nat (length notes); skipped := 0; import_errors := [] |}, s2)
    /\ notes_are s2 (old ++ copies)
    /\ length copies = length notes
    /\ Forall2 (fun note copy =>
                  Forall (fun k => member k copy = member k note) carried
                  /\ regenerated_differ note copy) notes copies.

(** A JSON file with one note that has no title. *)
Definition untitled_file : File :=
  {| file_name := "notes.json"; file_size := 31; file_type := "application/json";
     file_text := Some (stringify (JObj [("notes", JArr [JObj [("content", JStr "x")]])])) |}.

(** The store with [note_now] as its one note. *)
Definition one_note_store : gmap string string :=
  <["notes" := stringify (JArr [note_now])]> no_store.

(** A text of [n] letters. *)
Definition letters (n : nat) : string := string_of_list_ascii (repeat "a"%char n).

(** The fields of a note with the title [title]. *)
Definition titled (title : string) : list (string * json) :=
  [("title", JStr title); ("content", JStr "milk"); ("category", JStr "personal");
   ("tags", JArr [JStr "home"]); ("priority", JStr "low")].

(** The store with [note_now] twice: two notes with one id. *)
Definition twin_store : gmap string string :=
  <["notes" := stringify (JArr [note_now; note_now])]> no_store.

(** C5 as it is worded: after every run that returns [success: true] the
    backup store holds a deletion backup of the note, and the persisted
    collection holds no note with the id. *)
Definition deletion_as_stated (E : Env) (noteId : json) (s : State) : Prop :=
  forall (note : json) (backupId : string) (workflow : option Workflow) (s' : State),
    startNoteDeletionWorkflow E noteId s = (Ok (Deleted note backupId workflow), s') ->
    (exists backups' timestamp,
       backups_are s' backups'
       /\ lookup backupId backups'
          = Some (JObj [("note", note); ("timestamp", JStr timestamp);
                        ("type", JStr "deletion_backup")]))
    /\ (exists items',
          notes_are s' items' /\ Forall (fun n => has_id noteId n = false) items').

(** A store whose notes are not an array but the object with the one
    member [a]. *)
Definition object_store : gmap string string :=
  <["notes" := stringify (JObj [("a", JNum 1)])]> no_store.

(** C10 as it is worded, on the data [{ notes }]: every note is imported
    and none takes the error branch. *)
Definition imports_all_as_stated (E : Env) (notes : list json) (options : ImportOptions)
    (s : State) : Prop :=
  exists s' : State,
    performDataImport E (JObj [("notes", JArr notes)]) options s
    = (Ok {| imported := Z.of_nat (length notes); skipped := 0; import_errors := [] |}, s').

(** The store with a hundred notes written in the millisecond
    1700000000000. *)
Definition full_day_store : gmap string string :=
  <["notes" := stringify (JArr (repeat note_now 100))]> no_store.

End Samples.

Module MoreSamples.
Import JsString Json Js App DataManager BusinessLogic Spec Samples.
#[local] Open Scope Z_scope.

(** The id of [note_now]. *)
Definition id_now : json := JStr "note_1700000000000_a1b2c3d4e".

(** A note that is protected from deletion. *)
Definition protected_note : json :=
  JObj [("id", JStr "p1"); ("title", JStr "Keys"); ("content", JStr "safe");
        ("isProtected", JBool true)].

(** The store with [note_now] and the protected note. *)
Definition protected_store : gmap string string :=
  <["notes" := stringify (JArr [note_now; protected_note])]> no_store.

(** A workflow that is running. *)
Definition running : Workflow :=
  {| wf_type := "note_creation"; wf_startTime := 1700000000000; wf_steps := [];
     wf_data := JObj []; wf_endTime := None; wf_duration := None; wf_status := None;
     wf_error := None |}.

Definition state_running : State :=
  {| localStorage := no_store; clock_reads := 0; random_reads := 0; dialogs := [];
     toasts := []; events := []; currentWorkflow := Some running; workflowHistory := [] |}.

(** A picture, which the import does not take. *)
Definition picture_file : File :=
  {| file_name := "notes.png"; file_size := 31; file_type := "image/png";
     file_text := None |}.

(** The fields of a note whose content is blank. *)
Definition blank_fields : list (string * json) :=
  [("title", JStr "Shopping"); ("content", JStr "   "); ("category", JStr "personal")].

(** The store with [note_now] and statistics that are [null]. *)
Definition null_stats_store : gmap string string :=
  <["app_stats" := "null"]> one_note_store.

(** The store after the first note was created. *)
Definition first_note_store : gmap string string :=
  <["app_stats" := stringify (JObj [("totalNotesCreated", JNum 1)])]> one_note_store.

(** A network error of the operation [load]. *)
Definition network_error : json :=
  JObj [("message", JStr "Failed to fetch"); ("category", JStr "NETWORK");
        ("context", JObj [("operation", JStr "load")])].

End MoreSamples.

(* ===================================================================== *)
(** * Properties                                                          *)
(* ===================================================================== *)

(** ** The JSON codec: parsing a serialized value gives the value back *)

Module JsonFacts.
Import JsString Json.
#[local] Open Scope char_scope.

Ltac ascii_cases c := destruct c as [[] [] [] [] [] [] [] []].

(** *** Strings *)

Lemma parse_chars_escape (c : ascii) (tail : list ascii) :
  parse_chars (escape_char c ++ tail) = cons_char c (parse_chars tail).
Proof. ascii_cases c; reflexivity. Qed.

Lemma parse_chars_quote (cs rest : list ascii) :
  parse_chars (flat_map escape_char cs ++ "034" :: rest) = Some (cs, rest).
Proof.
  induction cs as [|c cs IH]; [reflexivity|].
  cbn [flat_map]. rewrite <- List.app_assoc, parse_chars_escape, IH. reflexivity.
Qed.

Lemma parse_chars_string (s : string) (rest : list ascii) :
  parse_chars (flat_map escape_char (chars s) ++ "034" :: rest) = Some (chars s, rest).
Proof. apply parse_chars_quote. Qed.

(** *** Numbers *)

Lemma span_digits_uint (d : uint) (rest : list ascii) :
  match rest with [] => true | c :: _ => negb (is_digit c) end = true ->
  span_digits (chars (NilEmpty.string_of_uint d) ++ rest)
  = (chars (NilEmpty.string_of_uint d), rest).
Proof.
  intros Hrest. induction d; cbn [NilEmpty.string_of_uint list_ascii_of_string app];
    try (cbn [span_digits]; change (is_digit _) with true; cbv iota; rewrite IHd; reflexivity).
  destruct rest as [|c r]; [reflexivity|]. cbn [span_digits].
  apply negb_true_iff in Hrest. rewrite Hrest. reflexivity.
Qed.

Lemma uint_beq_refl (d : uint) : uint_beq d d = true.
Proof. induction d; simpl; auto. Qed.

Lemma to_uint_normal (n : N) : unorm (N.to_uint n) = N.to_uint n.
Proof. rewrite <- DecimalN.Unsigned.to_of, DecimalN.Unsigned.of_to. reflexivity. Qed.

Lemma to_uint_nonnil (n : N) : N.to_uint n <> Nil.
Proof.
  destruct n as [|p]; [discriminate|]. apply DecimalPos.Unsigned.to_uint_nonnil.
Qed.

Lemma digits_nonempty (n : N) : exists c t, chars (digitsN n) = c :: t /\ is_digit c = true.
Proof.
  unfold digitsN. pose proof (to_uint_nonnil n) as H.
  destruct (N.to_uint n); try congruence; eexists _, _; (split; [reflexivity|reflexivity]).
Qed.

Lemma parse_digits_print (n : N) (rest : list ascii) :
  ends_number rest = true ->
  parse_digits (chars (digitsN n) ++ rest) = Some (n, rest).
Proof.
  intros Hrest. unfold parse_digits, digitsN.
  rewrite span_digits_uint.
  2:{ destruct rest; [reflexivity|]. simpl in Hrest. apply andb_true_iff in Hrest. tauto. }
  destruct (digits_nonempty n) as (c & t & Hd & _). unfold digitsN in Hd. rewrite Hd, <- Hd.
  replace (fraction_follows rest) with false.
  2:{ destruct rest as [|a r]; [reflexivity|]. unfold ends_number in Hrest.
      apply andb_true_iff in Hrest. destruct Hrest as [_ H]. apply negb_true_iff in H. now rewrite H. }
  rewrite string_of_list_ascii_of_string, NilEmpty.usu, to_uint_normal, uint_beq_refl.
  rewrite DecimalN.Unsigned.of_to. reflexivity.
Qed.

Lemma parse_number_print (z : Z) (rest : list ascii) :
  ends_number rest = true ->
  parse_number (print_Z z ++ rest) = Some (JNum z, rest).
Proof.
  intros Hrest. unfold print_Z, of_Z. destruct (Z.ltb_spec z 0) as [Hneg|Hpos].
  - cbn [list_ascii_of_string app parse_number]. rewrite parse_digits_print by assumption.
    do 3 f_equal. lia.
  - destruct (digits_nonempty (Z.abs_N z)) as (c & t & Hd & Hc).
    assert (Hhead : parse_number (chars (digitsN (Z.abs_N z)) ++ rest)
                    = match parse_digits (chars (digitsN (Z.abs_N z)) ++ rest) with
                      | Some (n, r) => Some (JNum (Z.of_N n), r)
                      | None => None
                      end).
    { rewrite Hd. cbn [app]. clear Hd. ascii_cases c; try discriminate; reflexivity. }
    rewrite Hhead, parse_digits_print by assumption. do 3 f_equal. lia.
Qed.

(** *** Values *)

Lemma skip_ws_line (gap ind : nat) (t : list ascii) :
  skip_ws (line gap ind ++ t) = skip_ws t.
Proof.
  destruct gap; [reflexivity|]. cbn [line app skip_ws]. change (is_json_ws newline) with true.
  cbv iota. induction ind; [reflexivity|]. exact IHind.
Qed.

Lemma parse_value_skip (fuel : nat) (s s' : list ascii) :
  skip_ws s = skip_ws s' -> parse_value fuel s = parse_value fuel s'.
Proof. intros H. destruct fuel; [reflexivity|]. cbn [parse_value]. rewrite H. reflexivity. Qed.

Lemma starts_value_print (gap ind : nat) (v : json) (rest : list ascii) :
  starts_value (print gap ind v ++ rest) = true.
Proof.
  destruct v as [|[]|z|s|[|x xs]|[|m ms]]; try reflexivity.
  unfold print, print_Z, of_Z. destruct (z <? 0)%Z; [reflexivity|].
  destruct (digits_nonempty (Z.abs_N z)) as (c & t & Hd & Hc). rewrite Hd. cbn [app starts_value].
  clear Hd. ascii_cases c; try discriminate; reflexivity.
Qed.

Lemma skip_ws_starts (s : list ascii) : starts_value s = true -> skip_ws s = s.
Proof.
  destruct s as [|c r]; [discriminate|]. cbn [starts_value skip_ws].
  destruct (is_json_ws c); [discriminate|reflexivity].
Qed.

Lemma parse_value_number (f : nat) (s : list ascii) :
  match s with c :: _ => is_digit c || Ascii.eqb c "-" | [] => false end = true ->
  parse_value (S f) s = parse_number s.
Proof.
  destruct s as [|c r]; [discriminate|]. intros H.
  ascii_cases c; try discriminate H; reflexivity.
Qed.

Lemma parse_value_elements (f : nat) (r : list ascii) :
  starts_value (skip_ws r) = true ->
  parse_value (S f) ("[" :: r)
  = match parse_elements f r with
    | Some (items, rest) => Some (JArr items, rest)
    | None => None
    end.
Proof.
  intros H. cbn [parse_value skip_ws]. change (is_json_ws "[") with false. cbv iota.
  destruct (skip_ws r) as [|c t]; [discriminate|].
  ascii_cases c; try discriminate H; reflexivity.
Qed.

Lemma need_arr (items : list json) : need (JArr items) = S (need_elements items).
Proof. reflexivity. Qed.

Lemma need_obj (members : list (string * json)) : need (JObj members) = S (need_members members).
Proof. reflexivity. Qed.

Lemma ends_number_line (gap ind : nat) (c : ascii) (t : list ascii) :
  ends_number (c :: t) = true -> ends_number (line gap ind ++ c :: t) = true.
Proof. destruct gap; [trivial|reflexivity]. Qed.

Lemma parse_elements_print (gap k : nat) (xs : list json) :
  Forall parses xs -> xs <> [] ->
  forall fuel tail rest,
    need_elements xs <= fuel ->
    skip_ws tail = "]" :: rest ->
    ends_number tail = true ->
    parse_elements fuel
      (line gap k ++ join_parts ("," :: line gap k) (map (print gap k) xs) ++ tail)
    = Some (xs, rest).
Proof.
  induction 1 as [|x xs Hx Hxs IH]; [congruence|]. intros _ fuel tail rest Hfuel Htail Hend.
  destruct fuel as [|f]; [cbn in Hfuel; lia|]. cbn [need_elements fold_right] in Hfuel.
  fold (need_elements xs) in Hfuel.
  cbn [parse_elements].
  rewrite (parse_value_skip f _ (join_parts ("," :: line gap k) (map (print gap k) (x :: xs)) ++ tail))
    by apply skip_ws_line.
  destruct xs as [|y ys].
  - cbn [map join_parts]. rewrite Hx by (assumption || lia). rewrite Htail. reflexivity.
  - change (join_parts ("," :: line gap k) (map (print gap k) (x :: y :: ys)))
      with (print gap k x ++ ("," :: line gap k) ++ join_parts ("," :: line gap k) (map (print gap k) (y :: ys))).
    rewrite <- !List.app_assoc. rewrite Hx by (reflexivity || lia).
    cbn [app skip_ws]. change (is_json_ws ",") with false. cbv iota.
    rewrite (IH ltac:(discriminate) f tail rest) by (assumption || lia). reflexivity.
Qed.

Lemma parse_members_print (gap k : nat) (ms : list (string * json)) :
  Forall (fun m => parses (snd m)) ms -> ms <> [] ->
  forall fuel tail rest,
    need_members ms <= fuel ->
    skip_ws tail = "}" :: rest ->
    ends_number tail = true ->
    parse_members fuel
      (line gap k ++ join_parts ("," :: line gap k)
         (map (fun m => quote (fst m) ++ colon gap ++ print gap k (snd m)) ms) ++ tail)
    = Some (ms, rest).
Proof.
  induction 1 as [|m ms Hm Hms IH]; [congruence|]. intros _ fuel tail rest Hfuel Htail Hend.
  destruct fuel as [|f]; [cbn in Hfuel; lia|]. cbn [need_members fold_right] in Hfuel.
  fold (need_members ms) in Hfuel.
  cbn [parse_members]. rewrite skip_ws_line.
  destruct m as [key v]. cbn [fst snd] in *.
  destruct ms as [|y ys].
  - cbn [map join_parts fst snd]. unfold quote at 1. rewrite <- !List.app_assoc.
    cbn [app skip_ws]. change (is_json_ws "034") with false. cbv iota.
    rewrite <- !List.app_assoc. cbn [app]. rewrite parse_chars_string.
    assert (Hc : skip_ws (colon gap ++ print gap k v ++ tail)
                 = ":" :: match gap with O => [] | S _ => [" "] end ++ print gap k v ++ tail)
      by (destruct gap; reflexivity).
    rewrite Hc.
    rewrite (parse_value_skip f _ (print gap k v ++ tail)) by (destruct gap; reflexivity).
    rewrite Hm by (assumption || lia). rewrite Htail.
    rewrite string_of_list_ascii_of_string. reflexivity.
  - change (join_parts ("," :: line gap k)
              (map (fun m => quote (fst m) ++ colon gap ++ print gap k (snd m)) ((key, v) :: y :: ys)))
      with ((quote key ++ colon gap ++ print gap k v) ++ ("," :: line gap k)
            ++ join_parts ("," :: line gap k)
                 (map (fun m => quote (fst m) ++ colon gap ++ print gap k (snd m)) (y :: ys))).
    unfold quote at 1. rewrite <- !List.app_assoc.
    cbn [app skip_ws]. change (is_json_ws "034") with false. cbv iota.
    rewrite <- !List.app_assoc. cbn [app]. rewrite parse_chars_string.
    match goal with |- context [skip_ws (colon gap ++ ?t)] =>
      assert (Hc : skip_ws (colon gap ++ t)
                   = ":" :: match gap with O => [] | S _ => [" "] end ++ t)
        by (destruct gap; reflexivity); rewrite Hc;
      rewrite (parse_value_skip f _ t) by (destruct gap; reflexivity)
    end.
    rewrite Hm by (reflexivity || lia).
    cbn [app skip_ws]. change (is_json_ws ",") with false. cbv iota.
    rewrite (IH ltac:(discriminate) f tail rest) by (assumption || lia).
    rewrite string_of_list_ascii_of_string. reflexivity.
Qed.

Lemma parse_print (v : json) : parses v.
Proof.
  induction v as [| b | z | s | items IH | members IH] using json_ind;
    intros gap ind fuel rest Hfuel Hrest;
    (destruct fuel as [|f]; [cbn in Hfuel; lia|]).
  - reflexivity.
  - destruct b; reflexivity.
  - cbn [print]. rewrite parse_value_number.
    + apply parse_number_print, Hrest.
    + pose proof (starts_value_print gap ind (JNum z) rest) as Hs. cbn [print] in Hs.
      unfold print_Z, of_Z in *. destruct (z <? 0)%Z; [reflexivity|].
      destruct (digits_nonempty (Z.abs_N z)) as (c & t & Hd & Hc). rewrite Hd. cbn [app].
      rewrite Hc. reflexivity.
  - cbn [print]. unfold quote. cbn [app]. rewrite <- List.app_assoc.
    cbn [app parse_value skip_ws]. change (is_json_ws "034") with false. cbv iota.
    rewrite parse_chars_string, string_of_list_ascii_of_string. reflexivity.
  - rewrite need_arr in Hfuel. destruct items as [|x xs]; [reflexivity|].
    cbn [print app]. rewrite <- !List.app_assoc. cbn [app].
    rewrite parse_value_elements.
    + rewrite (parse_elements_print gap (ind + gap) (x :: xs) IH ltac:(discriminate) f
                 (line gap ind ++ "]" :: rest) rest); [reflexivity|lia| |].
      * rewrite skip_ws_line. reflexivity.
      * apply ends_number_line. reflexivity.
    + rewrite skip_ws_line. destruct xs as [|y ys].
      * cbn [map join_parts]. rewrite skip_ws_starts; apply starts_value_print.
      * change (join_parts ?sep (map ?f (x :: y :: ys)))
          with (f x ++ sep ++ join_parts sep (map f (y :: ys))).
        rewrite <- !List.app_assoc. rewrite skip_ws_starts; apply starts_value_print.
  - rewrite need_obj in Hfuel. destruct members as [|m ms]; [reflexivity|].
    cbn [print app]. rewrite <- !List.app_assoc. cbn [app].
    assert (Hdispatch : forall r,
      (exists t, skip_ws r = "034" :: t) ->
      parse_value (S f) ("{" :: r)
      = match parse_members f r with
        | Some (members, rest) => Some (JObj members, rest)
        | None => None
        end).
    { intros r [t Ht]. cbn [parse_value skip_ws]. change (is_json_ws "{") with false.
      cbv iota. rewrite Ht. reflexivity. }
    rewrite Hdispatch.
    + rewrite (parse_members_print gap (ind + gap) (m :: ms) IH ltac:(discriminate) f
                 (line gap ind ++ "}" :: rest) rest); [reflexivity|lia| |].
      * rewrite skip_ws_line. reflexivity.
      * apply ends_number_line. reflexivity.
    + rewrite skip_ws_line. destruct ms as [|y ys].
      * cbn [map join_parts]. unfold quote. eexists. reflexivity.
      * change (join_parts ?sep (map ?f (m :: y :: ys)))
          with (f m ++ sep ++ join_parts sep (map f (y :: ys))).
        unfold quote at 1. cbn [app]. eexists. reflexivity.
Qed.

(** *** Fuel: twice the length of the text is enough *)

Lemma print_nonempty (gap ind : nat) (v : json) : 1 <= length (print gap ind v).
Proof.
  pose proof (starts_value_print gap ind v []) as H. rewrite List.app_nil_r in H.
  destruct (print gap ind v); [discriminate|]. cbn. lia.
Qed.

Lemma need_elements_length (sep : list ascii) (f : json -> list ascii) (xs : list json) :
  1 <= length sep ->
  Forall (fun x => need x <= 2 * length (f x)) xs ->
  need_elements xs <= 2 * length (join_parts sep (map f xs)) + 1.
Proof.
  intros Hsep H. induction H as [|x xs Hx Hxs IH]; [cbn; lia|].
  cbn [need_elements fold_right]. fold (need_elements xs).
  destruct xs as [|y ys].
  - cbn [map join_parts need_elements fold_right]. lia.
  - change (join_parts sep (map f (x :: y :: ys)))
      with (f x ++ sep ++ join_parts sep (map f (y :: ys))).
    rewrite !List.length_app. lia.
Qed.

Lemma need_members_length (sep : list ascii) (f : string * json -> list ascii)
    (g : json -> list ascii) (ms : list (string * json)) :
  1 <= length sep ->
  (forall m, length (g (snd m)) <= length (f m)) ->
  Forall (fun m => need (snd m) <= 2 * length (g (snd m))) ms ->
  need_members ms <= 2 * length (join_parts sep (map f ms)) + 1.
Proof.
  intros Hsep Hf H. induction H as [|m ms Hm Hms IH]; [cbn; lia|].
  cbn [need_members fold_right]. fold (need_members ms). pose proof (Hf m).
  destruct ms as [|y ys].
  - cbn [map join_parts need_members fold_right]. lia.
  - change (join_parts sep (map f (m :: y :: ys)))
      with (f m ++ sep ++ join_parts sep (map f (y :: ys))).
    rewrite !List.length_app. lia.
Qed.

Lemma need_length (v : json) : forall gap ind, need v <= 2 * length (print gap ind v).
Proof.
  induction v as [| b | z | s | items IH | members IH] using json_ind; intros gap ind.
  - cbn. lia.
  - pose proof (print_nonempty gap ind (JBool b)). cbn [need]. lia.
  - pose proof (print_nonempty gap ind (JNum z)). cbn [need]. lia.
  - pose proof (print_nonempty gap ind (JStr s)). cbn [need]. lia.
  - rewrite need_arr. destruct items as [|x xs]; [cbn; lia|]. cbn [print].
    pose proof (need_elements_length ("," :: line gap (ind + gap)) (print gap (ind + gap)) (x :: xs)
                  ltac:(cbn; lia)) as H.
    cbn [length]. rewrite !List.length_app.
    assert (Forall (fun x => need x <= 2 * length (print gap (ind + gap) x)) (x :: xs)) as HF.
    { eapply List.Forall_impl; [|exact IH]. intros a Ha. apply Ha. }
    specialize (H HF). cbn [length]. lia.
  - rewrite need_obj. destruct members as [|m ms]; [cbn; lia|]. cbn [print].
    pose proof (need_members_length ("," :: line gap (ind + gap))
                  (fun m => quote (fst m) ++ colon gap ++ print gap (ind + gap) (snd m))
                  (print gap (ind + gap)) (m :: ms) ltac:(cbn; lia)) as H.
    cbn [length]. rewrite !List.length_app.
    assert (Forall (fun m => need (snd m) <= 2 * length (print gap (ind + gap) (snd m))) (m :: ms)) as HF.
    { eapply List.Forall_impl; [|exact IH]. intros a Ha. apply Ha. }
    specialize (H ltac:(intros; cbn beta; rewrite !List.length_app; lia) HF). cbn [length]. lia.
Qed.

(** [JSON.parse(JSON.stringify(v, null, gap))] is [v], for every gap. *)
Theorem parse_print_text (gap : nat) (v : json) : parse (str (print gap 0 v)) = Some v.
Proof.
  unfold parse. rewrite list_ascii_of_string_of_list_ascii.
  pose proof (parse_print v gap 0 (2 * length (print gap 0 v) + 2) []) as H.
  rewrite List.app_nil_r in H. rewrite H; [reflexivity| |reflexivity].
  pose proof (need_length v gap 0). lia.
Qed.

Corollary parse_stringify (v : json) : parse (stringify v) = Some v.
Proof. apply parse_print_text. Qed.

Corollary parse_stringify2 (v : json) : parse (stringify2 v) = Some v.
Proof. apply parse_print_text. Qed.
End JsonFacts.

(** ** Objects *)

Module JsFacts.
Import JsString Json Js.

Lemma lookup_set_eq (k : string) (v : json) (members : list (string * json)) :
  lookup k (set k v members) = Some v.
Proof.
  induction members as [|[k' v'] rest IH]; cbn.
  - rewrite String.eqb_refl. reflexivity.
  - destruct (String.eqb k k') eqn:Hk; cbn; rewrite ?String.eqb_refl, ?Hk; auto.
Qed.

Lemma lookup_set_ne (k k' : string) (v : json) (members : list (string * json)) :
  k <> k' -> lookup k' (set k v members) = lookup k' members.
Proof.
  intros Hne. induction members as [|[k0 v0] rest IH]; cbn.
  - destruct (String.eqb k' k) eqn:Hk; [|reflexivity].
    apply String.eqb_eq in Hk. congruence.
  - destruct (String.eqb k k0) eqn:Hk; cbn.
    + apply String.eqb_eq in Hk. subst k0.
      destruct (String.eqb k' k) eqn:Hk'; [|reflexivity].
      apply String.eqb_eq in Hk'. congruence.
    + destruct (String.eqb k' k0); [reflexivity|exact IH].
Qed.

End JsFacts.

(** ** The monad *)

Module MonadFacts.
Import Js App.

Lemma bind_ok {A B : Type} (m : M A) (k : A -> M B) (s s' : State) (a : A) :
  m s = (Ok a, s') -> bind m k s = k a s'.
Proof. intros H. unfold bind. rewrite H. reflexivity. Qed.

Lemma bind_throw {A B : Type} (m : M A) (k : A -> M B) (s s' : State) (e : string) :
  m s = (Throw e, s') -> bind m k s = (Throw e, s').
Proof. intros H. unfold bind. rewrite H. reflexivity. Qed.

Lemma lift_then_throw {A B : Type} (x : result A) (f : A -> string) (s : State) :
  exists e, (let* a := lift x in @throw B (f a)) s = (Throw e, s).
Proof. destruct x as [a|e]; eexists; reflexivity. Qed.

End MonadFacts.

Module ImportFacts.
Import JsString Json Js App DataManager BusinessLogic Spec JsonFacts JsFacts MonadFacts.

Lemma advance_0 (s : State) : advance 0 0 s = s.
Proof. destruct s. reflexivity. Qed.

Lemma getItem_or_stored (key fallback : string) (s : State) :
  getItem_or key fallback s = (Ok (stored key fallback s), s).
Proof. reflexivity. Qed.

Lemma importOne_array (E : Env) (note : json) (old : list json) (s : State) :
  importOne E note (JArr old) s
  = (Ok (JArr (old ++ [imported_at E (clock_reads s) (random_reads s) note])), advance 3 1 s).
Proof. reflexivity. Qed.

(** On an array the loop never enters its [catch]: every note is copied
    and pushed. *)
Lemma importLoop_array (E : Env) (notes : list json) :
  forall (old : list json) (result : ImportResult) (s : State),
    importLoop E notes (JArr old) result s
    = (Ok (JArr (old ++ imports E (clock_reads s) (random_reads s) notes),
           {| imported := (imported result + Z.of_nat (length notes))%Z;
              skipped := skipped result;
              import_errors := import_errors result |}),
       advance (3 * length notes) (length notes) s).
Proof.
  induction notes as [|note rest IH]; intros old result s.
  - cbn. rewrite List.app_nil_r, Z.add_0_r, advance_0. destruct result. reflexivity.
  - cbn [importLoop]. unfold bind at 1. unfold try_catch. unfold bind at 1.
    rewrite importOne_array. cbn [ret fst snd].
    rewrite IH. cbn [imported skipped import_errors clock_reads random_reads advance
                     set_random_reads set_clock_reads imports length].
    rewrite <- List.app_assoc. cbn [app].
    f_equal.
    + do 3 f_equal. lia.
    + unfold advance, set_random_reads, set_clock_reads. cbn. f_equal; lia.
Qed.

Lemma imports_length (E : Env) (notes : list json) :
  forall c r, length (imports E c r notes) = length notes.
Proof.
  induction notes as [|n rest IH]; intros c r; cbn; [reflexivity|]. rewrite IH. reflexivity.
Qed.

(** The run of [performDataImport] on data whose notes are an array,
    over a persisted collection that is an array. *)
Lemma performDataImport_run (E : Env) (members : list (string * json))
    (items old : list json) (options : ImportOptions) (s : State) :
  lookup "notes" members = Some (JArr items) ->
  notes_are s old ->
  performDataImport E (JObj members) options s
  = (Ok {| imported := Z.of_nat (length items); skipped := 0; import_errors := [] |},
     set_localStorage
       (<["notes" := stringify (JArr (old ++ imports E (clock_reads s) (random_reads s) items))]>
          (localStorage s))
       (advance (3 * length items) (length items) s)).
Proof.
  intros Hnotes Hold. unfold performDataImport.
  erewrite bind_ok by reflexivity. cbn [get]. rewrite Hnotes.
  erewrite bind_ok by apply getItem_or_stored.
  erewrite bind_ok by (unfold lift, JSON_parse; rewrite Hold; reflexivity).
  erewrite bind_ok by apply importLoop_array.
  reflexivity.
Qed.

Lemma stored_set_localStorage (key text : string) (m : gmap string string) (s : State) :
  text <> "" ->
  stored key "[]" (set_localStorage (<[key := text]> m) s) = text.
Proof.
  intros Hne. unfold stored. cbn. rewrite lookup_insert_eq.
  destruct (String.eqb text "") eqn:H; [|reflexivity].
  apply String.eqb_eq in H. contradiction.
Qed.

Lemma stringify_nonempty (v : json) : stringify v <> "".
Proof.
  unfold stringify. pose proof (print_nonempty 0 0 v) as H.
  destruct (print 0 0 v); [cbn in H; lia|discriminate].
Qed.

(** *** Export, then import *)

Lemma loadSettings_version (E : Env) :
  exists version, get "version" (loadSettings E) = Ok version.
Proof.
  unfold loadSettings, or_else.
  destruct (appSettings E) as [[| b | z | t | items | members]|]; cbn; try (eexists; reflexivity).
  - destruct b; cbn; eexists; reflexivity.
  - destruct (negb (z =? 0)%Z); cbn; eexists; reflexivity.
  - destruct (negb (String.eqb t "")); cbn; eexists; reflexivity.
Qed.

(** The JSON export returns the serialized document, after one reading of
    the clock. *)
Lemma exportData_json_run (E : Env) (notes : list json) (s : State) :
  exportData E notes "json" s
  = (Ok (stringify2 (exportDocument E (JsDate.toISOString (clock E (clock_reads s)))
                       (export_version E) notes)),
     advance 1 0 s).
Proof.
  unfold exportData, try_catch. cbv zeta.
  change (String.eqb (toLowerCase "json") "json") with true. cbv iota.
  erewrite bind_ok by reflexivity.
  unfold export_version. destruct (loadSettings_version E) as [version Hv]. rewrite Hv.
  erewrite bind_ok by reflexivity.
  reflexivity.
Qed.

Lemma member_importedNote (note : json) (id createdAt lastModified k : string) :
  k <> "id" -> k <> "createdAt" -> k <> "lastModified" ->
  member k (importedNote note id createdAt lastModified) = member k note.
Proof.
  intros H1 H2 H3. unfold member, importedNote, spread. cbn [own_members].
  rewrite !lookup_set_ne by congruence. reflexivity.
Qed.

Lemma identity_importedNote (note : json) (id createdAt lastModified : string) :
  member "id" (importedNote note id createdAt lastModified) = Some (JStr id)
  /\ member "createdAt" (importedNote note id createdAt lastModified) = Some (JStr createdAt)
  /\ member "lastModified" (importedNote note id createdAt lastModified)
     = Some (JStr lastModified).
Proof.
  unfold member, importedNote. cbn [own_members]. repeat split.
  - rewrite !lookup_set_ne by discriminate. apply lookup_set_eq.
  - rewrite lookup_set_ne by discriminate. apply lookup_set_eq.
  - apply lookup_set_eq.
Qed.

Lemma copy_of_imported_at (E : Env) (c r : nat) (note : json) :
  copy_of E c r note (imported_at E c r note).
Proof.
  unfold copy_of, imported_at. split.
  - unfold carried. repeat constructor; apply member_importedNote; discriminate.
  - apply identity_importedNote.
Qed.

Lemma copies_of_imports (E : Env) (notes : list json) :
  forall c r, copies_of E c r notes (imports E c r notes).
Proof.
  induction notes as [|note rest IH]; intros c r; cbn; constructor.
  - apply copy_of_imported_at.
  - apply IH.
Qed.

Lemma copies_of_length (E : Env) (c r : nat) (notes copies : list json) :
  copies_of E c r notes copies -> length copies = length notes.
Proof. induction 1; cbn; congruence. Qed.

(** The whole round trip as one run. *)
Lemma roundtrip_run (E : Env) (notes old : list json) (options : ImportOptions) (s : State) :
  notes_are s old ->
  exists (text : string) (s1 : State) (doc : json) (s2 : State),
    exportData E notes "json" s = (Ok text, s1)
    /\ parse text = Some doc
    /\ performDataImport E doc options s1
       = (Ok {| imported := Z.of_nat (length notes); skipped := 0; import_errors := [] |}, s2)
    /\ notes_are s2 (old ++ imports E (S (clock_reads s)) (random_reads s) notes).
Proof.
  intros Hold. eexists _, _, _, _. split; [apply exportData_json_run|].
  split; [apply parse_stringify2|].
  assert (Hold1 : notes_are (advance 1 0 s) old) by exact Hold.
  split.
  - unfold exportDocument. apply performDataImport_run; [reflexivity|exact Hold1].
  - unfold notes_are. rewrite stored_set_localStorage by apply stringify_nonempty.
    apply parse_stringify.
Qed.

(** C1, as the code has it. Exporting a collection of notes with
    [exportData(notes, 'json')], parsing the text and importing the
    parsed object appends as many notes as were exported; each appended
    note has the title, content, category, tags and priority of the note
    it copies, and its id, createdAt and lastModified are the values
    generated at the import (a new id from the clock and the random
    generator, the time of the import twice), whatever the original
    values were. *)
Theorem export_import_roundtrip (E : Env) (notes old : list json)
    (options : ImportOptions) (s : State) :
  notes_are s old ->
  exists (text : string) (s1 : State) (doc : json) (s2 : State) (copies : list json),
    exportData E notes "json" s = (Ok text, s1)
    /\ parse text = Some doc
    /\ performDataImport E doc options s1
       = (Ok {| imported := Z.of_nat (length notes); skipped := 0; import_errors := [] |}, s2)
    /\ notes_are s2 (old ++ copies)
    /\ length copies = length notes
    /\ copies_of E (S (clock_reads s)) (random_reads s) notes copies.
Proof.
  intros Hold. destruct (roundtrip_run E notes old options s Hold)
    as (text & s1 & doc & s2 & Hexport & Hparse & Himport & Hstore).
  exists text, s1, doc, s2, (imports E (S (clock_reads s)) (random_reads s) notes).
  repeat split; try assumption.
  - apply imports_length.
  - apply copies_of_imports.
Qed.
(** *** Importing into a collection that is an array *)

Lemma nth_error_imports (E : Env) (items : list json) :
  forall c r i note,
    nth_error items i = Some note ->
    nth_error (imports E c r items) i = Some (imported_at E (c + 3 * i) (r + i) note).
Proof.
  induction items as [|first rest IH]; intros c r [|i] note Hnth; cbn in Hnth;
    try discriminate.
  - injection Hnth as ->.
    replace (c + 3 * 0) with c by lia. replace (r + 0) with r by lia. reflexivity.
  - cbn [imports nth_error]. rewrite (IH _ _ i note Hnth).
    replace (3 + c + 3 * i) with (c + 3 * S i) by lia.
    replace (1 + r + i) with (r + S i) by lia. reflexivity.
Qed.

Lemma appended_for_imported_at (E : Env) (c r : nat) (note : json) :
  appended_for E c r note (imported_at E c r note).
Proof.
  unfold appended_for, imported_at. split; [eexists; reflexivity|].
  split; [intros k H1 H2 H3; apply member_importedNote; assumption|].
  apply identity_importedNote.
Qed.

(** C10, as the code has it. For every input object whose [notes] member
    is an array, over a persisted collection that is an array,
    [performDataImport] returns [skipped = 0], [errors = []] and
    [imported] equal to the length of the array: no note takes the error
    branch, and for every incoming note, whatever its shape, one object
    is appended to the persisted collection, in the order of the notes;
    it has the members of the note but for [id], [createdAt] and
    [lastModified], which are generated at the import. *)
Theorem performDataImport_imports_all (E : Env) (members : list (string * json))
    (items old : list json) (options : ImportOptions) (s : State) :
  lookup "notes" members = Some (JArr items) ->
  notes_are s old ->
  exists (s' : State) (copies : list json),
    performDataImport E (JObj members) options s
    = (Ok {| imported := Z.of_nat (length items); skipped := 0; import_errors := [] |}, s')
    /\ notes_are s' (old ++ copies)
    /\ length copies = length items
    /\ (forall i note,
          nth_error items i = Some note ->
          exists copy,
            nth_error copies i = Some copy
            /\ appended_for E (clock_reads s + 3 * i) (random_reads s + i) note copy).
Proof.
  intros Hnotes Hold.
  exists (set_localStorage
            (<["notes" := stringify (JArr (old ++ imports E (clock_reads s) (random_reads s)
                                                    items))]>
               (localStorage s))
            (advance (3 * length items) (length items) s)),
    (imports E (clock_reads s) (random_reads s) items).
  split; [apply performDataImport_run; assumption|]. split; [|split].
  - unfold notes_are. rewrite stored_set_localStorage by apply stringify_nonempty.
    apply parse_stringify.
  - apply imports_length.
  - intros i note Hnth. eexists. split; [apply nth_error_imports; exact Hnth|].
    apply appended_for_imported_at.
Qed.

End ImportFacts.

(** ** Strings *)

Module JsStringFacts.
Import JsString.

Lemma append_nil_r (s : string) : s +:+ "" = s.
Proof.
  induction s as [|c s IH]; [reflexivity|].
  change (String c (s +:+ "") = String c s). f_equal. exact IH.
Qed.

Lemma append_assoc (a b c : string) : (a +:+ b) +:+ c = a +:+ (b +:+ c).
Proof.
  induction a as [|x a IH]; [reflexivity|].
  change (String x ((a +:+ b) +:+ c) = String x (a +:+ (b +:+ c))). f_equal. exact IH.
Qed.

End JsStringFacts.

(** ** js/errorHandler.js: the order of the categories *)

Module ErrorHandlerFacts.
Import JsString Json Js ErrorHandler.

(** [lowered] gives the keyword text, and throws where there is none. *)
Lemma lowered_keyword_text (v : value) :
  lowered v = match keyword_text v with
              | Some text => Ok text
              | None => Throw TypeError
              end.
Proof.
  unfold lowered, keyword_text, or_else.
  destruct v as [[| b | z | t | items | members]|]; try reflexivity.
  - destruct b; reflexivity.
  - cbn [truthy]. destruct (negb (z =? 0)%Z); reflexivity.
  - cbn [truthy]. destruct (String.eqb t "") eqn:Ht; [|reflexivity].
    apply String.eqb_eq in Ht. subst t. reflexivity.
Qed.

(** The method computes the first match over the ordered categories. *)
Lemma categorizeError_first_match (e : json) (message name type : value) (m n : string) :
  get "message" e = Ok message -> get "name" e = Ok name -> get "type" e = Ok type ->
  keyword_text message = Some m ->
  keyword_text name = Some n ->
  categorizeError (Some e) = Ok (first_match category_order m n type).
Proof.
  intros Hmessage Hname Htype Hm Hn. unfold categorizeError, property.
  rewrite Hmessage. cbn [rbind]. rewrite lowered_keyword_text, Hm. cbn [rbind].
  rewrite Hname. cbn [rbind]. rewrite lowered_keyword_text, Hn. cbn [rbind].
  rewrite Htype. cbn [rbind].
  cbn [first_match category_order any_of existsb].
  rewrite !orb_false_r, !orb_assoc.
  repeat match goal with
         | |- (if ?c then _ else _) = Ok (if ?c then _ else _) => destruct c; [reflexivity|]
         end.
  destruct (includes m "validation" || includes m "invalid" || includes m "required");
    [reflexivity|].
  cbn [orb]. destruct (strict_eq type (Some (JStr "VALIDATION"))); reflexivity.
Qed.

(** A category is returned exactly when its test holds and the tests of
    all the categories before it fail. *)
Lemma first_match_earliest (tests : list (string * KeywordTest)) (m n : string) (t : value)
    (before : list (string * KeywordTest)) (category : string) (test : KeywordTest)
    (after : list (string * KeywordTest)) :
  tests = before ++ (category, test) :: after ->
  Forall (fun ct => snd ct m n t = false) before ->
  test m n t = true ->
  first_match tests m n t = category.
Proof.
  intros -> Hbefore Htest. induction Hbefore as [|[c f] before Hf _ IH]; cbn.
  - rewrite Htest. reflexivity.
  - cbn in Hf. rewrite Hf. exact IH.
Qed.

Lemma first_match_none (tests : list (string * KeywordTest)) (m n : string) (t : value) :
  Forall (fun ct => snd ct m n t = false) tests ->
  first_match tests m n t = "UNKNOWN".
Proof.
  induction 1 as [|[c f] tests Hf _ IH]; cbn; [reflexivity|].
  cbn in Hf. rewrite Hf. exact IH.
Qed.

(** Where the method throws: on [null] and [undefined], and on a message
    or a name that is truthy and not a string. *)
Lemma categorizeError_throws (error : value) :
  error = None \/ error = Some JNull
  \/ (exists e message, error = Some e /\ get "message" e = Ok message
                         /\ keyword_text message = None)
  \/ (exists e name, error = Some e /\ get "name" e = Ok name
                      /\ keyword_text name = None) ->
  categorizeError error = Throw TypeError.
Proof.
  intros [->|[->|[(e & message & -> & Hmessage & Hm)|(e & name & -> & Hname & Hn)]]];
    try reflexivity.
  - unfold categorizeError, property. rewrite Hmessage. cbn [rbind].
    rewrite lowered_keyword_text, Hm. reflexivity.
  - unfold categorizeError, property.
    destruct (get "message" e) as [message|err] eqn:Hmessage;
      [|destruct e; discriminate].
    cbn [rbind]. rewrite lowered_keyword_text.
    destruct (keyword_text message); [|reflexivity]. cbn [rbind].
    rewrite Hname. cbn [rbind]. rewrite lowered_keyword_text, Hn. reflexivity.
Qed.

(** C8, as the code has it. For an error that is not [null] or
    [undefined] and whose message and name are each falsy or a string,
    [categorizeError] returns the first category whose keyword test
    matches, the tests taken in the fixed order Network, Storage,
    Permission, Audio, File, Validation, and UNKNOWN when none matches;
    a message with the keywords of two categories gets the earlier one:
    with both [network] and [file] in it the category is NETWORK. For
    every other error value it returns no category: it throws a
    TypeError. *)
Theorem categorizeError_precedence (error : value) :
  map fst category_order
  = ["NETWORK"; "STORAGE"; "PERMISSION"; "AUDIO"; "FILE"; "VALIDATION"]
  /\ (forall e message name type m n,
        error = Some e ->
        get "message" e = Ok message -> get "name" e = Ok name -> get "type" e = Ok type ->
        keyword_text message = Some m -> keyword_text name = Some n ->
        categorizeError error = Ok (first_match category_order m n type)
        /\ (Forall (fun ct => snd ct m n type = false) category_order ->
            categorizeError error = Ok "UNKNOWN")
        /\ (includes m "network" = true -> includes m "file" = true ->
            categorizeError error = Ok "NETWORK" /\ categorizeError error <> Ok "FILE"))
  /\ (error = None \/ error = Some JNull
      \/ (exists e message, error = Some e /\ get "message" e = Ok message
                             /\ keyword_text message = None)
      \/ (exists e name, error = Some e /\ get "name" e = Ok name
                          /\ keyword_text name = None) ->
      categorizeError error = Throw TypeError)
  /\ ((exists category, categorizeError error = Ok category)
      \/ categorizeError error = Throw TypeError).
Proof.
  split; [reflexivity|]. split; [|split; [apply categorizeError_throws|]].
  - intros e message name type m n -> Hmessage Hname Htype Hm Hn.
    pose proof (categorizeError_first_match e message name type m n
                  Hmessage Hname Htype Hm Hn) as H.
    split; [exact H|]. split.
    + intros Hnone. rewrite H, first_match_none by exact Hnone. reflexivity.
    + intros Hnet _. rewrite H. cbn [first_match category_order any_of existsb].
      rewrite Hnet, orb_true_r. cbn. split; [reflexivity|discriminate].
  - destruct error as [e|]; [|right; reflexivity].
    destruct e as [| b | z | t | items | members] eqn:He; [right; reflexivity| | | | |].
    all: destruct (get "message" e) as [message|err] eqn:Hmessage;
      [|rewrite He in Hmessage; discriminate].
    all: destruct (get "name" e) as [name|err] eqn:Hname;
      [|rewrite He in Hname; discriminate].
    all: destruct (get "type" e) as [type|err] eqn:Htype;
      [|rewrite He in Htype; discriminate].
    all: rewrite <- He.
    all: destruct (keyword_text message) as [m|] eqn:Hm;
      [|right; apply categorizeError_throws; right; right; left; eauto].
    all: destruct (keyword_text name) as [n|] eqn:Hn;
      [|right; apply categorizeError_throws; right; right; right; eauto].
    all: left; eexists;
      exact (categorizeError_first_match e message name type m n
               Hmessage Hname Htype Hm Hn).
Qed.

Lemma categorizeError_precedence_witness :
  let error := Some (JObj [("message", JStr "Network down, FILE not saved")]) in
  categorizeError error = Ok "NETWORK" /\ categorizeError error <> Ok "FILE".
Proof.
  intros error.
  destruct (categorizeError_precedence error) as (_ & Hfirst & _).
  destruct (Hfirst (JObj [("message", JStr "Network down, FILE not saved")])
              (Some (JStr "Network down, FILE not saved")) None None
              "network down, file not saved" "")
    as (_ & _ & Hboth); try reflexivity.
  apply Hboth; reflexivity.
Defined.

(** C8 as stated fails: an error whose message is the number 42 gets no
    category, its message having no [toLowerCase]. *)
Lemma categorizeError_can_throw : ~ categorizes_every_error.
Proof.
  intros H. destruct (H (Some (JObj [("message", JNum 42)]))) as [category Hc].
  discriminate Hc.
Qed.

End ErrorHandlerFacts.

(** ** The data manager: the CSV export *)

Module DataManagerFacts.
Import JsString Json Js App DataManager.

Lemma csvRows_prefix (notes : list json) (csv out : string) :
  csvRows notes csv = Ok out -> exists rows, out = csv +:+ rows.
Proof.
  revert csv. induction notes as [|note rest IH]; intros csv H; cbn in H.
  - injection H as <-. exists "". symmetry. apply JsStringFacts.append_nil_r.
  - destruct (csvRow note) as [row|]; [|discriminate]. cbn in H.
    destruct (IH _ H) as [rows ->]. exists (row +:+ nl +:+ rows).
    rewrite !JsStringFacts.append_assoc. reflexivity.
Qed.

(** The first line of every export is the header of eleven columns. *)
Lemma exportToCSV_header (notes : list json) (out : string) :
  exportToCSV notes = Ok out ->
  exists rows,
    out = "ID,Title,Content,Category,Priority,Tags,Has Audio,Is Public,Created Date,Modified Date,Character Count"
            +:+ nl +:+ rows.
Proof.
  intros H. destruct (csvRows_prefix _ _ _ H) as [rows ->]. exists rows.
  change (join "," headers +:+ nl)
    with ("ID,Title,Content,Category,Priority,Tags,Has Audio,Is Public,Created Date,Modified Date,Character Count" +:+ nl).
  apply JsStringFacts.append_assoc.
Qed.

(** The note of the CSV example: the content and one tag both hold
    double quotes. *)
Definition quoted_note : json :=
  JObj [("id", JStr "n1"); ("title", JStr "Greeting");
        ("content", JStr ("He said " +:+ dq +:+ "hi" +:+ dq));
        ("category", JStr "personal"); ("priority", JStr "high");
        ("tags", JArr [JStr ("say " +:+ dq +:+ "hi" +:+ dq); JStr "b"])].

(** C7, at the note above. The header line is the fixed one, the content
    is written with its quotes doubled and the tags are joined by a
    semicolon and a space; but the quotes inside the tags field are
    written as they are, not doubled: of the text fields only the title
    and the content are escaped. *)
Theorem exportToCSV_tags_not_escaped :
  exportToCSV [quoted_note]
  = Ok ("ID,Title,Content,Category,Priority,Tags,Has Audio,Is Public,Created Date,Modified Date,Character Count"
          +:+ nl
          +:+ dq +:+ "n1" +:+ dq +:+ ","
          +:+ dq +:+ "Greeting" +:+ dq +:+ ","
          +:+ dq +:+ "He said " +:+ dq +:+ dq +:+ "hi" +:+ dq +:+ dq +:+ dq +:+ ","
          +:+ dq +:+ "personal" +:+ dq +:+ ","
          +:+ dq +:+ "high" +:+ dq +:+ ","
          +:+ dq +:+ "say " +:+ dq +:+ "hi" +:+ dq +:+ "; b" +:+ dq +:+ ","
          +:+ "No,No,"
          +:+ dq +:+ dq +:+ ","
          +:+ dq +:+ dq +:+ ","
          +:+ "12" +:+ nl).
Proof. vm_compute. reflexivity. Qed.

End DataManagerFacts.

(** ** js/businessLogic.js: comparing two versions of a note *)

Module ChangesFacts.
Import JsString Json Js BusinessLogic.

(** C6. For two note records that differ only in their title,
    [calculateNoteChanges] returns the one element with field [title],
    the original title and the updated title; for two records that agree
    on title, content, category, tags (compared as JSON.stringify writes
    them), priority and the presence of audio it returns the empty array. *)
Theorem calculateNoteChanges_title_only (o u : list (string * json)) :
  strict_eq (lookup "content" o) (lookup "content" u) = true ->
  strict_eq (lookup "category" o) (lookup "category" u) = true ->
  stringify_value (lookup "tags" o) = stringify_value (lookup "tags" u) ->
  strict_eq (lookup "priority" o) (lookup "priority" u) = true ->
  truthy (lookup "audio" o) = truthy (lookup "audio" u) ->
  (strict_eq (lookup "title" o) (lookup "title" u) = false ->
   calculateNoteChanges (JObj o) (JObj u)
   = Ok [{| field := "title"; from := lookup "title" o; to := lookup "title" u |}])
  /\ (strict_eq (lookup "title" o) (lookup "title" u) = true ->
      calculateNoteChanges (JObj o) (JObj u) = Ok []).
Proof.
  intros Hcontent Hcategory Htags Hpriority Haudio.
  unfold calculateNoteChanges. cbn [get rbind].
  rewrite Hcontent, Hcategory, Hpriority, Haudio, Htags.
  rewrite bool_decide_eq_true_2 by reflexivity.
  rewrite Bool.eqb_reflx. cbn [negb].
  split; intros ->; reflexivity.
Qed.

Definition note_before : list (string * json) :=
  [("id", JStr "n1"); ("title", JStr "Shopping"); ("content", JStr "milk");
   ("category", JStr "personal"); ("tags", JArr [JStr "home"]); ("priority", JStr "low");
   ("audio", JNull)].

Definition note_retitled : list (string * json) :=
  [("title", JStr "Groceries"); ("content", JStr "milk"); ("category", JStr "personal");
   ("tags", JArr [JStr "home"]); ("priority", JStr "low")].

Lemma calculateNoteChanges_title_only_witness :
  calculateNoteChanges (JObj note_before) (JObj note_retitled)
  = Ok [{| field := "title"; from := Some (JStr "Shopping"); to := Some (JStr "Groceries") |}]
  /\ calculateNoteChanges (JObj note_before) (JObj note_before) = Ok [].
Proof.
  split.
  - apply (calculateNoteChanges_title_only note_before note_retitled); reflexivity.
  - apply (calculateNoteChanges_title_only note_before note_before); reflexivity.
Defined.

End ChangesFacts.

(** ** js/businessLogic.js: deleting a note *)

Module DeletionFacts.
Import JsString Json Js App BusinessLogic Spec JsonFacts JsFacts ImportFacts MonadFacts.

(** *** What each step does to the state *)

Lemma beginWorkflow_run (E : Env) (type : string) (data : json) (s : State) :
  beginWorkflow E type data s
  = (Ok tt,
     set_currentWorkflow (Some (newWorkflow type (clock E (clock_reads s)) data))
       (set_clock_reads (S (clock_reads s)) s)).
Proof. reflexivity. Qed.

Lemma pushStep_run (step : string) (result : json) (w : Workflow) (s : State) :
  currentWorkflow s = Some w ->
  pushStep step result s = (Ok tt, set_currentWorkflow (Some (add_step step result w)) s).
Proof. intros H. unfold pushStep. erewrite bind_ok by reflexivity. rewrite H. reflexivity. Qed.

Lemma completeWorkflow_run (E : Env) (status : string) (error : option string)
    (w : Workflow) (s : State) :
  currentWorkflow s = Some w ->
  completeWorkflow E status error s
  = (Ok tt,
     set_workflowHistory
       (keep_last_50 (workflowHistory s ++ [finish (clock E (clock_reads s)) status error w]))
       (set_currentWorkflow None (set_clock_reads (S (clock_reads s)) s))).
Proof.
  intros H. unfold completeWorkflow. erewrite bind_ok by reflexivity. rewrite H.
  reflexivity.
Qed.

Lemma completeWorkflow_idle (E : Env) (status : string) (error : option string) (s : State) :
  currentWorkflow s = None -> completeWorkflow E status error s = (Ok tt, s).
Proof.
  intros H. unfold completeWorkflow. erewrite bind_ok by reflexivity. rewrite H.
  reflexivity.
Qed.

(** [completeWorkflow] returns, and touches neither the store nor the
    dialogs. *)
Lemma completeWorkflow_frame (E : Env) (status : string) (error : option string) (s : State) :
  exists s', completeWorkflow E status error s = (Ok tt, s')
             /\ localStorage s' = localStorage s /\ dialogs s' = dialogs s.
Proof.
  destruct (currentWorkflow s) as [w|] eqn:H.
  - eexists. split; [apply completeWorkflow_run; exact H|]. split; reflexivity.
  - eexists. split; [apply completeWorkflow_idle; exact H|]. split; reflexivity.
Qed.

(** The [catch] of a workflow finalizes the record and throws again. *)
Lemma rethrow_frame (E : Env) {A : Type} (e : string) (s : State) :
  exists s', (completeWorkflow E "error" (Some e) ;; @throw A e) s = (Throw e, s')
             /\ localStorage s' = localStorage s /\ dialogs s' = dialogs s.
Proof.
  destruct (completeWorkflow_frame E "error" (Some e) s) as (s' & Hc & Hl & Hd).
  exists s'. split; [|split; assumption]. erewrite bind_ok by exact Hc. reflexivity.
Qed.

Lemma loadNoteForEditing_state (noteId : json) (s : State) :
  snd (loadNoteForEditing noteId s) = s.
Proof.
  unfold loadNoteForEditing. erewrite bind_ok by apply getItem_or_stored.
  unfold bind, lift. destruct (JSON_parse (stored "notes" "[]" s)) as [notes|e]; [|reflexivity].
  destruct notes; try reflexivity.
  destruct (find_by_id noteId items) as [[n|]|e]; try reflexivity.
  destruct (truthy (Some n)); reflexivity.
Qed.

(** A note that was loaded is an element of the persisted array, the
    first one with the id. *)
Lemma loadNoteForEditing_ok (noteId note : json) (s s' : State) :
  loadNoteForEditing noteId s = (Ok note, s') ->
  s' = s /\ exists items, notes_are s items /\ find_by_id noteId items = Ok (Some note).
Proof.
  intros H. pose proof (loadNoteForEditing_state noteId s) as Hs. rewrite H in Hs.
  cbn in Hs. subst s'. split; [reflexivity|].
  unfold loadNoteForEditing in H. erewrite bind_ok in H by apply getItem_or_stored.
  unfold bind, lift, JSON_parse in H. unfold notes_are.
  destruct (parse (stored "notes" "[]" s)) as [notes|]; [|discriminate].
  destruct notes; try discriminate. exists items. split; [reflexivity|].
  destruct (find_by_id noteId items) as [[n|]|e]; try discriminate.
  destruct (truthy (Some n)); [|discriminate]. unfold ret in H. injection H as ->.
  reflexivity.
Qed.

Lemma validateDeletionPermissions_state (note : json) (s : State) :
  snd (validateDeletionPermissions note s) = s.
Proof.
  unfold validateDeletionPermissions, bind, lift.
  destruct (get "isProtected" note) as [p|e]; [|reflexivity].
  destruct (truthy p); reflexivity.
Qed.

(** The confirmation either throws before any dialog, or shows its
    dialog and returns the user's answer to it. *)
Lemma confirmNoteDeletion_cases (E : Env) (note : json) (s : State) :
  (exists e, confirmNoteDeletion E note s = (Throw e, s))
  \/ (exists d, confirmNoteDeletion E note s
               = (Ok (answers E (length (dialogs s))), set_dialogs (dialogs s ++ [d]) s)).
Proof.
  unfold confirmNoteDeletion, bind, lift.
  destruct (get "audio" note) as [audio|e]; [|left; eexists; reflexivity].
  destruct (get "title" note) as [title|e]; [|left; eexists; reflexivity].
  destruct (to_string_value title) as [text|e]; [|left; eexists; reflexivity].
  right. eexists. reflexivity.
Qed.


(** In the [catch] of the deletion workflow no dialog is added. *)
Ltac no_dialog E Hrun Hshown :=
  cbv beta iota in Hrun;
  match type of Hrun with
  | bind (completeWorkflow _ _ (Some ?e)) _ ?sx = _ =>
      let sy := fresh "sy" in
      let Hx := fresh "Hx" in
      let Hd := fresh "Hd" in
      destruct (rethrow_frame E (A := DeletionResult) e sx) as (sy & Hx & _ & Hd);
      rewrite Hx in Hrun; injection Hrun as <- <-;
      exfalso; apply Hshown; rewrite Hd; reflexivity
  end.

(** C4. In every run of [startNoteDeletionWorkflow] in which the
    confirmation dialog is shown and the user declines it, the workflow
    returns [{ success: false, reason: "User cancelled deletion" }] and
    does not throw; [localStorage], hence the note collection and the
    backup store, is as before; and the Workflow Record that is pushed
    on the history has status [cancelled] and no error. *)
Theorem deletion_declined (E : Env) (noteId : json) (s s' : State)
    (r : result DeletionResult) :
  startNoteDeletionWorkflow E noteId s = (r, s') ->
  dialogs s' <> dialogs s ->
  answers E (length (dialogs s)) = false ->
  r = Ok (DeletionCancelled "User cancelled deletion")
  /\ localStorage s' = localStorage s
  /\ currentWorkflow s' = None
  /\ exists w,
       workflowHistory s' = keep_last_50 (workflowHistory s ++ [w])
       /\ wf_type w = "note_deletion"
       /\ wf_status w = Some "cancelled"
       /\ wf_error w = None.
Proof.
  intros Hrun Hshown Hdeclined.
  unfold startNoteDeletionWorkflow, try_catch in Hrun.
  erewrite bind_ok in Hrun by apply beginWorkflow_run.
  (* Step 1: the note is loaded, or the workflow throws *)
  unfold bind at 1 in Hrun.
  match type of Hrun with context [loadNoteForEditing noteId ?s1] =>
    pose proof (loadNoteForEditing_state noteId s1) as Hs;
    destruct (loadNoteForEditing noteId s1) as [[note|e] s2]
  end; cbn [snd] in Hs; subst s2; [|no_dialog E Hrun Hshown].
  erewrite bind_ok in Hrun by (apply pushStep_run; reflexivity).
  (* Step 2: the permission *)
  unfold bind at 1 in Hrun.
  match type of Hrun with context [validateDeletionPermissions note ?s1] =>
    pose proof (validateDeletionPermissions_state note s1) as Hs;
    destruct (validateDeletionPermissions note s1) as [[perm|e] s2]
  end; cbn [snd] in Hs; subst s2; [|no_dialog E Hrun Hshown].
  erewrite bind_ok in Hrun by (apply pushStep_run; reflexivity).
  destruct (canDelete perm); cbn [negb] in Hrun.
  2:{ match type of Hrun with context [bind (lift ?x) ?k ?s1] =>
        destruct (lift_then_throw (B := DeletionResult) x
                    (fun reason => "Cannot delete note: " +:+ reason) s1) as [e He]
      end.
      rewrite He in Hrun. no_dialog E Hrun Hshown. }
  (* Step 3: the confirmation *)
  match type of Hrun with context [bind (confirmNoteDeletion E note) _ ?s1] =>
    destruct (confirmNoteDeletion_cases E note s1) as [[e He]|[d Hd]]
  end.
  { erewrite bind_throw in Hrun by exact He. no_dialog E Hrun Hshown. }
  erewrite bind_ok in Hrun by exact Hd.
  cbn [dialogs set_currentWorkflow set_clock_reads] in Hrun. rewrite Hdeclined in Hrun.
  erewrite bind_ok in Hrun by (apply pushStep_run; reflexivity).
  cbn [negb] in Hrun.
  erewrite bind_ok in Hrun by (apply completeWorkflow_run; reflexivity).
  unfold ret in Hrun. injection Hrun as <- <-.
  split; [reflexivity|]. split; [reflexivity|]. split; [reflexivity|].
  eexists. split; [reflexivity|]. split; [reflexivity|]. split; reflexivity.
Qed.

(** *** The successful deletion *)

Ltac not_ok E Hrun :=
  cbv beta iota in Hrun;
  match type of Hrun with
  | bind (completeWorkflow _ _ (Some ?e)) _ ?sx = _ =>
      let sy := fresh "sy" in
      let Hx := fresh "Hx" in
      destruct (rethrow_frame E (A := DeletionResult) e sx) as (sy & Hx & _ & _);
      rewrite Hx in Hrun; discriminate Hrun
  end.

Lemma find_by_id_spec (noteId : json) (items : list json) (note : json) :
  find_by_id noteId items = Ok (Some note) ->
  exists i,
    findIndex_by_id noteId items = Ok (Some i)
    /\ nth_error items i = Some note
    /\ has_id noteId note = true.
Proof.
  induction items as [|n rest IH]; cbn; [discriminate|]. unfold has_id.
  destruct (get "id" n) as [id|e] eqn:Hid; cbn; [|discriminate].
  destruct (strict_eq id (Some noteId)) eqn:Heq.
  - intros [= <-]. exists O. rewrite Hid, Heq. repeat split; reflexivity.
  - intros H. destruct (IH H) as (i & Hi & Hn & Hh). exists (S i).
    rewrite Hi. repeat split; assumption.
Qed.

Lemma remove_at_cons (i : nat) (x : json) (l : list json) :
  remove_at (S i) (x :: l) = x :: remove_at i l.
Proof. reflexivity. Qed.

Lemma remove_at_unique (noteId : json) (items : list json) :
  forall i a,
    unique_id noteId items ->
    nth_error items i = Some a -> has_id noteId a = true ->
    Forall (fun n => has_id noteId n = false) (remove_at i items)
    /\ S (length (remove_at i items)) = length items.
Proof.
  induction items as [|x l IH]; intros i a Hu Hi Ha.
  - destruct i; discriminate.
  - destruct i as [|i].
    + cbn in Hi. injection Hi as ->. unfold remove_at. cbn. split; [|reflexivity].
      apply List.Forall_forall. intros y Hy.
      destruct (List.In_nth_error _ _ Hy) as [j Hj].
      destruct (has_id noteId y) eqn:Hy'; [|reflexivity].
      specialize (Hu O (S j) a y eq_refl Hj Ha Hy'). discriminate.
    + cbn in Hi. rewrite remove_at_cons.
      assert (Hu' : unique_id noteId l).
      { intros p q u v Hp Hq Hu1 Hv1.
        specialize (Hu (S p) (S q) u v Hp Hq Hu1 Hv1). congruence. }
      destruct (IH i a Hu' Hi Ha) as [HF Hlen]. split; [|cbn; congruence].
      constructor; [|exact HF].
      destruct (has_id noteId x) eqn:Hx; [|reflexivity].
      specialize (Hu O (S i) x a eq_refl Hi Hx Ha). discriminate.
Qed.

Lemma createDeletionBackup_ok (E : Env) (note : json) (backupId : string) (s s1 : State) :
  createDeletionBackup E note s = (Ok backupId, s1) ->
  exists backups backups' timestamp,
    parse (stored "note_backups" "{}" s) = Some backups
    /\ assign_backup backupId (backupRecord note timestamp "deletion_backup") backups
       = Ok backups'
    /\ s1 = set_localStorage (<["note_backups" := stringify backups']> (localStorage s))
              (advance 2 0 s).
Proof.
  unfold createDeletionBackup. intros H.
  erewrite bind_ok in H by reflexivity.
  unfold bind at 1, lift in H. destruct (get "id" note) as [id|e]; [|discriminate].
  unfold bind at 1, lift in H. destruct (to_string_value id) as [idText|e]; [|discriminate].
  cbv zeta in H.
  erewrite bind_ok in H by apply getItem_or_stored.
  unfold bind at 1, lift, JSON_parse in H.
  cbn [set_clock_reads localStorage stored] in H.
  change (stored "note_backups" "{}" (set_clock_reads (S (clock_reads s)) s))
    with (stored "note_backups" "{}" s) in H.
  destruct (parse (stored "note_backups" "{}" s)) as [backups|] eqn:Hp; [|discriminate].
  erewrite bind_ok in H by reflexivity.
  unfold bind at 1 in H.
  match type of H with context [assign_backup ?b ?r backups] =>
    destruct (assign_backup b r backups) as [backups'|e] eqn:Ha; [|discriminate]
  end.
  erewrite bind_ok in H by reflexivity. unfold ret in H. injection H as <- <-.
  eexists _, _, _. split; [reflexivity|]. split; [exact Ha|]. reflexivity.
Qed.

Lemma performNoteDeletion_ok (noteId : json) (deleted : value) (s s1 : State) :
  performNoteDeletion noteId s = (Ok deleted, s1) ->
  exists items i,
    notes_are s items
    /\ findIndex_by_id noteId items = Ok (Some i)
    /\ s1 = set_localStorage
              (<["notes" := stringify (JArr (remove_at i items))]> (localStorage s)) s.
Proof.
  unfold performNoteDeletion, notes_are. intros H.
  erewrite bind_ok in H by apply getItem_or_stored.
  unfold bind at 1, lift, JSON_parse in H.
  destruct (parse (stored "notes" "[]" s)) as [notes|] eqn:Hp; [|discriminate].
  destruct notes; try discriminate.
  unfold bind at 1 in H.
  destruct (findIndex_by_id noteId items) as [[i|]|e] eqn:Hi; try discriminate.
  erewrite bind_ok in H by reflexivity. unfold ret in H. injection H as <- <-.
  exists items, i. repeat split; [exact Hi].
Qed.

Lemma handlePostDeletionActions_store (note : json) (s s1 : State) (r : result unit) :
  handlePostDeletionActions note s = (r, s1) -> localStorage s1 = localStorage s.
Proof.
  unfold handlePostDeletionActions, bind, lift.
  destruct (get "title" note) as [title|e]; [|intros [= <- <-]; reflexivity].
  destruct (to_string_value title) as [text|e]; intros [= <- <-]; reflexivity.
Qed.

Lemma stored_insert_ne (key other fallback text : string) (s0 s : State) :
  key <> other ->
  localStorage s = <[other := text]> (localStorage s0) ->
  stored key fallback s = stored key fallback s0.
Proof. intros Hne Hs. unfold stored. rewrite Hs, lookup_insert_ne by congruence. reflexivity. Qed.

Lemma stored_insert_eq (key fallback text : string) (m : gmap string string) (s : State) :
  text <> "" ->
  localStorage s = <[key := text]> m ->
  stored key fallback s = text.
Proof.
  intros Hne Hs. unfold stored. rewrite Hs, lookup_insert_eq.
  destruct (String.eqb text "") eqn:H; [|reflexivity].
  apply String.eqb_eq in H. contradiction.
Qed.

(** C5, as the code has it. In every run of [startNoteDeletionWorkflow]
    on the id [noteId] that returns [success: true], over a collection in
    which the id is that of one note at most and a backup store that is
    an object, the backup store afterwards holds, under the returned
    backup id, a record of type [deletion_backup] whose [note] is the
    note that had the id, and the persisted collection holds no note
    with the id any more. *)
Theorem deletion_backs_up (E : Env) (noteId : json) (s s' : State) (note : json)
    (backupId : string) (workflow : option Workflow)
    (items : list json) (backups : list (string * json)) :
  startNoteDeletionWorkflow E noteId s = (Ok (Deleted note backupId workflow), s') ->
  notes_are s items ->
  unique_id noteId items ->
  backups_are s backups ->
  (In note items /\ has_id noteId note = true)
  /\ (exists backups' timestamp,
        backups_are s' backups'
        /\ lookup backupId backups'
           = Some (JObj [("note", note); ("timestamp", JStr timestamp);
                         ("type", JStr "deletion_backup")]))
  /\ (exists items',
        notes_are s' items'
        /\ Forall (fun n => has_id noteId n = false) items'
        /\ S (length items') = length items).
Proof.
  intros Hrun Hitems Hunique Hbackups.
  unfold startNoteDeletionWorkflow, try_catch in Hrun.
  erewrite bind_ok in Hrun by apply beginWorkflow_run.
  (* Step 1 *)
  unfold bind at 1 in Hrun.
  match type of Hrun with context [loadNoteForEditing noteId ?s1] =>
    destruct (loadNoteForEditing noteId s1) as [[n|e] s2] eqn:Hload
  end; [|not_ok E Hrun].
  apply loadNoteForEditing_ok in Hload. destruct Hload as (-> & items0 & Hitems0 & Hfind).
  assert (items0 = items) as ->.
  { unfold notes_are in *. change (stored "notes" "[]" _) with (stored "notes" "[]" s) in Hitems0.
    congruence. }
  clear Hitems0.
  erewrite bind_ok in Hrun by (apply pushStep_run; reflexivity).
  (* Step 2 *)
  unfold bind at 1 in Hrun.
  match type of Hrun with context [validateDeletionPermissions n ?s1] =>
    pose proof (validateDeletionPermissions_state n s1) as Hs;
    destruct (validateDeletionPermissions n s1) as [[perm|e] s2]
  end; cbn [snd] in Hs; subst s2; [|not_ok E Hrun].
  erewrite bind_ok in Hrun by (apply pushStep_run; reflexivity).
  destruct (canDelete perm); cbn [negb] in Hrun.
  2:{ match type of Hrun with context [bind (lift ?x) ?k ?s1] =>
        destruct (lift_then_throw (B := DeletionResult) x
                    (fun reason => "Cannot delete note: " +:+ reason) s1) as [e He]
      end.
      rewrite He in Hrun. not_ok E Hrun. }
  (* Step 3 *)
  match type of Hrun with context [bind (confirmNoteDeletion E n) _ ?s1] =>
    destruct (confirmNoteDeletion_cases E n s1) as [[e He]|[d Hd]]
  end.
  { erewrite bind_throw in Hrun by exact He. not_ok E Hrun. }
  erewrite bind_ok in Hrun by exact Hd.
  erewrite bind_ok in Hrun by (apply pushStep_run; reflexivity).
  destruct (answers E _); cbn [negb] in Hrun.
  2:{ erewrite bind_ok in Hrun by (apply completeWorkflow_run; reflexivity).
      unfold ret in Hrun. discriminate Hrun. }
  (* Step 4 *)
  unfold bind at 1 in Hrun.
  match type of Hrun with context [createDeletionBackup E n ?s1] =>
    destruct (createDeletionBackup E n s1) as [[bid|e] s4] eqn:Hbackup
  end; [|not_ok E Hrun].
  apply createDeletionBackup_ok in Hbackup.
  destruct Hbackup as (bs & bs' & timestamp & Hbs & Hassign & ->).
  unfold backups_are in Hbackups.
  change (stored "note_backups" "{}" _) with (stored "note_backups" "{}" s) in Hbs.
  rewrite Hbackups in Hbs. injection Hbs as <-. cbn [assign_backup] in Hassign.
  injection Hassign as <-.
  erewrite bind_ok in Hrun by (apply pushStep_run; reflexivity).
  (* Step 5 *)
  unfold bind at 1 in Hrun.
  match type of Hrun with context [performNoteDeletion noteId ?s1] =>
    destruct (performNoteDeletion noteId s1) as [[deleted|e] s5] eqn:Hdelete
  end; [|not_ok E Hrun].
  apply performNoteDeletion_ok in Hdelete.
  destruct Hdelete as (items1 & i & Hitems1 & Hindex & ->).
  assert (items1 = items) as ->.
  { unfold notes_are in *.
    erewrite (stored_insert_ne "notes" "note_backups" "[]" _ s) in Hitems1;
      [congruence|discriminate|reflexivity]. }
  clear Hitems1.
  erewrite bind_ok in Hrun by (apply pushStep_run; reflexivity).
  (* Step 6 *)
  unfold bind at 1 in Hrun.
  match type of Hrun with context [handlePostDeletionActions n ?s1] =>
    destruct (handlePostDeletionActions n s1) as [[[]|e] s6] eqn:Hpost
  end; [|not_ok E Hrun].
  apply handlePostDeletionActions_store in Hpost.
  unfold bind at 1 in Hrun.
  destruct (completeWorkflow_frame E "success" None s6) as (s7 & Hc & Hl & _).
  rewrite Hc in Hrun. erewrite bind_ok in Hrun by reflexivity.
  unfold ret in Hrun. injection Hrun as <- <- <- <-.
  cbn [localStorage set_localStorage set_currentWorkflow] in Hpost.
  rewrite <- Hl in Hpost. clear Hl Hc.
  (* what the run leaves *)
  destruct (find_by_id_spec _ _ _ Hfind) as (i' & Hindex' & Hnth & Hhas).
  rewrite Hindex in Hindex'. injection Hindex' as <-.
  assert (exists members, n = JObj members) as [members ->].
  { unfold has_id in Hhas. destruct n; cbn in Hhas; try discriminate. eexists. reflexivity. }
  split; [split; [eapply List.nth_error_In; exact Hnth|exact Hhas]|].
  split.
  - eexists _, timestamp. split.
    + unfold backups_are.
      erewrite (stored_insert_ne "note_backups" "notes" "{}" _
                  (set_localStorage
                     (<["note_backups" := stringify
                          (JObj (Js.set bid (backupRecord (JObj members) timestamp "deletion_backup")
                                   backups))]> (localStorage s)) s));
        [|discriminate|exact Hpost].
      erewrite stored_insert_eq; [apply parse_stringify|apply stringify_nonempty|reflexivity].
    + rewrite lookup_set_eq. reflexivity.
  - destruct (remove_at_unique noteId items i (JObj members) Hunique Hnth Hhas) as [HF Hlen].
    exists (remove_at i items). split; [|split; assumption].
    unfold notes_are.
    erewrite stored_insert_eq; [apply parse_stringify|apply stringify_nonempty|exact Hpost].
Qed.
End DeletionFacts.

(** ** js/businessLogic.js: validating a note *)

Module ValidationFacts.
Import JsString Json Js App BusinessLogic Spec ValidationSpec MonadFacts ImportFacts.
#[local] Open Scope Z_scope.

Lemma check_tags_warnings (E : Env) (tags : list json) :
  forall v v',
    check_tags E tags v = Ok v' ->
    exists ws,
      long_tag_warnings E tags = Ok ws
      /\ v' = {| isValid := isValid v; errors := errors v; warnings := warnings v ++ ws;
                 businessRuleViolations := businessRuleViolations v |}.
Proof.
  induction tags as [|tag rest IH]; intros v v' H; cbn [check_tags] in H.
  - injection H as <-. exists (@nil string). split; [reflexivity|].
    rewrite List.app_nil_r. destruct v; reflexivity.
  - cbn [long_tag_warnings]. change (tags_maxLength noteRules) with 30 in H.
    destruct (longer_than E (Some tag) 30) as [long|e]; [|discriminate]. cbn [rbind] in *.
    destruct long.
    + destruct (to_string tag) as [text|e]; [|discriminate]. cbn [rbind] in *.
      destruct (IH _ _ H) as (ws & -> & ->). exists (tag_too_long text :: ws).
      split; [reflexivity|]. cbn. rewrite <- List.app_assoc. reflexivity.
    + cbn [rbind] in *. destruct (IH _ _ H) as (ws & -> & ->). exists ws.
      split; reflexivity.
Qed.

Lemma getTodayNoteCount_ok (E : Env) (s s' : State) (n : Z) :
  getTodayNoteCount E s = (Ok n, s') ->
  s' = advance 1 0 s
  /\ exists items, notes_are s items /\ count_today E (today E s) items = Ok n.
Proof.
  unfold getTodayNoteCount. intros H.
  erewrite bind_ok in H by apply getItem_or_stored.
  unfold bind at 1, lift, JSON_parse in H. unfold notes_are.
  destruct (parse (stored "notes" "[]" s)) as [notes|]; [|discriminate].
  erewrite bind_ok in H by reflexivity. cbv zeta in H.
  destruct notes; try discriminate. unfold lift in H. injection H as H <-.
  split; [reflexivity|]. exists items. split; [reflexivity|exact H].
Qed.

(** The first step of a run that returns has returned. *)
Ltac step H a Ha :=
  match type of H with
  | bind ?m ?k ?s = _ =>
      let s1 := fresh "s" in
      destruct (m s) as [[a|?] s1] eqn:Ha;
      [rewrite (bind_ok m k s s1 a Ha) in H
      |rewrite (bind_throw m k s s1 _ Ha) in H; discriminate H]
  end.

(** A pure step leaves the state as it is. *)
Ltac pure_step H a Ha :=
  step H a Ha; unfold lift in Ha; injection Ha as Ha <-.

Lemma category_step (E : Env) (category : value) (v0 v1 : Validation) (s s1 : State) :
  (if true && truthy category
   then let* validCategory := lift (find_active_category category (categories E))
        in if negb (truthy validCategory)
           then ret (fail_error "Invalid category selected" v0)
           else ret v0
   else ret v0) s = (Ok v1, s1) ->
  s1 = s
  /\ exists ci, category_invalid E category = Ok ci
                /\ v1 = if ci then fail_error "Invalid category selected" v0 else v0.
Proof.
  unfold category_invalid. cbn [andb]. destruct (truthy category).
  - unfold bind, lift.
    destruct (find_active_category category (categories E)) as [found|e]; [|discriminate].
    cbn [rbind].
    destruct (negb (truthy found)); intros [= <- <-]; (split; [reflexivity|]);
      eexists; (split; [reflexivity|reflexivity]).
  - intros [= <- <-]. split; [reflexivity|]. exists false. split; reflexivity.
Qed.

Lemma tags_step (E : Env) (tags : value) (v0 v1 : Validation) (s s1 : State) :
  match tags with
  | Some (JArr items) =>
      let validation :=
        if Z.of_nat (length items) >? 10
        then warn ("Too many tags (max " +:+ of_Z 10 +:+ ")") v0
        else v0 in
      lift (check_tags E items validation)
  | _ => ret v0
  end s = (Ok v1, s1) ->
  s1 = s
  /\ exists ws, tag_warnings E tags = Ok ws
                /\ v1 = {| isValid := isValid v0; errors := errors v0;
                           warnings := warnings v0 ++ ws;
                           businessRuleViolations := businessRuleViolations v0 |}.
Proof.
  unfold tag_warnings.
  destruct tags as [[| | | |items|]|];
    try (intros [= <- <-]; split; [reflexivity|]; exists (@nil string);
         split; [reflexivity|]; rewrite List.app_nil_r; destruct v0; reflexivity).
  cbv zeta. unfold lift. intros [= H <-]. split; [reflexivity|].
  destruct (check_tags_warnings _ _ _ _ H) as (ws & -> & ->). eexists. split; [reflexivity|].
  destruct (Z.of_nat (length items) >? 10); cbn;
    rewrite ?List.app_nil_r, <- ?List.app_assoc; reflexivity.
Qed.

(** What a run of [validateNoteData] that returns has computed. *)
Lemma validateNoteData_inv (E : Env) (noteData : json) (s s' : State) (v : Validation) :
  validateNoteData E noteData s = (Ok v, s') ->
  exists title content category tags priority t_miss t_long c_miss c_long ci ws n,
    get "title" noteData = Ok title
    /\ get "content" noteData = Ok content
    /\ get "category" noteData = Ok category
    /\ get "tags" noteData = Ok tags
    /\ get "priority" noteData = Ok priority
    /\ blank title = Ok t_miss
    /\ longer_than E title 200 = Ok t_long
    /\ blank content = Ok c_miss
    /\ longer_than E content 50000 = Ok c_long
    /\ category_invalid E category = Ok ci
    /\ tag_warnings E tags = Ok ws
    /\ getTodayNoteCount E s = (Ok n, s')
    /\ v = assemble t_miss t_long c_miss c_long (negb (truthy category)) ci ws (priority_invalid priority)
             (n >=? 100) c_miss.
Proof.
  unfold validateNoteData. intros H. cbv zeta in H.
  change (required (title_rule noteRules)) with true in H.
  change (required (content_rule noteRules)) with true in H.
  change (maxLength (title_rule noteRules)) with 200 in H.
  change (maxLength (content_rule noteRules)) with 50000 in H.
  change (category_required noteRules) with true in H.
  change (category_validCategories noteRules) with true in H.
  change (tags_maxCount noteRules) with 10 in H.
  change (priority_enum noteRules) with ["low"; "medium"; "high"]%string in H.
  cbv iota in H.
  pure_step H title Htitle. pure_step H t_miss Htm. pure_step H t_long Htl.
  pure_step H content Hcontent. pure_step H c_miss Hcm. pure_step H c_long Hcl.
  pure_step H category Hcategory.
  step H v1 Hv1. apply category_step in Hv1. destruct Hv1 as (-> & ci & Hci & ->).
  pure_step H tags Htags.
  step H v2 Hv2. apply tags_step in Hv2. destruct Hv2 as (-> & ws & Hws & ->).
  pure_step H priority Hpriority.
  fold (priority_invalid priority) in H.
  (* the business rules *)
  unfold validateBusinessRules in H.
  change (maxDailyNotes creationRules) with 100 in H.
  change (allowEmptyContent creationRules) with false in H. cbn [Z.eqb negb] in H.
  step H v3 Hv3. step Hv3 n Hn.
  step H em Hem. pure_step Hem content' Hcontent'. unfold lift in Hem.
  rewrite Hcontent in Hcontent'. injection Hcontent' as <-.
  rewrite Hcm in Hem. injection Hem as <- <-.
  exists title, content, category, tags, priority, t_miss, t_long, c_miss, c_long, ci, ws, n.
  repeat (split; [reflexivity || assumption|]).
  destruct (n >=? 100); injection Hv3 as <- <-;
    destruct c_miss; injection H as <- <-;
    (split; [first [exact Hn | reflexivity]|]);
    destruct t_miss, t_long, c_long, (truthy category), ci, (priority_invalid priority);
    reflexivity.
Qed.


(** *** Well-formed input is validated without a throw *)

Lemma blank_text (v : value) : text_or_missing v -> exists b, blank v = Ok b.
Proof.
  intros [->|[t ->]]; unfold blank; cbn; [eexists; reflexivity|].
  destruct (negb (String.eqb t "")); cbn; eexists; reflexivity.
Qed.

Lemma longer_than_text (E : Env) (t : string) (n : Z) :
  0 <= n -> longer_than E (Some (JStr t)) n = Ok (len t >? n).
Proof.
  intros Hn. unfold longer_than. cbn. destruct (String.eqb t "") eqn:Ht; cbn; [|reflexivity].
  apply String.eqb_eq in Ht. subst t. f_equal. change (len "") with 0.
  rewrite Z.gtb_ltb. symmetry. apply Z.ltb_ge. exact Hn.
Qed.

Lemma longer_than_missing (E : Env) (v : value) (n : Z) :
  0 <= n -> text_or_missing v -> exists b, longer_than E v n = Ok b.
Proof.
  intros Hn [->|[t ->]]; [eexists; reflexivity|].
  rewrite longer_than_text by exact Hn. eexists; reflexivity.
Qed.

Lemma find_active_category_returns (category : value) (cs : list json) :
  Forall (fun c => c <> JNull) cs -> exists found, find_active_category category cs = Ok found.
Proof.
  induction 1 as [|c cs Hc _ [found IH]]; [eexists; reflexivity|]. cbn.
  assert (exists id, get "id" c = Ok id) as [id ->]
      by (destruct c; try congruence; eexists; reflexivity).
  cbn [rbind]. destruct (strict_eq id category).
  - assert (exists a, get "isActive" c = Ok a) as [a ->]
      by (destruct c; try congruence; eexists; reflexivity).
    cbn [rbind]. destruct (truthy a); [eexists; reflexivity|]. rewrite IH. eexists; reflexivity.
  - cbn [rbind]. rewrite IH. eexists; reflexivity.
Qed.

Lemma check_tags_returns (E : Env) (tags : list json) :
  Forall (fun x => exists t, x = JStr t) tags ->
  forall v, exists v', check_tags E tags v = Ok v'.
Proof.
  induction 1 as [|tag rest [t ->] _ IH]; intros v; [eexists; reflexivity|].
  cbn [check_tags]. change (tags_maxLength noteRules) with 30.
  rewrite longer_than_text by lia. cbn [rbind to_string]. destruct (len t >? 30); cbn [rbind];
    apply IH.
Qed.

Lemma count_today_returns (E : Env) (day : string) (items : list json) :
  Forall (fun n => exists members,
              n = JObj members /\ text_or_missing (lookup "createdAt" members)) items ->
  exists n, count_today E day items = Ok n.
Proof.
  induction 1 as [|x rest (members & -> & Hc) _ [n IH]]; [eexists; reflexivity|].
  cbn [count_today get rbind]. unfold dateString.
  destruct Hc as [->|[t ->]]; cbn [time_value coerced_text rbind]; rewrite IH; cbn [rbind];
    eexists; reflexivity.
Qed.

Lemma getTodayNoteCount_returns (E : Env) (s : State) :
  plain_store s -> exists n, getTodayNoteCount E s = (Ok n, advance 1 0 s).
Proof.
  intros (items & Hitems & Hplain). unfold getTodayNoteCount.
  erewrite bind_ok by apply getItem_or_stored.
  erewrite bind_ok by (unfold lift, JSON_parse; rewrite Hitems; reflexivity).
  erewrite bind_ok by reflexivity. cbv zeta. unfold lift.
  destruct (count_today_returns E (toDateString (host E) (clock E (clock_reads s))) items Hplain)
    as [n ->].
  eexists; reflexivity.
Qed.

Lemma category_returns (E : Env) (category : value) (v0 : Validation) (s : State) :
  plain_categories E ->
  exists v1,
    (if true && truthy category
     then let* validCategory := lift (find_active_category category (categories E))
          in if negb (truthy validCategory)
             then ret (fail_error "Invalid category selected" v0)
             else ret v0
     else ret v0) s = (Ok v1, s).
Proof.
  intros Hcats. cbn [andb]. destruct (truthy category); [|eexists; reflexivity].
  destruct (find_active_category_returns category _ Hcats) as [found Hfound].
  erewrite bind_ok by (unfold lift; rewrite Hfound; reflexivity).
  destruct (negb (truthy found)); eexists; reflexivity.
Qed.

Lemma tags_returns (E : Env) (tags : value) (v0 : Validation) (s : State) :
  (tags = None
   \/ exists items, tags = Some (JArr items) /\ Forall (fun x => exists t, x = JStr t) items) ->
  exists v1,
    match tags with
    | Some (JArr items) =>
        let validation :=
          if Z.of_nat (length items) >? 10
          then warn ("Too many tags (max " +:+ of_Z 10 +:+ ")") v0
          else v0 in
        lift (check_tags E items validation)
    | _ => ret v0
    end s = (Ok v1, s).
Proof.
  intros [->|(items & -> & Hitems)]; [eexists; reflexivity|]. cbv zeta.
  match goal with |- exists _, lift (check_tags E items ?v) _ = _ =>
    destruct (check_tags_returns E items Hitems v) as [v' Hv']
  end.
  exists v'. unfold lift. rewrite Hv'. reflexivity.
Qed.

(** A plain note is validated without a throw, over plain categories
    and a plain store. *)
Lemma validateNoteData_returns (E : Env) (members : list (string * json)) (s : State) :
  plain_note members -> plain_categories E -> plain_store s ->
  exists v, validateNoteData E (JObj members) s = (Ok v, advance 1 0 s).
Proof.
  intros (Htitle & Hcontent & Htags) Hcats Hstore.
  unfold validateNoteData. cbv zeta.
  change (required (title_rule noteRules)) with true.
  change (required (content_rule noteRules)) with true.
  change (maxLength (title_rule noteRules)) with 200.
  change (maxLength (content_rule noteRules)) with 50000.
  change (category_required noteRules) with true.
  change (category_validCategories noteRules) with true.
  change (tags_maxCount noteRules) with 10.
  cbv iota.
  destruct (blank_text _ Htitle) as [tm Htm].
  destruct (longer_than_missing E _ 200 ltac:(lia) Htitle) as [tl Htl].
  destruct (blank_text _ Hcontent) as [cm Hcm].
  destruct (longer_than_missing E _ 50000 ltac:(lia) Hcontent) as [cl Hcl].
  erewrite bind_ok by reflexivity.
  erewrite bind_ok by (unfold lift; rewrite Htm; reflexivity).
  erewrite bind_ok by (unfold lift; rewrite Htl; reflexivity).
  erewrite bind_ok by reflexivity.
  erewrite bind_ok by (unfold lift; rewrite Hcm; reflexivity).
  erewrite bind_ok by (unfold lift; rewrite Hcl; reflexivity).
  erewrite bind_ok by reflexivity.
  match goal with |- exists _, bind ?m _ _ = _ =>
    match m with context [fail_error "Invalid category selected" ?v0] =>
      destruct (category_returns E (lookup "category" members) v0 s Hcats) as [v1 Hv1]
    end
  end.
  erewrite bind_ok by exact Hv1.
  erewrite bind_ok by reflexivity.
  destruct (tags_returns E (lookup "tags" members) v1 s Htags) as [v2 Hv2].
  erewrite bind_ok by exact Hv2.
  erewrite bind_ok by reflexivity.
  unfold validateBusinessRules.
  change (maxDailyNotes creationRules) with 100.
  change (allowEmptyContent creationRules) with false. cbn [Z.eqb negb].
  destruct (getTodayNoteCount_returns E s Hstore) as [n Hn].
  match goal with |- exists _, bind ?m _ _ = _ =>
    assert (exists v3, m s = (Ok v3, advance 1 0 s)) as [v3 Hv3]
      by (erewrite bind_ok by exact Hn; destruct (n >=? 100); eexists; reflexivity)
  end.
  erewrite bind_ok by exact Hv3.
  erewrite bind_ok.
  2:{ erewrite bind_ok by reflexivity. unfold lift. rewrite Hcm. reflexivity. }
  destruct cm; eexists; reflexivity.
Qed.

(** *** The limits *)

Lemma title_long_error (tm tl cm cl cr ci : bool) (ws : list string) (pi lim em : bool) :
  In title_too_long (errors (assemble tm tl cm cl cr ci ws pi lim em)) <-> tl = true.
Proof.
  unfold assemble. cbn [errors]. rewrite !List.in_app_iff. split.
  - intros H. destruct tl; [reflexivity|]. exfalso.
    destruct tm, cm, cl, cr, ci, pi; cbv in H; intuition discriminate.
  - intros ->. right. left. left. reflexivity.
Qed.

Lemma content_long_error (tm tl cm cl cr ci : bool) (ws : list string) (pi lim em : bool) :
  In content_too_long (errors (assemble tm tl cm cl cr ci ws pi lim em)) <-> cl = true.
Proof.
  unfold assemble. cbn [errors]. rewrite !List.in_app_iff. split.
  - intros H. destruct cl; [reflexivity|]. exfalso.
    destruct tm, tl, cm, cr, ci, pi; cbv in H; intuition discriminate.
  - intros ->. right. right. right. left. left. reflexivity.
Qed.

Lemma daily_limit_violation (tm tl cm cl cr ci : bool) (ws : list string) (pi lim em : bool) :
  In daily_limit_reached (businessRuleViolations (assemble tm tl cm cl cr ci ws pi lim em))
  <-> lim = true.
Proof.
  unfold assemble. cbn [businessRuleViolations]. rewrite !List.in_app_iff. split.
  - intros H. destruct lim; [reflexivity|]. exfalso.
    destruct em; cbv in H; intuition discriminate.
  - intros ->. left. left. reflexivity.
Qed.

Lemma long_tag_warned (E : Env) (items : list json) (ws : list string) (t : string) :
  long_tag_warnings E items = Ok ws ->
  In (JStr t) items -> 30 < len t -> In (tag_too_long t) ws.
Proof.
  revert ws. induction items as [|tag rest IH]; intros ws Hws Hin Hlen; [contradiction|].
  cbn [long_tag_warnings] in Hws.
  destruct (longer_than E (Some tag) 30) as [long|e] eqn:Hlong; [|discriminate].
  cbn [rbind] in Hws.
  destruct (if long then _ else _) as [w|e] eqn:Hw; [|discriminate]. cbn [rbind] in Hws.
  destruct (long_tag_warnings E rest) as [ws0|e]; [|discriminate]. cbn [rbind] in Hws.
  injection Hws as <-. apply List.in_or_app. destruct Hin as [->|Hin].
  - left. rewrite longer_than_text in Hlong by lia. injection Hlong as <-.
    replace (len t >? 30) with true in Hw by (symmetry; apply Z.gtb_lt; lia).
    cbn in Hw. injection Hw as <-. left. reflexivity.
  - right. apply (IH ws0 eq_refl Hin Hlen).
Qed.

Lemma count_today_created_on (E : Env) (day : string) (items : list json) (n : Z) :
  count_today E day items = Ok n -> n = created_on E day items.
Proof.
  unfold created_on. revert n. induction items as [|note rest IH]; intros n H; cbn in H.
  - injection H as <-. reflexivity.
  - cbn [List.filter]. unfold on_day at 1.
    destruct (get "createdAt" note) as [createdAt|e]; [|discriminate]. cbn [rbind] in H.
    destruct (dateString E createdAt) as [noteDate|e]; [|discriminate]. cbn [rbind] in H.
    destruct (count_today E day rest) as [m|e]; [|discriminate]. cbn [rbind] in H.
    injection H as <-. rewrite (IH m eq_refl).
    destruct (String.eqb noteDate day); cbn [length]; lia.
Qed.

(** C2. A title of 200 characters or fewer passes the length check of
    [validateNoteData], so one of exactly 200 does, and a longer one, so
    one of 201, adds the length error and makes the note invalid; the
    same for a content of 50,000 characters and of 50,001. More than 10
    tags and a tag longer than 30 characters add warnings, and the tags
    never decide the validity: with any other tags the errors, the
    business rule violations and [isValid] are the same. A note with
    plain fields is validated without a throw. *)
Theorem validateNoteData_length_limits (E : Env) (members : list (string * json))
    (s : State) :
  (plain_note members -> plain_categories E -> plain_store s ->
   exists v s', validateNoteData E (JObj members) s = (Ok v, s'))
  /\ forall v s',
       validateNoteData E (JObj members) s = (Ok v, s') ->
       (forall t, lookup "title" members = Some (JStr t) ->
          (len t <= 200 -> ~ In title_too_long (errors v))
          /\ (200 < len t -> In title_too_long (errors v) /\ isValid v = false))
       /\ (forall c, lookup "content" members = Some (JStr c) ->
             (len c <= 50000 -> ~ In content_too_long (errors v))
             /\ (50000 < len c -> In content_too_long (errors v) /\ isValid v = false))
       /\ (forall items, lookup "tags" members = Some (JArr items) ->
             (10 < Z.of_nat (length items) -> In too_many_tags (warnings v))
             /\ (forall t, In (JStr t) items -> 30 < len t ->
                   In (tag_too_long t) (warnings v)))
       /\ (forall tags' v' s'',
             validateNoteData E (JObj (Js.set "tags" tags' members)) s = (Ok v', s'') ->
             isValid v' = isValid v /\ errors v' = errors v
             /\ businessRuleViolations v' = businessRuleViolations v).
Proof.
  split.
  { intros Hnote Hcats Hstore.
    destruct (validateNoteData_returns E members s Hnote Hcats Hstore) as [v Hv].
    exists v, (advance 1 0 s). exact Hv. }
  intros v s' Hrun.
  destruct (validateNoteData_inv _ _ _ _ _ Hrun)
    as (title & content & category & tags & priority & tm & tl & cm & cl & ci & ws & n
        & Htitle & Hcontent & Hcategory & Htags & Hpriority & Htm & Htl & Hcm & Hcl & Hci
        & Hws & Hn & ->).
  cbn [get] in Htitle, Hcontent, Hcategory, Htags, Hpriority.
  injection Htitle as <-. injection Hcontent as <-. injection Hcategory as <-.
  injection Htags as <-. injection Hpriority as <-.
  split; [|split; [|split]].
  - intros t Ht. rewrite Ht, longer_than_text in Htl by lia. injection Htl as <-.
    rewrite title_long_error. split.
    + intros Hle Hgt. apply Z.gtb_lt in Hgt. lia.
    + intros Hlt. assert (Hgt : (len t >? 200) = true) by (apply Z.gtb_lt; lia).
      split; [exact Hgt|]. unfold assemble. cbn [isValid]. rewrite Hgt.
      destruct tm; reflexivity.
  - intros c Hc. rewrite Hc, longer_than_text in Hcl by lia. injection Hcl as <-.
    rewrite content_long_error. split.
    + intros Hle Hgt. apply Z.gtb_lt in Hgt. lia.
    + intros Hlt. assert (Hgt : (len c >? 50000) = true) by (apply Z.gtb_lt; lia).
      split; [exact Hgt|]. unfold assemble. cbn [isValid]. rewrite Hgt.
      destruct tm, tl, cm; reflexivity.
  - intros items Hitems. rewrite Hitems in Hws. cbn [tag_warnings] in Hws.
    destruct (long_tag_warnings E items) as [ws0|e] eqn:Hws0; [|discriminate].
    cbn [rbind] in Hws. injection Hws as <-. cbn [assemble warnings]. split.
    + intros Hmany. replace (Z.of_nat (length items) >? 10) with true
        by (symmetry; apply Z.gtb_lt; lia).
      left. reflexivity.
    + intros t Hin Hlen. apply List.in_or_app. right.
      exact (long_tag_warned E items ws0 t Hws0 Hin Hlen).
  - intros tags' v' s'' Hrun'.
    destruct (validateNoteData_inv _ _ _ _ _ Hrun')
      as (title' & content' & category' & tags0 & priority' & tm' & tl' & cm' & cl' & ci'
          & ws' & n' & Htitle' & Hcontent' & Hcategory' & Htags' & Hpriority' & Htm' & Htl'
          & Hcm' & Hcl' & Hci' & Hws' & Hn' & ->).
    cbn [get] in Htitle', Hcontent', Hcategory', Hpriority'.
    rewrite JsFacts.lookup_set_ne in Htitle', Hcontent', Hcategory', Hpriority' by discriminate.
    injection Htitle' as <-. injection Hcontent' as <-. injection Hcategory' as <-.
    injection Hpriority' as <-.
    assert (tm' = tm) as -> by congruence. assert (tl' = tl) as -> by congruence.
    assert (cm' = cm) as -> by congruence. assert (cl' = cl) as -> by congruence.
    assert (ci' = ci) as -> by congruence. assert (n' = n) as -> by congruence.
    repeat split.
Qed.

(** C3. With the configured [maxDailyNotes] of 100: when the persisted
    collection holds 100 notes or more created on the current calendar
    day, [validateNoteData] adds the daily limit entry to the business
    rule violations and makes the note invalid; when it holds fewer (on
    the next day, say, it holds none of that day) no daily limit entry
    is added. A note with plain fields is validated without a throw. *)
Theorem validateNoteData_daily_quota (E : Env) (members : list (string * json))
    (s : State) (items : list json) :
  notes_are s items ->
  maxDailyNotes creationRules = 100
  /\ (plain_note members -> plain_categories E -> plain_store s ->
      exists v s', validateNoteData E (JObj members) s = (Ok v, s'))
  /\ forall v s',
       validateNoteData E (JObj members) s = (Ok v, s') ->
       (100 <= created_on E (today E s) items ->
        In daily_limit_reached (businessRuleViolations v) /\ isValid v = false)
       /\ (created_on E (today E s) items < 100 ->
           ~ In daily_limit_reached (businessRuleViolations v)).
Proof.
  intros Hitems. split; [reflexivity|]. split.
  { intros Hnote Hcats Hstore.
    destruct (validateNoteData_returns E members s Hnote Hcats Hstore) as [v Hv].
    exists v, (advance 1 0 s). exact Hv. }
  intros v s' Hrun.
  destruct (validateNoteData_inv _ _ _ _ _ Hrun)
    as (title & content & category & tags & priority & tm & tl & cm & cl & ci & ws & n
        & _ & _ & _ & _ & _ & _ & _ & _ & _ & _ & _ & Hn & ->).
  apply getTodayNoteCount_ok in Hn. destruct Hn as (_ & items' & Hitems' & Hcount).
  assert (items' = items) as -> by (unfold notes_are in *; congruence).
  apply count_today_created_on in Hcount. rewrite <- Hcount.
  rewrite daily_limit_violation. split.
  - intros Hge. assert (Hlim : (n >=? 100) = true) by (apply Z.geb_le; lia).
    split; [exact Hlim|]. unfold assemble. cbn [isValid]. rewrite Hlim.
    destruct tm, tl, cm, cl, (negb (truthy category)), ci, (priority_invalid priority);
      reflexivity.
  - intros Hlt Hlim. apply Z.geb_le in Hlim. lia.
Qed.
End ValidationFacts.

Module CollectionFacts.
Import JsString Json Js App BusinessLogic Spec CollectionSpec.
Import JsonFacts JsFacts MonadFacts ImportFacts DeletionFacts.

Lemma notes_are_frame (s s' : State) (items : list json) :
  localStorage s' = localStorage s -> notes_are s items -> notes_are s' items.
Proof. unfold notes_are, stored. intros ->. trivial. Qed.

Lemma lacks_id_get (noteId n : json) :
  lacks_id noteId n -> exists id, get "id" n = Ok id /\ strict_eq id (Some noteId) = false.
Proof.
  intros [Hn Hid]. unfold has_id in Hid.
  destruct (get "id" n) as [id|e] eqn:Hget.
  - exists id. split; [reflexivity|exact Hid].
  - destruct n; try discriminate. contradiction.
Qed.

Lemma has_id_get (noteId n : json) :
  has_id noteId n = true -> exists id, get "id" n = Ok id /\ strict_eq id (Some noteId) = true.
Proof.
  unfold has_id. destruct (get "id" n) as [id|e]; [|discriminate].
  intros H. exists id. split; [reflexivity|exact H].
Qed.

Lemma has_id_object (noteId n : json) :
  has_id noteId n = true -> exists members, n = JObj members.
Proof.
  unfold has_id. destruct n; cbn; try discriminate. intros _. eexists. reflexivity.
Qed.

Lemma find_by_id_none (noteId : json) (items : list json) :
  Forall (lacks_id noteId) items -> find_by_id noteId items = Ok None.
Proof.
  induction 1 as [|n rest Hn _ IH]; [reflexivity|]. cbn.
  destruct (lacks_id_get _ _ Hn) as (id & -> & Hid). cbn. rewrite Hid. exact IH.
Qed.

Lemma findIndex_by_id_none (noteId : json) (items : list json) :
  Forall (lacks_id noteId) items -> findIndex_by_id noteId items = Ok None.
Proof.
  induction 1 as [|n rest Hn _ IH]; [reflexivity|]. cbn.
  destruct (lacks_id_get _ _ Hn) as (id & -> & Hid). cbn. rewrite Hid, IH. reflexivity.
Qed.

Lemma find_by_id_first (noteId : json) (items before : list json) (note : json)
    (after : list json) :
  first_with_id noteId items before note after ->
  find_by_id noteId items = Ok (Some note).
Proof.
  intros (-> & Hbefore & Hnote). induction Hbefore as [|n rest Hn _ IH]; cbn.
  - destruct (has_id_get _ _ Hnote) as (id & -> & Hid). cbn. rewrite Hid. reflexivity.
  - destruct (lacks_id_get _ _ Hn) as (id & -> & Hid). cbn. rewrite Hid. exact IH.
Qed.

Lemma findIndex_by_id_first (noteId : json) (items before : list json) (note : json)
    (after : list json) :
  first_with_id noteId items before note after ->
  findIndex_by_id noteId items = Ok (Some (length before)).
Proof.
  intros (-> & Hbefore & Hnote). induction Hbefore as [|n rest Hn _ IH]; cbn.
  - destruct (has_id_get _ _ Hnote) as (id & -> & Hid). cbn. rewrite Hid. reflexivity.
  - destruct (lacks_id_get _ _ Hn) as (id & -> & Hid). cbn. rewrite Hid, IH. reflexivity.
Qed.

Lemma remove_at_middle (before : list json) (note : json) (after : list json) :
  remove_at (length before) (before ++ note :: after) = before ++ after.
Proof.
  induction before as [|x l IH]; [reflexivity|].
  cbn [length app]. rewrite remove_at_cons, IH. reflexivity.
Qed.

Lemma nth_error_middle (before : list json) (note : json) (after : list json) :
  nth_error (before ++ note :: after) (length before) = Some note.
Proof. induction before as [|x l IH]; [reflexivity|exact IH]. Qed.

Lemma loadNoteForEditing_missing (noteId : json) (items : list json) (s : State) :
  notes_are s items -> find_by_id noteId items = Ok None ->
  loadNoteForEditing noteId s = (Throw "Note not found", s).
Proof.
  unfold notes_are. intros Hitems Hfind. unfold loadNoteForEditing.
  erewrite bind_ok by apply getItem_or_stored.
  unfold bind at 1, lift, JSON_parse. rewrite Hitems.
  unfold bind, lift. rewrite Hfind. reflexivity.
Qed.

Lemma loadNoteForEditing_found (noteId note : json) (items : list json) (s : State) :
  notes_are s items -> find_by_id noteId items = Ok (Some note) ->
  has_id noteId note = true ->
  loadNoteForEditing noteId s = (Ok note, s).
Proof.
  unfold notes_are. intros Hitems Hfind Hid. unfold loadNoteForEditing.
  erewrite bind_ok by apply getItem_or_stored.
  unfold bind at 1, lift, JSON_parse. rewrite Hitems.
  unfold bind, lift. rewrite Hfind.
  destruct (has_id_object _ _ Hid) as [members ->]. reflexivity.
Qed.

(** X1. Deleting a note that the collection does not hold: over a
    persisted collection none of whose notes has the id,
    [startNoteDeletionWorkflow] throws [Note not found]; the store is as
    before, no dialog and no toast is shown, and the Workflow Record goes
    to the history with status [error], the message as its error and no
    step. *)
Theorem deletion_of_missing_note (E : Env) (noteId : json) (items : list json) (s : State) :
  notes_are s items ->
  Forall (lacks_id noteId) items ->
  exists s' w,
    startNoteDeletionWorkflow E noteId s = (Throw "Note not found", s')
    /\ localStorage s' = localStorage s
    /\ dialogs s' = dialogs s
    /\ toasts s' = toasts s
    /\ currentWorkflow s' = None
    /\ workflowHistory s' = keep_last_50 (workflowHistory s ++ [w])
    /\ wf_type w = "note_deletion"
    /\ wf_status w = Some "error"
    /\ wf_error w = Some "Note not found"
    /\ wf_steps w = [].
Proof.
  intros Hitems Hnone. apply find_by_id_none in Hnone.
  unfold startNoteDeletionWorkflow, try_catch.
  erewrite bind_ok by apply beginWorkflow_run.
  erewrite bind_throw.
  2:{ eapply loadNoteForEditing_missing; [|exact Hnone].
      eapply notes_are_frame; [|exact Hitems]. reflexivity. }
  erewrite bind_ok by (apply completeWorkflow_run; reflexivity).
  eexists _, _. split; [reflexivity|]. repeat split.
Qed.

(** X2. Deleting a protected note: when the first note with the id has
    a truthy [isProtected], [startNoteDeletionWorkflow] throws
    [Cannot delete note: Note is protected from deletion] without asking
    the user: no dialog is shown, the store is as before, and the
    Workflow Record goes to the history with status [error] after the
    two steps [load_note] and [validate_permissions]. *)
Theorem deletion_of_protected_note (E : Env) (noteId : json)
    (items before : list json) (note : json) (after : list json)
    (isProtected : value) (s : State) :
  notes_are s items ->
  first_with_id noteId items before note after ->
  get "isProtected" note = Ok isProtected ->
  truthy isProtected = true ->
  exists s' w,
    startNoteDeletionWorkflow E noteId s
    = (Throw "Cannot delete note: Note is protected from deletion", s')
    /\ localStorage s' = localStorage s
    /\ dialogs s' = dialogs s
    /\ currentWorkflow s' = None
    /\ workflowHistory s' = keep_last_50 (workflowHistory s ++ [w])
    /\ wf_status w = Some "error"
    /\ wf_error w = Some "Cannot delete note: Note is protected from deletion"
    /\ map fst (wf_steps w) = ["load_note"; "validate_permissions"].
Proof.
  intros Hitems Hfirst Hget Hprotected.
  pose proof (find_by_id_first _ _ _ _ _ Hfirst) as Hfind.
  destruct Hfirst as (_ & _ & Hid).
  unfold startNoteDeletionWorkflow, try_catch.
  erewrite bind_ok by apply beginWorkflow_run.
  erewrite bind_ok.
  2:{ eapply loadNoteForEditing_found; [|exact Hfind|exact Hid].
      eapply notes_are_frame; [|exact Hitems]. reflexivity. }
  erewrite bind_ok by (apply pushStep_run; reflexivity).
  erewrite bind_ok.
  2:{ unfold validateDeletionPermissions. erewrite bind_ok by (unfold lift; rewrite Hget; reflexivity).
      rewrite Hprotected. reflexivity. }
  erewrite bind_ok by (apply pushStep_run; reflexivity).
  cbn [canDelete negb permission_reason].
  erewrite bind_ok by reflexivity. unfold throw at 1. cbv beta iota.
  erewrite bind_ok by (apply completeWorkflow_run; reflexivity).
  eexists _, _. split; [reflexivity|]. repeat split.
Qed.

(** X3. [performNoteDeletion] removes the first note with the id and
    only that one: the persisted collection afterwards is the notes
    before it followed by the notes after it, in their order (a later
    note with the same id stays), the removed note is returned, and no
    other key of the store changes. *)
Theorem performNoteDeletion_removes_first (noteId : json)
    (items before : list json) (note : json) (after : list json) (s : State) :
  notes_are s items ->
  first_with_id noteId items before note after ->
  exists s',
    performNoteDeletion noteId s = (Ok (Some note), s')
    /\ notes_are s' (before ++ after)
    /\ same_but "notes" s s'.
Proof.
  intros Hitems Hfirst.
  pose proof (findIndex_by_id_first _ _ _ _ _ Hfirst) as Hindex.
  destruct Hfirst as (-> & _ & _).
  unfold performNoteDeletion.
  erewrite bind_ok by apply getItem_or_stored.
  unfold notes_are in Hitems.
  erewrite bind_ok by (unfold lift, JSON_parse; rewrite Hitems; reflexivity).
  cbv beta iota.
  erewrite bind_ok by (unfold lift; rewrite Hindex; reflexivity).
  cbv beta iota.
  erewrite bind_ok by reflexivity. unfold ret.
  rewrite remove_at_middle, nth_error_middle.
  eexists. split; [reflexivity|]. split.
  - unfold notes_are.
    erewrite stored_insert_eq; [apply parse_stringify|apply stringify_nonempty|reflexivity].
  - intros k Hk. cbn. apply lookup_insert_ne. congruence.
Qed.

End CollectionFacts.

Module WorkflowFacts.
Import JsString Json Js App BusinessLogic Spec.
Import JsonFacts JsFacts MonadFacts ImportFacts DeletionFacts.

Lemma keep_last_50_snoc (history : list Workflow) (w : Workflow) :
  keep_last_50 (history ++ [w]) = skipn (length history - 49) history ++ [w].
Proof.
  unfold keep_last_50. rewrite length_app. cbn [length].
  destruct (50 <? length history + 1)%nat eqn:H.
  - apply Nat.ltb_lt in H. rewrite skipn_app.
    replace (length history + 1 - 50)%nat with (length history - 49)%nat by lia.
    replace (length history - 49 - length history)%nat with O by lia. reflexivity.
  - apply Nat.ltb_ge in H. replace (length history - 49)%nat with O by lia. reflexivity.
Qed.

(** X4. [completeWorkflow] on a running workflow clears the current
    workflow and puts the finished record last in the history, which it
    cuts to its last 50 records: whatever its length was, the history
    afterwards holds at most 50 records. A second call, with no workflow
    running, changes nothing. *)
Theorem completeWorkflow_keeps_last_50 (E : Env) (status : string) (error : option string)
    (w : Workflow) (s : State) :
  currentWorkflow s = Some w ->
  exists s',
    completeWorkflow E status error s = (Ok tt, s')
    /\ currentWorkflow s' = None
    /\ workflowHistory s'
       = skipn (length (workflowHistory s) - 49) (workflowHistory s)
           ++ [finish (clock E (clock_reads s)) status error w]
    /\ (length (workflowHistory s') <= 50)%nat
    /\ forall status' error', completeWorkflow E status' error' s' = (Ok tt, s').
Proof.
  intros Hw. eexists. split; [apply completeWorkflow_run; exact Hw|].
  cbn [currentWorkflow workflowHistory set_workflowHistory set_currentWorkflow set_clock_reads].
  split; [reflexivity|]. rewrite keep_last_50_snoc. split; [reflexivity|]. split.
  - rewrite length_app, length_skipn. cbn [length]. lia.
  - intros status' error'. apply completeWorkflow_idle. reflexivity.
Qed.

End WorkflowFacts.

Module TextImportFacts.
Import JsString Json Js App BusinessLogic Spec TextImportSpec.
Import JsonFacts JsFacts MonadFacts ImportFacts DeletionFacts.

Lemma split_from_nonempty (sep : string) (s : string) :
  forall skip piece, split_from sep skip piece s <> [].
Proof.
  induction s as [|c r IH]; intros skip piece; cbn; [discriminate|].
  destruct skip as [|k]; [|apply IH].
  destruct (startsWith sep (String c r)); [discriminate|apply IH].
Qed.

Lemma advance_advance (a b c d : nat) (s : State) :
  advance a b (advance c d s) = advance (a + c) (b + d) s.
Proof.
  unfold advance, set_random_reads, set_clock_reads. destruct s. cbn. f_equal; lia.
Qed.

Lemma parseSections_run (E : Env) (sections : list string) :
  forall index s,
  exists notes,
    parseSections E index sections s
    = (Ok notes, advance (3 * length sections) (length sections) s)
    /\ length notes = length sections
    /\ (forall i section,
          nth_error sections i = Some section ->
          exists n,
            nth_error notes i = Some n
            /\ text_note E (clock_reads s + 3 * i) (random_reads s + i)
                 (index + Z.of_nat i) section n).
Proof.
  induction sections as [|section rest IH]; intros index s.
  - exists []. cbn. rewrite advance_0. repeat split. intros [|i] x Hx; discriminate Hx.
  - cbn [parseSections]. cbv zeta.
    destruct (split nl (trim section)) as [|first others] eqn:Hlines.
    { exfalso. exact (split_from_nonempty _ _ _ _ Hlines). }
    destruct (IH (index + 1)%Z (advance 3 1 s)) as (notes & Hrest & Hlen & Hall).
    eexists (_ :: notes).
    split; [|split].
    + erewrite bind_ok by reflexivity.
      change (parseSections E (index + 1) rest ?x) with (parseSections E (index + 1) rest x).
      erewrite bind_ok by exact Hrest. unfold ret. cbn [app]. f_equal.
      rewrite advance_advance. f_equal; cbn [length]; lia.
    + cbn [length]. congruence.
    + intros [|i] x Hx; cbn [nth_error] in Hx |- *.
      * injection Hx as <-. eexists. split; [reflexivity|].
        exists first, others. eexists. split; [exact Hlines|]. split; [reflexivity|].
        replace (index + Z.of_nat 0)%Z with index by lia.
        replace (clock_reads s + 3 * 0) with (clock_reads s) by lia.
        replace (random_reads s + 0) with (random_reads s) by lia.
        split; [|repeat split].
        destruct (String.eqb first "") eqn:Hfirst; [discriminate|].
        apply String.eqb_neq in Hfirst. exact Hfirst.
      * destruct (Hall i x Hx) as (n & Hn & Htext). exists n. split; [exact Hn|].
        replace (index + Z.of_nat (S i))%Z with (index + 1 + Z.of_nat i)%Z by lia.
        replace (clock_reads s + 3 * S i) with (clock_reads (advance 3 1 s) + 3 * i)
          by (cbn; lia).
        replace (random_reads s + S i) with (random_reads (advance 3 1 s) + i)
          by (cbn; lia).
        exact Htext.
Qed.

(** Parsing a text only reads the clock and the random generator. *)
Lemma parseTextToNotes_frame (E : Env) (content : string) (s : State) :
  exists notes dc dr, parseTextToNotes E content s = (Ok notes, advance dc dr s).
Proof.
  unfold parseTextToNotes.
  destruct (parseSections_run E (split (nl +:+ nl) content) 0%Z s) as (notes & Hrun & _).
  eexists _, _, _. exact Hrun.
Qed.

(** X5. [parseTextToNotes] never throws and makes exactly one note for
    every section, in their order, the sections being what lies between
    two blank lines: the guard on the number of lines never skips a
    section, so even the empty text gives one note. The note of a
    section has as title the first line of the trimmed section, or
    [Imported Note] with the number of the section when that line is
    empty, so a title that is never empty; as content the other lines,
    or the first when there is no other; the category [personal], the
    tags [imported], the priority [medium], no audio, and an id and two
    timestamps of its own: the clock is read three times and the random
    generator once for each note. *)
Theorem parseTextToNotes_one_per_section (E : Env) (content : string) (s : State) :
  exists notes,
    parseTextToNotes E content s
    = (Ok notes, advance (3 * length notes) (length notes) s)
    /\ length notes = length (split (nl +:+ nl) content)
    /\ (1 <= length notes)%nat
    /\ (forall i section,
          nth_error (split (nl +:+ nl) content) i = Some section ->
          exists n,
            nth_error notes i = Some n
            /\ text_note E (clock_reads s + 3 * i) (random_reads s + i) (Z.of_nat i)
                 section n).
Proof.
  unfold parseTextToNotes.
  destruct (parseSections_run E (split (nl +:+ nl) content) 0%Z s)
    as (notes & Hrun & Hlen & Hall).
  exists notes. rewrite Hlen. split; [exact Hrun|]. split; [reflexivity|]. split.
  - pose proof (split_from_nonempty (nl +:+ nl) content 0 []) as Hne.
    fold (split (nl +:+ nl) content) in Hne.
    destruct (split (nl +:+ nl) content); [contradiction|cbn; lia].
  - intros i section Hnth. destruct (Hall i section Hnth) as (n & Hn & Htext).
    exists n. split; [exact Hn|]. exact Htext.
Qed.

End TextImportFacts.

Module ImportWorkflowFacts.
Import JsString Json Js App BusinessLogic Spec ImportSpec.
Import JsonFacts JsFacts MonadFacts ImportFacts DeletionFacts TextImportFacts.
#[local] Open Scope Z_scope.

(** X6. [validateImportFile] accepts a file exactly when its size is at
    most 10 MB (10,485,760 bytes, so a file of exactly that size passes)
    and its MIME type is one of [application/json], [text/plain] and
    [text/csv]; the errors are empty exactly for an accepted file, a file
    that is too large gets [File too large (max 10MB)] and one of another
    type gets [Unsupported file type]. *)
Theorem validateImportFile_accepts (file : File) :
  (fv_isValid (validateImportFile file) = true
   <-> file_size file <= 10485760 /\ In (file_type file) allowed_types)
  /\ (fv_isValid (validateImportFile file) = true <-> fv_errors (validateImportFile file) = [])
  /\ (10485760 < file_size file
      <-> In "File too large (max 10MB)"%string (fv_errors (validateImportFile file)))
  /\ (~ In (file_type file) allowed_types
      <-> In "Unsupported file type"%string (fv_errors (validateImportFile file))).
Proof.
  unfold validateImportFile. cbv zeta.
  change (10 * 1024 * 1024) with 10485760.
  assert (Htype : existsb (String.eqb (file_type file)) allowed_types = true
                  <-> In (file_type file) allowed_types).
  { rewrite existsb_exists. split.
    - intros (x & Hin & Heq). apply String.eqb_eq in Heq. subst x. exact Hin.
    - intros Hin. exists (file_type file). split; [exact Hin|apply String.eqb_refl]. }
  fold allowed_types.
  destruct (existsb (String.eqb (file_type file)) allowed_types) eqn:Hallowed.
  - assert (Hin : In (file_type file) allowed_types) by (apply Htype; reflexivity).
    destruct (file_size file >? 10485760) eqn:Hsize.
    + apply Z.gtb_lt in Hsize. clear Htype Hallowed. cbn [fv_isValid fv_errors negb app In]. intuition (try discriminate; try lia; try reflexivity; auto).
    + rewrite Z.gtb_ltb in Hsize. apply Z.ltb_ge in Hsize.
      clear Htype Hallowed. cbn [fv_isValid fv_errors negb app In]. intuition (try discriminate; try lia; try reflexivity; auto).
  - assert (Hout : ~ In (file_type file) allowed_types).
    { intros Hin. apply Htype in Hin. discriminate. }
    destruct (file_size file >? 10485760) eqn:Hsize.
    + apply Z.gtb_lt in Hsize. clear Htype Hallowed. cbn [fv_isValid fv_errors negb app In]. intuition (try discriminate; try lia; try reflexivity; auto).
    + rewrite Z.gtb_ltb in Hsize. apply Z.ltb_ge in Hsize.
      clear Htype Hallowed. cbn [fv_isValid fv_errors negb app In]. intuition (try discriminate; try lia; try reflexivity; auto).
Qed.


(** X7. Importing a file that [validateImportFile] refuses:
    [startImportWorkflow] throws [Invalid file: ] followed by the errors
    joined by a comma and a space, without reading the file; the store is
    as before, no dialog and no toast is shown, and the Workflow Record
    goes to the history with status [error] after the one step
    [validate_file]. *)
Theorem import_of_invalid_file (E : Env) (file : File) (s : State) :
  fv_isValid (validateImportFile file) = false ->
  exists s' w,
    startImportWorkflow E file s
    = (Throw ("Invalid file: " +:+ join ", " (fv_errors (validateImportFile file))), s')
    /\ localStorage s' = localStorage s
    /\ dialogs s' = dialogs s
    /\ toasts s' = toasts s
    /\ currentWorkflow s' = None
    /\ workflowHistory s' = keep_last_50 (workflowHistory s ++ [w])
    /\ wf_type w = "data_import"%string
    /\ wf_status w = Some "error"%string
    /\ wf_error w
       = Some ("Invalid file: " +:+ join ", " (fv_errors (validateImportFile file)))
    /\ map fst (wf_steps w) = ["validate_file"%string].
Proof.
  intros Hinvalid. unfold startImportWorkflow, try_catch.
  erewrite bind_ok by apply beginWorkflow_run.
  cbv zeta.
  erewrite bind_ok by (apply pushStep_run; reflexivity).
  rewrite Hinvalid. cbn [negb]. unfold throw at 1. cbv beta iota.
  erewrite bind_ok by (apply completeWorkflow_run; reflexivity).
  eexists _, _. split; [reflexivity|]. repeat split.
Qed.

(** *** The warnings of the import data *)

Lemma get_has_field (k : string) (note : json) :
  note <> JNull -> exists v, get k note = Ok v /\ truthy v = has_field k note.
Proof.
  intros Hnote. unfold has_field. destruct note; try contradiction; cbn; eexists; split; reflexivity.
Qed.

Lemma check_import_notes_count (notes : list json) :
  Forall (fun n => n <> JNull) notes ->
  forall index warnings,
  exists added,
    check_import_notes index notes warnings = Ok (warnings ++ added)
    /\ length added = total_missing notes.
Proof.
  induction 1 as [|note rest Hnote _ IH]; intros index warnings.
  - exists []. rewrite List.app_nil_r. split; reflexivity.
  - cbn [check_import_notes total_missing]. unfold missing_fields.
    destruct (get_has_field "title" note Hnote) as (title & Ht & Htitle).
    destruct (get_has_field "content" note Hnote) as (content & Hc & Hcontent).
    rewrite Ht. cbn [rbind]. rewrite Hc. cbn [rbind]. rewrite Htitle, Hcontent.
    match goal with |- context [check_import_notes (index + 1) rest ?w] =>
      destruct (IH (index + 1) w) as (added & -> & Hlen)
    end.
    destruct (has_field "title" note), (has_field "content" note); cbn [negb];
      rewrite <- ?List.app_assoc; eexists; (split; [reflexivity|]);
      rewrite ?length_app; cbn [length app]; lia.
Qed.

Lemma total_missing_0 (notes : list json) :
  total_missing notes = O
  <-> Forall (fun n => has_field "title" n = true /\ has_field "content" n = true) notes.
Proof.
  induction notes as [|note rest IH]; cbn [total_missing].
  - split; [constructor|reflexivity].
  - unfold missing_fields. split.
    + intros H. constructor.
      * destruct (has_field "title" note), (has_field "content" note);
          first [split; reflexivity | cbn in H; lia].
      * apply IH. lia.
    + intros H. inversion H as [|? ? [Ht Hc] Hrest]. subst. rewrite Ht, Hc.
      apply IH in Hrest. lia.
Qed.

(** [validateImportData] never clears [isValid]: it only adds warnings. *)
Lemma validateImportData_isValid (data : json) (v : DataValidation) :
  validateImportData data = Ok v -> dv_isValid v = true.
Proof.
  unfold validateImportData. destruct (get "notes" data) as [notes|e]; cbn; [|discriminate].
  destruct (truthy notes).
  - destruct notes as [[]|]; try discriminate.
    destruct (check_import_notes _ _ _); cbn; [|discriminate].
    intros [= <-]. reflexivity.
  - intros [= <-].
    repeat match goal with |- context [if ?c then _ else _] => destruct c end; reflexivity.
Qed.

(** X8. [validateImportData] never makes the import data invalid:
    whenever it returns, [isValid] is true. For data whose [notes] is an
    array without [null], it returns one warning for every missing
    (falsy) title and every missing content, so no warning exactly when
    every note has both; for data whose [notes] is truthy but not an
    array it throws instead of returning its warning. *)
Theorem validateImportData_warnings (data : json) :
  (forall v, validateImportData data = Ok v -> dv_isValid v = true)
  /\ (forall items,
        get "notes" data = Ok (Some (JArr items)) ->
        Forall (fun n => n <> JNull) items ->
        exists warnings,
          validateImportData data = Ok {| dv_isValid := true; dv_warnings := warnings |}
          /\ length warnings = total_missing items
          /\ (warnings = []
              <-> Forall (fun n => has_field "title" n = true
                                   /\ has_field "content" n = true) items))
  /\ (forall notes,
        get "notes" data = Ok notes -> truthy notes = true -> isArray notes = false ->
        validateImportData data = Throw TypeError).
Proof.
  split; [apply validateImportData_isValid|]. split.
  - intros items Hget Hitems. unfold validateImportData. rewrite Hget. cbn.
    destruct (check_import_notes_count items Hitems 0 []) as (added & -> & Hlen).
    cbn. exists added. split; [reflexivity|]. split; [exact Hlen|].
    rewrite <- total_missing_0, <- Hlen. destruct added; cbn; split; congruence.
  - intros notes Hget Htruthy Harray. unfold validateImportData. rewrite Hget. cbn [rbind].
    rewrite Htruthy. destruct notes as [[]|]; try discriminate; reflexivity.
Qed.


(** *** Declining the preview *)

(** Reading and parsing the file only reads the clock and the random
    generator. *)
Lemma parseImportFile_frame (E : Env) (file : File) (s : State) :
  exists r dc dr, parseImportFile E file s = (r, advance dc dr s).
Proof.
  unfold parseImportFile. destruct (file_text file) as [content|].
  - unfold try_catch. destruct (String.eqb (file_type file) "application/json").
    + unfold lift. destruct (JSON_parse content) as [data|e];
        eexists _, O, O; rewrite advance_0; reflexivity.
    + destruct (parseTextToNotes_frame E content s) as (notes & dc & dr & Hrun).
      erewrite bind_ok by exact Hrun. eexists _, _, _. reflexivity.
  - eexists _, O, O. rewrite advance_0. reflexivity.
Qed.

(** The preview either throws before its dialog, or shows the dialog and
    returns the user's answer to it. *)
Lemma showImportPreview_cases (E : Env) (data : json) (s : State) :
  (exists e, showImportPreview E data s = (Throw e, s))
  \/ (exists d options,
        showImportPreview E data s
        = (Ok (answers E (length (dialogs s)), options), set_dialogs (dialogs s ++ [d]) s)).
Proof.
  unfold showImportPreview, bind, lift.
  destruct (get "notes" data) as [notes|e]; [|left; eexists; reflexivity].
  destruct (to_string_value (length_or_zero notes)) as [n|e]; [|left; eexists; reflexivity].
  destruct (get "categories" data) as [cats|e]; [|left; eexists; reflexivity].
  destruct (to_string_value (length_or_zero cats)) as [c|e]; [|left; eexists; reflexivity].
  destruct (get "templates" data) as [templates|e]; [|left; eexists; reflexivity].
  destruct (to_string_value (length_or_zero templates)) as [t|e]; [|left; eexists; reflexivity].
  right. eexists _, _. reflexivity.
Qed.

(** In the [catch] of the import workflow no dialog is added. *)
Ltac no_import_dialog E Hrun Hshown :=
  cbv beta iota in Hrun;
  match type of Hrun with
  | bind (completeWorkflow _ _ (Some ?e)) _ ?sx = _ =>
      let sy := fresh "sy" in
      let Hx := fresh "Hx" in
      let Hd := fresh "Hd" in
      destruct (rethrow_frame E (A := ImportOutcome) e sx) as (sy & Hx & _ & Hd);
      rewrite Hx in Hrun; injection Hrun as <- <-;
      exfalso; apply Hshown; rewrite Hd; reflexivity
  end.

(** X9. In every run of [startImportWorkflow] in which a dialog is
    shown and the user declines it, the dialog is the preview (the
    dialog about the warnings is never shown), the workflow returns
    [{ success: false, reason: "User cancelled after preview" }] without
    throwing, the store is as before, and the Workflow Record goes to
    the history with status [cancelled] and no error. *)
Theorem import_declined_at_preview (E : Env) (file : File) (s s' : State)
    (r : result ImportOutcome) :
  startImportWorkflow E file s = (r, s') ->
  dialogs s' <> dialogs s ->
  answers E (length (dialogs s)) = false ->
  r = Ok (ImportCancelled "User cancelled after preview")
  /\ (exists d, dialogs s' = dialogs s ++ [d] /\ dialog_title d = "Confirm Import"%string)
  /\ localStorage s' = localStorage s
  /\ toasts s' = toasts s
  /\ currentWorkflow s' = None
  /\ exists w,
       workflowHistory s' = keep_last_50 (workflowHistory s ++ [w])
       /\ wf_type w = "data_import"%string
       /\ wf_status w = Some "cancelled"%string
       /\ wf_error w = None.
Proof.
  intros Hrun Hshown Hdeclined.
  unfold startImportWorkflow, try_catch in Hrun.
  erewrite bind_ok in Hrun by apply beginWorkflow_run.
  cbv zeta in Hrun.
  erewrite bind_ok in Hrun by (apply pushStep_run; reflexivity).
  destruct (fv_isValid (validateImportFile file)); cbn [negb] in Hrun.
  2:{ unfold throw at 1 in Hrun. no_import_dialog E Hrun Hshown. }
  (* Step 2: the file is read and parsed, or the workflow throws *)
  match type of Hrun with context [bind (parseImportFile E file) _ ?s1] =>
    destruct (parseImportFile_frame E file s1) as (parsed & dc & dr & Hparse)
  end.
  destruct parsed as [data|e].
  2:{ erewrite bind_throw in Hrun by exact Hparse. no_import_dialog E Hrun Hshown. }
  erewrite bind_ok in Hrun by exact Hparse.
  erewrite bind_ok in Hrun by (apply pushStep_run; reflexivity).
  (* Step 3: the validation never asks *)
  unfold bind at 1, lift at 1 in Hrun.
  destruct (validateImportData data) as [dataValidation|e] eqn:Hvalid.
  2:{ no_import_dialog E Hrun Hshown. }
  apply validateImportData_isValid in Hvalid.
  erewrite bind_ok in Hrun by (apply pushStep_run; reflexivity).
  rewrite Hvalid in Hrun. cbn [negb] in Hrun.
  erewrite bind_ok in Hrun by reflexivity. cbn [negb] in Hrun.
  (* Step 4: the preview *)
  match type of Hrun with context [bind (showImportPreview E data) _ ?s1] =>
    destruct (showImportPreview_cases E data s1) as [[e He]|(d & options & Hd)]
  end.
  { erewrite bind_throw in Hrun by exact He. no_import_dialog E Hrun Hshown. }
  pose proof Hd as Htitle. unfold showImportPreview in Htitle.
  erewrite bind_ok in Hrun by exact Hd.
  cbn [fst snd] in Hrun.
  erewrite bind_ok in Hrun by (apply pushStep_run; reflexivity).
  change (answers E (length (dialogs _))) with (answers E (length (dialogs s))) in Hrun.
  rewrite Hdeclined in Hrun. cbn [negb] in Hrun.
  erewrite bind_ok in Hrun by (apply completeWorkflow_run; reflexivity).
  unfold ret in Hrun. injection Hrun as <- <-.
  split; [reflexivity|]. split.
  { exists d. split; [reflexivity|].
    revert Htitle. unfold bind, lift.
    destruct (get "notes" data) as [notes|?]; [|discriminate].
    destruct (to_string_value (length_or_zero notes)) as [n|?]; [|discriminate].
    destruct (get "categories" data) as [cats|?]; [|discriminate].
    destruct (to_string_value (length_or_zero cats)) as [c|?]; [|discriminate].
    destruct (get "templates" data) as [templates|?]; [|discriminate].
    destruct (to_string_value (length_or_zero templates)) as [t|?]; [|discriminate].
    unfold confirm, ret. intros [= _ Hdialogs]. apply List.app_inv_head in Hdialogs.
    injection Hdialogs as <-. reflexivity. }
  split; [reflexivity|]. split; [reflexivity|]. split; [reflexivity|].
  eexists. split; [reflexivity|]. split; [reflexivity|]. split; reflexivity.
Qed.

End ImportWorkflowFacts.

Module ExportFacts.
Import JsString Json Js App DataManager ExportSpec MonadFacts JsonFacts.

Lemma lower_char_idempotent (c : ascii) : lower_char (lower_char c) = lower_char c.
Proof. ascii_cases c; vm_compute; reflexivity. Qed.

Lemma toLowerCase_idempotent (s : string) : toLowerCase (toLowerCase s) = toLowerCase s.
Proof.
  induction s as [|c r IH]; [reflexivity|].
  cbn [toLowerCase]. rewrite lower_char_idempotent, IH. reflexivity.
Qed.

(** X10. A format that [exportData] does not know, whatever its case:
    the export throws [Export failed: Unsupported export format: ]
    followed by the format as it was given, and reads neither the clock
    nor the store. *)
Theorem exportData_unsupported_format (E : Env) (notes : list json) (format : string)
    (s : State) :
  ~ In (toLowerCase format) supported_formats ->
  exportData E notes format s
  = (Throw ("Export failed: Unsupported export format: " +:+ format), s).
Proof.
  intros Hunknown. unfold exportData, try_catch. cbv zeta.
  destruct (String.eqb (toLowerCase format) "json") eqn:Hjson.
  { apply String.eqb_eq in Hjson. exfalso. apply Hunknown. rewrite Hjson. left. reflexivity. }
  destruct (String.eqb (toLowerCase format) "csv") eqn:Hcsv.
  { apply String.eqb_eq in Hcsv. exfalso. apply Hunknown. rewrite Hcsv.
    right. left. reflexivity. }
  destruct (String.eqb (toLowerCase format) "txt") eqn:Htxt.
  { apply String.eqb_eq in Htxt. exfalso. apply Hunknown. rewrite Htxt.
    right. right. left. reflexivity. }
  reflexivity.
Qed.

(** X11. [exportData] matches the format without regard to case: for a
    format that it knows, the export of the same notes from the same
    state is the same text whether the format is written in capitals or
    not, and a failure is the same failure. *)
Theorem exportData_format_case (E : Env) (notes : list json) (format : string) (s : State) :
  In (toLowerCase format) supported_formats ->
  exportData E notes format s = exportData E notes (toLowerCase format) s.
Proof.
  intros Hknown. unfold exportData, try_catch. cbv zeta.
  rewrite toLowerCase_idempotent.
  destruct (String.eqb (toLowerCase format) "json") eqn:Hjson; [reflexivity|].
  destruct (String.eqb (toLowerCase format) "csv") eqn:Hcsv; [reflexivity|].
  destruct (String.eqb (toLowerCase format) "txt") eqn:Htxt; [reflexivity|].
  exfalso. destruct Hknown as [H|[H|[H|[]]]]; rewrite <- H in *; discriminate.
Qed.

End ExportFacts.

Module AcceptanceFacts.
Import JsString Json Js App BusinessLogic Spec ValidationSpec AcceptanceSpec.
Import MonadFacts ImportFacts ValidationFacts.
#[local] Open Scope Z_scope.

Lemma assemble_valid_iff_clean (tm tl cm cl cr ci : bool) (ws : list string)
    (pi lim em : bool) :
  isValid (assemble tm tl cm cl cr ci ws pi lim em) = true
  <-> errors (assemble tm tl cm cl cr ci ws pi lim em) = []
      /\ businessRuleViolations (assemble tm tl cm cl cr ci ws pi lim em) = [].
Proof.
  unfold assemble. cbn [isValid errors businessRuleViolations].
  destruct tm, tl, cm, cl, cr, ci, pi, lim, em; cbn; intuition discriminate.
Qed.

(** X12. Whenever [validateNoteData] returns, [isValid] is true exactly
    when there is no error and no business rule violation: every check
    that clears [isValid] leaves a message, and the warnings never count. *)
Theorem validateNoteData_valid_iff_clean (E : Env) (noteData : json) (s s' : State)
    (v : Validation) :
  validateNoteData E noteData s = (Ok v, s') ->
  (isValid v = true <-> errors v = [] /\ businessRuleViolations v = []).
Proof.
  intros Hrun.
  destruct (validateNoteData_inv _ _ _ _ _ Hrun)
    as (title & content & category & tags & priority & tm & tl & cm & cl & ci & ws & n
        & _ & _ & _ & _ & _ & _ & _ & _ & _ & _ & _ & _ & ->).
  apply assemble_valid_iff_clean.
Qed.

Lemma blank_whitespace (c : string) : trim c = "" -> blank (Some (JStr c)) = Ok true.
Proof.
  intros H. unfold blank. cbn [truthy trim_length].
  destruct (negb (String.eqb c "")); cbn; [|reflexivity]. rewrite H. reflexivity.
Qed.

(** What the checks leave when the content is blank. *)
Lemma assemble_blank_content (tm tl cl cr ci : bool) (ws : list string) (pi lim : bool) :
  In "Content is required"%string (errors (assemble tm tl true cl cr ci ws pi lim true))
  /\ In "Empty content not allowed by business rules"%string
       (businessRuleViolations (assemble tm tl true cl cr ci ws pi lim true))
  /\ isValid (assemble tm tl true cl cr ci ws pi lim true) = false.
Proof.
  unfold assemble. cbn [errors businessRuleViolations isValid].
  split; [|split].
  - rewrite !List.in_app_iff. right. right. left. left. reflexivity.
  - rewrite !List.in_app_iff. right. left. reflexivity.
  - destruct tm, tl; reflexivity.
Qed.

Lemma blank_content_refused (E : Env) (members : list (string * json))
    (s s' : State) (v : Validation) :
  validateNoteData E (JObj members) s = (Ok v, s') ->
  blank (lookup "content" members) = Ok true ->
  In "Content is required"%string (errors v)
  /\ In "Empty content not allowed by business rules"%string (businessRuleViolations v)
  /\ isValid v = false.
Proof.
  intros Hrun Hblank.
  destruct (validateNoteData_inv _ _ _ _ _ Hrun)
    as (title & content & category & tags & priority & tm & tl & cm & cl & ci & ws & n
        & _ & Hcontent & _ & _ & _ & _ & _ & Hcm & _ & _ & _ & _ & ->).
  cbn [get] in Hcontent. injection Hcontent as <-.
  assert (cm = true) as -> by congruence.
  apply assemble_blank_content.
Qed.

(** X13. A note without content, or whose content is only white space,
    is refused twice over: whenever [validateNoteData] returns on it,
    the errors hold [Content is required], the business rule violations
    hold [Empty content not allowed by business rules], and [isValid] is
    false. *)
Theorem validateNoteData_blank_content (E : Env) (members : list (string * json))
    (s s' : State) (v : Validation) :
  validateNoteData E (JObj members) s = (Ok v, s') ->
  lookup "content" members = None
  \/ (exists c, lookup "content" members = Some (JStr c) /\ trim c = "") ->
  In "Content is required"%string (errors v)
  /\ In "Empty content not allowed by business rules"%string (businessRuleViolations v)
  /\ isValid v = false.
Proof.
  intros Hrun Hblank. apply (blank_content_refused E members s s' v Hrun).
  destruct Hblank as [H|(c & H & Htrim)]; rewrite H.
  - reflexivity.
  - apply blank_whitespace. exact Htrim.
Qed.

(** *** A note that passes *)

Lemma blank_not_blank (t : string) : not_blank t -> blank (Some (JStr t)) = Ok false.
Proof.
  unfold not_blank. intros H. unfold blank. cbn [truthy trim_length].
  destruct (String.eqb t "") eqn:Ht.
  { apply String.eqb_eq in Ht. subst t. exfalso. apply H. reflexivity. }
  cbn. f_equal. apply Z.eqb_neq. unfold len. intros Hlen.
  destruct (trim t); [apply H; reflexivity|discriminate].
Qed.

Lemma find_active_category_found (cat : string) (cs : list json) :
  Forall (fun c => c <> JNull) cs ->
  (exists c, In (JObj c) cs
             /\ lookup "id" c = Some (JStr cat)
             /\ truthy (lookup "isActive" c) = true) ->
  exists found, find_active_category (Some (JStr cat)) cs = Ok (Some found)
                /\ truthy (Some found) = true.
Proof.
  induction 1 as [|x rest Hx _ IH]; intros (c & Hin & Hid & Hactive); [contradiction|].
  cbn [find_active_category].
  destruct x as [| b | z | t | items | members]; try contradiction; cbn [get rbind].
  1-4: (cbn [strict_eq]; destruct Hin as [Hin|Hin]; [discriminate|];
        apply IH; exists c; repeat split; assumption).
  destruct (strict_eq (lookup "id" members) (Some (JStr cat))) eqn:Heq.
  - cbn [rbind]. destruct (truthy (lookup "isActive" members)) eqn:Hact.
    + eexists. split; reflexivity.
    + destruct Hin as [Hin|Hin].
      * injection Hin as ->. congruence.
      * apply IH. exists c. repeat split; assumption.
  - cbn [rbind]. destruct Hin as [Hin|Hin].
    + injection Hin as ->. rewrite Hid in Heq. cbn in Heq.
      rewrite String.eqb_refl in Heq. discriminate.
    + apply IH. exists c. repeat split; assumption.
Qed.

(** The verdict on a note whose fields all pass: only the daily limit
    can still refuse it. *)
Lemma validateNoteData_fields_pass (E : Env) (members : list (string * json))
    (t c cat : string) (items : list json) (s : State) :
  lookup "title" members = Some (JStr t) -> not_blank t -> len t <= 200 ->
  lookup "content" members = Some (JStr c) -> not_blank c -> len c <= 50000 ->
  lookup "category" members = Some (JStr cat) -> cat <> "" -> active_category E cat ->
  plain_note members -> plain_categories E ->
  known_priority (lookup "priority" members) ->
  plain_store s -> notes_are s items ->
  exists ws,
    validateNoteData E (JObj members) s
    = (Ok (assemble false false false false false false ws false
             (created_on E (today E s) items >=? 100) false),
       advance 1 0 s).
Proof.
  intros Ht Htb Htl Hc Hcb Hcl Hcat Hcatne Hactive Hnote Hcats Hpriority Hstore Hitems.
  destruct (validateNoteData_returns E members s Hnote Hcats Hstore) as [v Hrun].
  destruct (validateNoteData_inv _ _ _ _ _ Hrun)
    as (title & content & category & tags & priority & tm & tl & cm & cl & ci & ws & n
        & Htitle & Hcontent & Hcategory & _ & Hprio & Htm & Htl' & Hcm & Hcl' & Hci & _
        & Hn & Hv).
  exists ws. rewrite Hrun. f_equal. f_equal. subst v.
  cbn [get] in Htitle, Hcontent, Hcategory, Hprio.
  injection Htitle as <-. injection Hcontent as <-. injection Hcategory as <-.
  injection Hprio as <-.
  rewrite Ht in Htm, Htl'. rewrite Hc in Hcm, Hcl'. rewrite Hcat in Hci |- *.
  rewrite (blank_not_blank t Htb) in Htm. injection Htm as <-.
  rewrite (blank_not_blank c Hcb) in Hcm. injection Hcm as <-.
  rewrite longer_than_text in Htl' by lia. injection Htl' as <-.
  rewrite longer_than_text in Hcl' by lia. injection Hcl' as <-.
  replace (len t >? 200) with false by (symmetry; rewrite Z.gtb_ltb; apply Z.ltb_ge; lia).
  replace (len c >? 50000) with false by (symmetry; rewrite Z.gtb_ltb; apply Z.ltb_ge; lia).
  assert (Htruthy : truthy (Some (JStr cat)) = true).
  { cbn. destruct (String.eqb cat "") eqn:H; [|reflexivity].
    apply String.eqb_eq in H. contradiction. }
  rewrite Htruthy.
  assert (ci = false) as ->.
  { unfold category_invalid in Hci. rewrite Htruthy in Hci.
    destruct (find_active_category_found cat (categories E) Hcats Hactive)
      as (found & Hfound & Hf).
    rewrite Hfound in Hci. cbn [rbind] in Hci. rewrite Hf in Hci. cbn in Hci. congruence. }
  assert (priority_invalid (lookup "priority" members) = false) as ->.
  { destruct Hpriority as [->|(p & -> & Hp)]; [reflexivity|].
    unfold priority_invalid. cbn [truthy].
    assert (existsb (String.eqb p) ["low"; "medium"; "high"]%string = true) as ->.
    { apply existsb_exists. exists p. split; [exact Hp|apply String.eqb_refl]. }
    cbn. apply andb_false_r. }
  apply getTodayNoteCount_ok in Hn. destruct Hn as (_ & items' & Hitems' & Hcount).
  assert (items' = items) as -> by (unfold notes_are in *; congruence).
  apply count_today_created_on in Hcount. rewrite <- Hcount. reflexivity.
Qed.

(** X14. A note that passes. When the title and the content are texts
    that are not blank and not longer than 200 and 50,000 characters,
    the category is the id of an active category, the tags are missing
    or an array of texts, the priority is missing or one of low, medium
    and high, and fewer than 100 notes of the persisted collection were
    created today, [validateNoteData] returns with [isValid] true, no
    error and no business rule violation. *)
Theorem validateNoteData_accepts (E : Env) (members : list (string * json))
    (t c cat : string) (items : list json) (s : State) :
  lookup "title" members = Some (JStr t) -> not_blank t -> len t <= 200 ->
  lookup "content" members = Some (JStr c) -> not_blank c -> len c <= 50000 ->
  lookup "category" members = Some (JStr cat) -> cat <> "" -> active_category E cat ->
  plain_note members -> plain_categories E ->
  known_priority (lookup "priority" members) ->
  plain_store s -> notes_are s items -> created_on E (today E s) items < 100 ->
  exists v,
    validateNoteData E (JObj members) s = (Ok v, advance 1 0 s)
    /\ isValid v = true /\ errors v = [] /\ businessRuleViolations v = [].
Proof.
  intros Ht Htb Htl Hc Hcb Hcl Hcat Hcatne Hactive Hnote Hcats Hpriority Hstore Hitems Hquota.
  destruct (validateNoteData_fields_pass E members t c cat items s) as [ws Hrun];
    try assumption.
  eexists. split; [exact Hrun|].
  replace (created_on E (today E s) items >=? 100) with false.
  2:{ symmetry. rewrite Z.geb_leb. apply Z.leb_gt. lia. }
  cbn. repeat split.
Qed.

End AcceptanceFacts.

Module ChangesMoreFacts.
Import JsString Json Js BusinessLogic ChangesSpec.

Lemma eqb_sym (x y : bool) : Bool.eqb x y = Bool.eqb y x.
Proof. destruct x, y; reflexivity. Qed.

Lemma strict_eq_sym (a b : value) : strict_eq a b = strict_eq b a.
Proof.
  destruct a as [[| x | x | x | x | x]|], b as [[| y | y | y | y | y]|]; cbn; try reflexivity.
  - destruct x, y; reflexivity.
  - apply Z.eqb_sym.
  - apply String.eqb_sym.
Qed.

Lemma bool_decide_sym {A : Type} `{EqDecision A} (x y : A) :
  bool_decide (x = y) = bool_decide (y = x).
Proof. apply bool_decide_ext. split; congruence. Qed.

Lemma get_not_null (k : string) (v : json) : v <> JNull -> exists x, get k v = Ok x.
Proof. destruct v; try contradiction; intros _; eexists; reflexivity. Qed.

(** X15. Comparing two notes the other way round gives the same changes
    read backwards: [calculateNoteChanges(updated, original)] lists the
    same fields in the same order as
    [calculateNoteChanges(original, updated)], each with [from] and [to]
    exchanged; and the one throws when the other does. *)
Theorem calculateNoteChanges_reversed (original updated : json) :
  calculateNoteChanges updated original
  = let? changes := calculateNoteChanges original updated in Ok (map reversed changes).
Proof.
  assert (Hnull : forall v : json, v = JNull \/ v <> JNull).
  { intros v. destruct v; [left; reflexivity|right; discriminate..]. }
  destruct (Hnull original) as [->|Ho].
  { destruct updated; reflexivity. }
  destruct (Hnull updated) as [->|Hu].
  { destruct original; reflexivity. }
  clear Hnull.
  destruct (get_not_null "title" original Ho) as [t0 Ht0].
  destruct (get_not_null "title" updated Hu) as [t1 Ht1].
  destruct (get_not_null "content" original Ho) as [c0 Hc0].
  destruct (get_not_null "content" updated Hu) as [c1 Hc1].
  destruct (get_not_null "category" original Ho) as [g0 Hg0].
  destruct (get_not_null "category" updated Hu) as [g1 Hg1].
  destruct (get_not_null "tags" original Ho) as [a0 Ha0].
  destruct (get_not_null "tags" updated Hu) as [a1 Ha1].
  destruct (get_not_null "priority" original Ho) as [p0 Hp0].
  destruct (get_not_null "priority" updated Hu) as [p1 Hp1].
  destruct (get_not_null "audio" original Ho) as [r0 Hr0].
  destruct (get_not_null "audio" updated Hu) as [r1 Hr1].
  unfold calculateNoteChanges. cbv zeta.
  rewrite Ht0, Ht1, Hc0, Hc1, Hg0, Hg1, Ha0, Ha1, Hp0, Hp1, Hr0, Hr1. cbn [rbind].
  rewrite (strict_eq_sym t1 t0), (strict_eq_sym c1 c0), (strict_eq_sym g1 g0),
    (strict_eq_sym p1 p0), (bool_decide_sym (stringify_value a1) (stringify_value a0)),
    (eqb_sym (truthy r1) (truthy r0)).
  destruct (strict_eq t0 t1), (strict_eq c0 c1), (strict_eq g0 g1),
    (bool_decide (stringify_value a0 = stringify_value a1)), (strict_eq p0 p1),
    (Bool.eqb (truthy r0) (truthy r1)); reflexivity.
Qed.

End ChangesMoreFacts.

Module EditingFacts.
Import JsString Json Js App BusinessLogic Spec Editing EditingSpec.
Import CollectionSpec CollectionFacts.
Import JsonFacts JsFacts MonadFacts ImportFacts DeletionFacts.
#[local] Open Scope Z_scope.

Lemma insert_middle (before : list json) (note x : json) (after : list json) :
  <[length before := x]> (before ++ note :: after) = before ++ x :: after.
Proof. induction before as [|y l IH]; [reflexivity|]. cbn. f_equal. exact IH. Qed.

Lemma updateExistingNote_found (noteId updatedNote : json)
    (items before : list json) (note : json) (after : list json) (s : State) :
  notes_are s items ->
  first_with_id noteId items before note after ->
  updateExistingNote noteId updatedNote s
  = (Ok updatedNote,
     set_localStorage
       (<["notes" := stringify (JArr (before ++ updatedNote :: after))]> (localStorage s)) s).
Proof.
  intros Hitems Hfirst.
  pose proof (findIndex_by_id_first _ _ _ _ _ Hfirst) as Hindex.
  destruct Hfirst as (-> & _ & _).
  unfold updateExistingNote.
  erewrite bind_ok by apply getItem_or_stored.
  unfold notes_are in Hitems.
  erewrite bind_ok by (unfold lift, JSON_parse; rewrite Hitems; reflexivity).
  cbv beta iota.
  erewrite bind_ok by (unfold lift; rewrite Hindex; reflexivity).
  cbv beta iota.
  erewrite bind_ok by reflexivity. unfold ret.
  rewrite insert_middle. reflexivity.
Qed.

(** X16. [updateExistingNote] replaces the first note with the id and
    only that one: the persisted collection afterwards holds the updated
    note in its place, the notes before and after it as they were, and
    no other key of the store changes. When no note has the id it throws
    [Note not found for update] and leaves the state as it is. *)
Theorem updateExistingNote_replaces_first (noteId updatedNote : json)
    (items : list json) (s : State) :
  notes_are s items ->
  (forall before note after,
     first_with_id noteId items before note after ->
     exists s',
       updateExistingNote noteId updatedNote s = (Ok updatedNote, s')
       /\ notes_are s' (before ++ updatedNote :: after)
       /\ same_but "notes" s s')
  /\ (Forall (lacks_id noteId) items ->
      updateExistingNote noteId updatedNote s = (Throw "Note not found for update", s)).
Proof.
  intros Hitems. split.
  - intros before note after Hfirst.
    eexists. split; [eapply updateExistingNote_found; eassumption|]. split.
    + unfold notes_are.
      erewrite stored_insert_eq; [apply parse_stringify|apply stringify_nonempty|reflexivity].
    + intros k Hk. cbn. apply lookup_insert_ne. congruence.
  - intros Hnone. apply findIndex_by_id_none in Hnone.
    unfold updateExistingNote.
    erewrite bind_ok by apply getItem_or_stored.
    unfold notes_are in Hitems.
    erewrite bind_ok by (unfold lift, JSON_parse; rewrite Hitems; reflexivity).
    cbv beta iota.
    erewrite bind_ok by (unfold lift; rewrite Hnone; reflexivity).
    reflexivity.
Qed.


(** *** Starting to edit *)

Lemma strict_eq_true (a : value) (n : json) :
  strict_eq a (Some n) = true -> a = Some n /\ exists text, to_string n = Ok text.
Proof.
  destruct a as [[| x | x | x | x | x]|], n as [| y | y | y | y | y]; cbn; try discriminate.
  - intros _. split; [reflexivity|]. eexists. reflexivity.
  - intros H. apply Bool.eqb_prop in H. subst. split; [reflexivity|].
    destruct y; eexists; reflexivity.
  - intros H. apply Z.eqb_eq in H. subst. split; [reflexivity|]. eexists. reflexivity.
  - intros H. apply String.eqb_eq in H. subst. split; [reflexivity|]. eexists. reflexivity.
Qed.

Lemma backups_are_frame (s s' : State) (backups : list (string * json)) :
  localStorage s' = localStorage s -> backups_are s backups -> backups_are s' backups.
Proof. unfold backups_are, stored. intros ->. trivial. Qed.

Lemma createNoteBackup_run (E : Env) (note : json) (id : value) (idText : string)
    (backups : list (string * json)) (s : State) :
  get "id" note = Ok id -> to_string_value id = Ok idText ->
  backups_are s backups ->
  createNoteBackup E note s
  = (Ok ("backup_" +:+ of_Z (clock E (clock_reads s)) +:+ "_" +:+ idText)%string,
     set_localStorage
       (<["note_backups" :=
            stringify
              (JObj (Js.set ("backup_" +:+ of_Z (clock E (clock_reads s)) +:+ "_" +:+ idText)
                       (backupRecord note (JsDate.toISOString (clock E (S (clock_reads s))))
                          "edit_backup")
                       backups))]> (localStorage s))
       (advance 2 0 s)).
Proof.
  intros Hid Htext Hbackups. unfold createNoteBackup.
  erewrite bind_ok by reflexivity.
  erewrite bind_ok by (unfold lift; rewrite Hid; reflexivity).
  erewrite bind_ok by (unfold lift; rewrite Htext; reflexivity).
  cbv zeta.
  erewrite bind_ok by apply getItem_or_stored.
  unfold backups_are in Hbackups.
  erewrite bind_ok.
  2:{ unfold lift, JSON_parse.
      change (stored "note_backups" "{}" (set_clock_reads (S (clock_reads s)) s))
        with (stored "note_backups" "{}" s).
      rewrite Hbackups. reflexivity. }
  erewrite bind_ok by reflexivity.
  erewrite bind_ok by reflexivity.
  erewrite bind_ok by reflexivity.
  reflexivity.
Qed.

(** X17. Starting to edit a note that the collection holds, over a
    backup store that is an object: [startNoteEditingWorkflow] returns
    the first note with the id and the id of a backup,
    [backup_] followed by the time of the backup and the id of the
    note; the backup store afterwards holds under it the record with
    the note as [note], the time after that of the id as [timestamp]
    and [edit_backup] as [type], and its other backups as they were;
    the collection is as before; no dialog is shown; the Workflow Record
    goes to the history with status [editing_started], and the workflow
    that is returned is [null]. *)
Theorem editing_start_backs_up (E : Env) (noteId : json)
    (items before : list json) (note : json) (after : list json)
    (backups : list (string * json)) (s : State) :
  notes_are s items ->
  first_with_id noteId items before note after ->
  backups_are s backups ->
  exists s' idText w,
    to_string noteId = Ok idText
    /\ startNoteEditingWorkflow E noteId s
       = (Ok {| started_note := note;
                started_backup :=
                  "backup_" +:+ of_Z (clock E (S (clock_reads s))) +:+ "_" +:+ idText;
                started_workflow := None |}, s')
    /\ (exists backups',
          backups_are s' backups'
          /\ lookup ("backup_" +:+ of_Z (clock E (S (clock_reads s))) +:+ "_" +:+ idText)
               backups'
             = Some (JObj [("note", note);
                           ("timestamp",
                            JStr (JsDate.toISOString (clock E (S (S (clock_reads s))))));
                           ("type", JStr "edit_backup")])
          /\ (forall k,
                k <> ("backup_" +:+ of_Z (clock E (S (clock_reads s))) +:+ "_" +:+ idText)%string
                -> lookup k backups' = lookup k backups))
    /\ notes_are s' items
    /\ dialogs s' = dialogs s
    /\ currentWorkflow s' = None
    /\ workflowHistory s' = keep_last_50 (workflowHistory s ++ [w])
    /\ wf_type w = "note_editing"%string
    /\ wf_status w = Some "editing_started"%string
    /\ wf_error w = None.
Proof.
  intros Hitems Hfirst Hbackups.
  pose proof (find_by_id_first _ _ _ _ _ Hfirst) as Hfind.
  destruct Hfirst as (_ & _ & Hid).
  destruct (has_id_get _ _ Hid) as (id & Hget & Heq).
  destruct (strict_eq_true _ _ Heq) as (-> & idText & Htext).
  destruct (has_id_object _ _ Hid) as [members Hmembers].
  unfold startNoteEditingWorkflow, try_catch.
  erewrite bind_ok by apply beginWorkflow_run.
  erewrite bind_ok.
  2:{ eapply loadNoteForEditing_found; [|exact Hfind|exact Hid].
      eapply notes_are_frame; [|exact Hitems]. reflexivity. }
  erewrite bind_ok by (apply pushStep_run; reflexivity).
  erewrite bind_ok by reflexivity.
  erewrite bind_ok by (apply pushStep_run; reflexivity).
  cbn [canEdit negb].
  erewrite bind_ok.
  2:{ eapply createNoteBackup_run; [exact Hget|exact Htext|].
      eapply backups_are_frame; [|exact Hbackups]. reflexivity. }
  erewrite bind_ok by (apply pushStep_run; reflexivity).
  erewrite bind_ok by (apply completeWorkflow_run; reflexivity).
  erewrite bind_ok by reflexivity. unfold ret.
  eexists _, idText, _. split; [exact Htext|]. split; [reflexivity|]. split; [|split].
  - eexists. split; [|split].
    + unfold backups_are.
      erewrite stored_insert_eq; [apply parse_stringify|apply stringify_nonempty|reflexivity].
    + rewrite lookup_set_eq. unfold backupRecord. rewrite Hmembers. reflexivity.
    + intros k Hk. apply lookup_set_ne. intros Heq'. apply Hk. symmetry. exact Heq'.
  - unfold notes_are.
    erewrite (stored_insert_ne "notes" "note_backups" "[]" _ s);
      [exact Hitems|discriminate|reflexivity].
  - repeat split.
Qed.


(** *** Completing an edit *)

Lemma lookup_merge (k : string) (b : list (string * json)) :
  NoDup (map fst b) ->
  forall a,
    lookup k (merge a b)
    = match lookup k b with
      | Some v => Some v
      | None => lookup k a
      end.
Proof.
  unfold merge. induction b as [|[k' v'] b IH]; intros Hnodup a; [reflexivity|].
  cbn [fold_left fst snd map] in *. inversion Hnodup as [|? ? Hnotin Hrest]. subst.
  rewrite (IH Hrest). cbn [lookup].
  destruct (String.eqb k k') eqn:Hk.
  - apply String.eqb_eq in Hk. subst k'.
    assert (lookup k b = None) as ->.
    { clear -Hnotin. induction b as [|[k1 v1] b IH]; [reflexivity|]. cbn in *.
      destruct (String.eqb k k1) eqn:H1.
      - apply String.eqb_eq in H1. subst. exfalso. apply Hnotin. apply elem_of_cons.
        left. reflexivity.
      - apply IH. intros H. apply Hnotin. apply elem_of_cons. right. exact H. }
    apply lookup_set_eq.
  - apply String.eqb_neq in Hk. destruct (lookup k b); [reflexivity|].
    apply lookup_set_ne. congruence.
Qed.

Lemma calculateNoteChanges_returns (original updated : json) :
  original <> JNull -> updated <> JNull ->
  exists changes, calculateNoteChanges original updated = Ok changes.
Proof.
  intros Ho Hu. unfold calculateNoteChanges.
  destruct original; try contradiction; destruct updated; try contradiction;
    cbn; eexists; reflexivity.
Qed.

(** Without shared members the comparison is [calculateNoteChanges]. *)
Lemma calculateNoteChanges_apart (original updated : json) :
  calculateNoteChanges_sharing (fun _ => false) original updated
  = calculateNoteChanges original updated.
Proof. reflexivity. Qed.

Lemma in_changes (changed : bool) (c : Change) (changes : list Change) (k : string) :
  In k (map field (if changed then changes ++ [c] else changes)) ->
  In k (map field changes) \/ (changed = true /\ k = field c).
Proof.
  destruct changed; [|left; assumption].
  rewrite List.map_app, List.in_app_iff. cbn.
  intros [H|[H|[]]]; [left; exact H|right; split; [reflexivity|symmetry; exact H]].
Qed.

Lemma differs_apart (shared : bool) (a b : value) : differs shared a b = true -> shared = false.
Proof. unfold differs. destruct shared; [discriminate|reflexivity]. Qed.

(** A field is listed only when the updated note did not take it from
    the original. *)
Lemma calculateNoteChanges_sharing_fields (shared : string -> bool)
    (original updated : list (string * json)) (changes : list Change) :
  calculateNoteChanges_sharing shared (JObj original) (JObj updated) = Ok changes ->
  (forall k, In k compared_fields -> shared k = true -> lookup k updated = lookup k original) ->
  forall k, In k (map field changes) -> In k compared_fields /\ shared k = false.
Proof.
  unfold calculateNoteChanges_sharing. cbn [get rbind]. cbv zeta.
  intros [= <-] Hshared k Hin.
  apply in_changes in Hin. destruct Hin as [Hin|[Hc ->]].
  2:{ cbn [field]. split; [cbn; tauto|].
      destruct (shared "audio") eqn:Hs; [exfalso|reflexivity].
      rewrite (Hshared "audio") in Hc by (cbn; tauto || exact Hs).
      rewrite Bool.eqb_reflx in Hc. discriminate Hc. }
  apply in_changes in Hin. destruct Hin as [Hin|[Hc ->]].
  2:{ cbn [field]. split; [cbn; tauto|]. exact (differs_apart _ _ _ Hc). }
  apply in_changes in Hin. destruct Hin as [Hin|[Hc ->]].
  2:{ cbn [field]. split; [cbn; tauto|].
      destruct (shared "tags") eqn:Hs; [exfalso|reflexivity].
      rewrite (Hshared "tags") in Hc by (cbn; tauto || exact Hs).
      rewrite bool_decide_eq_true_2 in Hc by reflexivity. discriminate Hc. }
  apply in_changes in Hin. destruct Hin as [Hin|[Hc ->]].
  2:{ cbn [field]. split; [cbn; tauto|]. exact (differs_apart _ _ _ Hc). }
  apply in_changes in Hin. destruct Hin as [Hin|[Hc ->]].
  2:{ cbn [field]. split; [cbn; tauto|]. exact (differs_apart _ _ _ Hc). }
  destruct (differs (shared "title") (lookup "title" original) (lookup "title" updated))
    eqn:Hc; cbn in Hin; [|destruct Hin].
  destruct Hin as [<-|[]]. split; [cbn; tauto|]. exact (differs_apart _ _ _ Hc).
Qed.

Lemma calculateNoteChanges_sharing_returns (shared : string -> bool) (original updated : json) :
  original <> JNull -> updated <> JNull ->
  exists changes, calculateNoteChanges_sharing shared original updated = Ok changes.
Proof.
  intros Ho Hu. unfold calculateNoteChanges_sharing.
  destruct original; try contradiction; destruct updated; try contradiction;
    cbn [get rbind]; eexists; reflexivity.
Qed.

Lemma handlePostUpdateActions_run (shared : string -> bool) (originalNote updatedNote : json)
    (changes : list Change) (s : State) :
  calculateNoteChanges_sharing shared originalNote updatedNote = Ok changes ->
  handlePostUpdateActions shared originalNote updatedNote s
  = (Ok tt,
     set_events (events s ++ ["statsUpdated"])
       (set_toasts (toasts s ++ [edit_toast (map field changes)]) s)).
Proof.
  intros Hchanges. unfold handlePostUpdateActions.
  erewrite bind_ok by (unfold lift; rewrite Hchanges; reflexivity).
  reflexivity.
Qed.

Lemma records_change_json (c : Change) : records_change c (Change_json c).
Proof.
  unfold records_change, Change_json, member. cbn [own_members].
  destruct c as [f [a|] [b|]]; cbn; repeat split.
Qed.

(** X18. The daily limit on new notes also stops an edit. For updated
    data whose fields all pass the validation, once 100 notes of the
    persisted collection were created today
    [completeNoteEditingWorkflow] throws, whatever the note, and the
    message names no reason: it is [Validation failed: ] followed by the
    empty list of errors, the limit being a business rule violation. The
    store is as before. *)
Theorem edit_blocked_by_daily_quota (E : Env) (noteId : json)
    (members : list (string * json)) (t c cat : string) (items : list json) (s : State) :
  lookup "title" members = Some (JStr t) -> AcceptanceSpec.not_blank t -> len t <= 200 ->
  lookup "content" members = Some (JStr c) -> AcceptanceSpec.not_blank c -> len c <= 50000 ->
  lookup "category" members = Some (JStr cat) -> cat <> ""%string ->
  AcceptanceSpec.active_category E cat ->
  ValidationSpec.plain_note members -> ValidationSpec.plain_categories E ->
  AcceptanceSpec.known_priority (lookup "priority" members) ->
  ValidationSpec.plain_store s -> notes_are s items ->
  100 <= ValidationSpec.created_on E (ValidationSpec.today E s) items ->
  exists s',
    completeNoteEditingWorkflow E noteId (JObj members) s = (Throw "Validation failed: ", s')
    /\ localStorage s' = localStorage s.
Proof.
  intros Ht Htb Htl Hc Hcb Hcl Hcat Hcatne Hactive Hnote Hcats Hpriority Hstore Hitems Hquota.
  destruct (AcceptanceFacts.validateNoteData_fields_pass E members t c cat items s)
    as [ws Hrun]; try assumption.
  replace (ValidationSpec.created_on E (ValidationSpec.today E s) items >=? 100) with true
    in Hrun by (symmetry; apply Z.geb_le; lia).
  unfold completeNoteEditingWorkflow, try_catch.
  erewrite bind_ok by exact Hrun.
  eexists. split; reflexivity.
Qed.

(** X19. Completing an edit with data that [validateNoteData] accepts,
    on a note that the collection holds: [completeNoteEditingWorkflow]
    puts in the place of the note the merged note. Its [lastModified] is
    the time of the edit; its [editHistory] is the history of the
    original followed by one entry, which has the time after that as
    [timestamp] and records as [changes] the changes that are returned;
    every other member is that of the updated data, or of the original
    when the updated data has none of the name. Nothing else in the
    store changes, no dialog is shown and no Workflow Record is written;
    one toast is shown, and the fields it names are among the compared
    fields that the updated data sets. *)
Theorem edit_saves_merged_note (E : Env) (noteId updatedData : json) (v : Validation)
    (items before : list json) (original : list (string * json)) (after history : list json)
    (s s1 : State) :
  validateNoteData E updatedData s = (Ok v, s1) ->
  isValid v = true ->
  notes_are s items ->
  first_with_id noteId items before (JObj original) after ->
  history_is original history ->
  NoDup (map fst (spread updatedData)) ->
  exists s' changes updatedNote entry announced,
    calculateNoteChanges (JObj original) updatedData = Ok changes
    /\ completeNoteEditingWorkflow E noteId updatedData s
       = (Ok {| completed_note := updatedNote; completed_changes := changes |}, s')
    /\ notes_are s' (before ++ updatedNote :: after)
    /\ same_but "notes" s s'
    /\ dialogs s' = dialogs s
    /\ workflowHistory s' = workflowHistory s
    /\ member "lastModified" updatedNote
       = Some (JStr (JsDate.toISOString (clock E (S (clock_reads s)))))
    /\ member "editHistory" updatedNote = Some (JArr (history ++ [entry]))
    /\ history_entry (JsDate.toISOString (clock E (S (S (clock_reads s))))) changes entry
    /\ (forall k, k <> "lastModified"%string -> k <> "editHistory"%string ->
        member k updatedNote
        = match member k updatedData with
          | Some x => Some x
          | None => lookup k original
          end)
    /\ toasts s' = toasts s ++ [edit_toast announced]
    /\ (forall k, In k announced -> In k compared_fields /\ member k updatedData <> None).
Proof.
  intros Hrun Hvalid Hitems Hfirst Hhistory Hnodup.
  destruct (ValidationFacts.validateNoteData_inv _ _ _ _ _ Hrun)
    as (title & content & category & tags & priority & tm & tl & cm & cl & ci & ws & n
        & Htitle & _ & _ & _ & _ & _ & _ & _ & _ & _ & _ & Hn & _).
  apply ValidationFacts.getTodayNoteCount_ok in Hn. destruct Hn as (-> & _).
  assert (Hdata : updatedData <> JNull) by (intros ->; discriminate).
  destruct (calculateNoteChanges_returns (JObj original) updatedData) as [changes Hchanges];
    [discriminate|exact Hdata|].
  pose proof (find_by_id_first _ _ _ _ _ Hfirst) as Hfind.
  pose proof Hfirst as (_ & _ & Hid).
  set (entry := JObj [("timestamp"%string,
                       JStr (JsDate.toISOString (clock E (S (S (clock_reads s))))));
                      ("changes"%string, JArr (map Change_json changes))]).
  set (updatedNote :=
         editedNote (JObj original) updatedData
           (JsDate.toISOString (clock E (S (clock_reads s)))) (history ++ [entry])).
  destruct (calculateNoteChanges_sharing_returns (kept updatedData) (JObj original) updatedNote)
    as [shown Hshown]; [discriminate|discriminate|].
  assert (Hiter : exists oldHistory,
             get "editHistory" (JObj original) = Ok oldHistory
             /\ match or_else oldHistory (Some (JArr [])) with
                | Some h => iterate h
                | None => Ok []
                end = Ok history).
  { destruct Hhistory as [[Hnone ->]|Hsome]; eexists; (split; [reflexivity|]).
    - rewrite Hnone. reflexivity.
    - rewrite Hsome. reflexivity. }
  destruct Hiter as (oldHistory & Hold & Hiter).
  assert (Hother : forall k, k <> "lastModified"%string -> k <> "editHistory"%string ->
                             member k updatedNote
                             = match member k updatedData with
                               | Some x => Some x
                               | None => lookup k original
                               end).
  { intros k Hlm Heh. unfold updatedNote, editedNote, member. cbn [own_members].
    rewrite lookup_set_ne by congruence. rewrite lookup_set_ne by congruence.
    rewrite (lookup_merge k _ Hnodup). reflexivity. }
  eexists _, changes, updatedNote, entry, (map field shown).
  split; [exact Hchanges|].
  split; [|split; [|split; [|split; [|split; [|split; [|split; [|split; [|split;
    [exact Hother|split]]]]]]]]].
  - unfold completeNoteEditingWorkflow, try_catch.
    erewrite bind_ok by exact Hrun. rewrite Hvalid. cbn [negb].
    erewrite bind_ok.
    2:{ eapply loadNoteForEditing_found; [|exact Hfind|exact Hid].
        eapply notes_are_frame; [|exact Hitems]. reflexivity. }
    erewrite bind_ok by reflexivity.
    erewrite bind_ok by (unfold lift; rewrite Hold; reflexivity).
    erewrite bind_ok by (unfold lift; rewrite Hiter; reflexivity).
    erewrite bind_ok by reflexivity.
    erewrite bind_ok by (unfold lift; rewrite Hchanges; reflexivity).
    cbv zeta.
    erewrite bind_ok.
    2:{ eapply updateExistingNote_found; [|exact Hfirst].
        eapply notes_are_frame; [|exact Hitems]. reflexivity. }
    erewrite bind_ok by (apply handlePostUpdateActions_run; exact Hshown).
    erewrite bind_ok by (unfold lift; rewrite Hchanges; reflexivity).
    reflexivity.
  - unfold notes_are.
    erewrite stored_insert_eq; [apply parse_stringify|apply stringify_nonempty|reflexivity].
  - intros k Hk. cbn. apply lookup_insert_ne. congruence.
  - reflexivity.
  - reflexivity.
  - unfold updatedNote, editedNote, member. cbn [own_members].
    rewrite lookup_set_ne by discriminate. apply lookup_set_eq.
  - unfold updatedNote, editedNote, member. cbn [own_members]. apply lookup_set_eq.
  - split; [reflexivity|]. eexists. split; [reflexivity|].
    clear. induction changes as [|c rest IH]; constructor;
      [apply records_change_json|exact IH].
  - reflexivity.
  - intros k Hin.
    destruct (calculateNoteChanges_sharing_fields (kept updatedData) original
                (own_members updatedNote) shown Hshown) with (k := k)
      as [Hcompared Hkept]; [|exact Hin|].
    + intros k' Hk' Hshared.
      assert (Hlm : k' <> "lastModified"%string)
        by (intros ->; cbn in Hk'; intuition discriminate).
      assert (Heh : k' <> "editHistory"%string)
        by (intros ->; cbn in Hk'; intuition discriminate).
      pose proof (Hother k' Hlm Heh) as Hk. unfold member in Hk. rewrite Hk.
      unfold kept, has_key, spread in Hshared.
      destruct (lookup k' (own_members updatedData)); [discriminate|reflexivity].
    + split; [exact Hcompared|]. unfold kept, has_key, spread in Hkept. unfold member.
      destruct (lookup k (own_members updatedData)); [discriminate|discriminate].
Qed.

End EditingFacts.

Module SavingFacts.
Import JsString Json Js App BusinessLogic Spec Saving SavingSpec.
Import CollectionSpec CollectionFacts.
Import JsonFacts JsFacts MonadFacts ImportFacts DeletionFacts.
#[local] Open Scope Z_scope.

Lemma to_double_safe (z : Z) : Z.abs z < 2 ^ 53 -> to_double z = Some z.
Proof.
  intros H. unfold to_double. cbv zeta.
  destruct (Z.ltb_spec (Z.abs z) (2 ^ 53)); [reflexivity|lia].
Qed.

Lemma to_double_2_53 : to_double (2 ^ 53) = Some (2 ^ 53).
Proof. vm_compute. reflexivity. Qed.

Lemma plus_one_counter (v : value) :
  counter v -> plus_one v = Ok (JNum (count_of v + 1)).
Proof.
  intros [->|(z & -> & Hz)]; [reflexivity|]. cbn [count_of].
  unfold plus_one, or_else. cbn [truthy].
  destruct (Z.eqb_spec z 0) as [->|Hne]; [reflexivity|]. cbn [negb].
  rewrite to_double_safe by lia.
  destruct (Z.eq_dec (z + 1) (2 ^ 53)) as [Heq|Hlt].
  - rewrite Heq, to_double_2_53. reflexivity.
  - rewrite to_double_safe by lia. reflexivity.
Qed.


Lemma get_returns (k : string) (v : json) : v <> JNull -> exists x, get k v = Ok x.
Proof. destruct v; try contradiction; intros _; eexists; reflexivity. Qed.

Lemma lookup_remove_ne (k k' : string) (members : list (string * json)) :
  k <> k' -> lookup k' (remove k members) = lookup k' members.
Proof.
  intros Hne. induction members as [|[k0 v0] rest IH]; [reflexivity|]. cbn.
  destruct (String.eqb k k0) eqn:Hk.
  - apply String.eqb_eq in Hk. subst k0.
    destruct (String.eqb k' k) eqn:Hk'; [|exact IH].
    apply String.eqb_eq in Hk'. congruence.
  - cbn. destruct (String.eqb k' k0); [reflexivity|exact IH].
Qed.

Lemma lookup_assign_ne (k k' : string) (v : value) (members : list (string * json))
    (o : json) :
  k <> k' -> assign k v (JObj members) = Ok o ->
  exists members', o = JObj members' /\ lookup k' members' = lookup k' members.
Proof.
  intros Hne [= <-]. eexists. split; [reflexivity|].
  destruct v; [apply lookup_set_ne|apply lookup_remove_ne]; exact Hne.
Qed.

(** With statistics that are an object with numeric counters, the
    statistics are updated and nothing else. *)
Lemma trackNoteCreated_run (note : json) (stats : list (string * json)) (s : State) :
  stats_are s stats ->
  counter (lookup "totalNotesCreated" stats) ->
  counter (lookup "notesWithAudio" stats) ->
  note <> JNull ->
  exists stats' audio,
    get "audio" note = Ok audio
    /\ trackNoteCreated note s
       = (Ok tt,
          set_localStorage (<["app_stats" := stringify (JObj stats')]> (localStorage s)) s)
    /\ lookup "totalNotesCreated" stats'
       = Some (JNum (count_of (lookup "totalNotesCreated" stats) + 1))
    /\ lookup "notesWithAudio" stats'
       = (if truthy audio
          then Some (JNum (count_of (lookup "notesWithAudio" stats) + 1))
          else lookup "notesWithAudio" stats).
Proof.
  intros Hstats Htotal Haudio Hnote.
  pose proof (plus_one_counter _ Htotal) as Hplus.
  set (total' := JNum (count_of (lookup "totalNotesCreated" stats) + 1)) in *.
  destruct (get_returns "createdAt" note Hnote) as [createdAt HcreatedAt].
  destruct (get_returns "audio" note Hnote) as [audio Haudio'].
  set (stats1 := Js.set "totalNotesCreated" total' stats).
  set (stats2 := match createdAt with
                 | Some x => Js.set "lastNoteCreated" x stats1
                 | None => remove "lastNoteCreated" stats1
                 end).
  assert (H2total : lookup "totalNotesCreated" stats2 = Some total').
  { unfold stats2. destruct createdAt.
    - rewrite lookup_set_ne by discriminate. apply lookup_set_eq.
    - rewrite lookup_remove_ne by discriminate. apply lookup_set_eq. }
  assert (H2audio : lookup "notesWithAudio" stats2 = lookup "notesWithAudio" stats).
  { unfold stats2, stats1. destruct createdAt.
    - rewrite !lookup_set_ne by discriminate. reflexivity.
    - rewrite lookup_remove_ne by discriminate. rewrite lookup_set_ne by discriminate.
      reflexivity. }
  assert (Hprefix :
            trackNoteCreated note s
            = (let* stats3 :=
                 (if truthy audio
                  then
                    let* withAudio := lift (get "notesWithAudio" (JObj stats2)) in
                    let* withAudio' := lift (plus_one withAudio) in
                    lift (assign "notesWithAudio" (Some withAudio') (JObj stats2))
                  else ret (JObj stats2)) in
               setItem "app_stats" (stringify stats3)) s).
  { unfold trackNoteCreated.
    erewrite bind_ok by apply getItem_or_stored.
    unfold stats_are in Hstats.
    erewrite bind_ok by (unfold lift, JSON_parse; rewrite Hstats; reflexivity).
    erewrite bind_ok by reflexivity.
    erewrite bind_ok by (unfold lift; rewrite Hplus; reflexivity).
    erewrite bind_ok by reflexivity.
    erewrite bind_ok by (unfold lift; rewrite HcreatedAt; reflexivity).
    erewrite bind_ok by reflexivity.
    erewrite bind_ok by (unfold lift; rewrite Haudio'; reflexivity).
    reflexivity. }
  rewrite Hprefix. clear Hprefix.
  destruct (truthy audio) eqn:Htruthy.
  - pose proof (plus_one_counter _ Haudio) as Hw. rewrite <- H2audio in Hw at 1.
    exists (Js.set "notesWithAudio"
              (JNum (count_of (lookup "notesWithAudio" stats) + 1)) stats2), audio.
    split; [exact Haudio'|]. rewrite Htruthy. split; [|split].
    + erewrite bind_ok.
      2:{ erewrite bind_ok by reflexivity.
          erewrite bind_ok by (unfold lift; cbn [get]; rewrite Hw; reflexivity).
          reflexivity. }
      reflexivity.
    + rewrite lookup_set_ne by discriminate. exact H2total.
    + apply lookup_set_eq.
  - exists stats2, audio. split; [exact Haudio'|]. rewrite Htruthy.
    split; [reflexivity|]. split; [exact H2total|exact H2audio].
Qed.

(** X20. Saving a note, over a collection that is an array and
    statistics that are an object whose counters are missing or
    integers from 0 below 2^53: [saveNote] puts the note last in the
    persisted collection, after the notes that were there, and returns
    it with the new number of notes; the statistics count one note
    more, and one note with audio more exactly when the [audio] of the
    note is truthy; no other key of the store changes; and loading the
    note by its id afterwards gives it back, provided no earlier note
    has the id. *)
Theorem saveNote_appends (note : json) (items : list json)
    (stats : list (string * json)) (s : State) :
  notes_are s items ->
  stats_are s stats ->
  counter (lookup "totalNotesCreated" stats) ->
  counter (lookup "notesWithAudio" stats) ->
  note <> JNull ->
  exists s' stats',
    saveNote note s = (Ok (note, Z.of_nat (length items) + 1), s')
    /\ notes_are s' (items ++ [note])
    /\ stats_are s' stats'
    /\ lookup "totalNotesCreated" stats'
       = Some (JNum (count_of (lookup "totalNotesCreated" stats) + 1))
    /\ (forall audio,
          get "audio" note = Ok audio ->
          lookup "notesWithAudio" stats'
          = (if truthy audio
             then Some (JNum (count_of (lookup "notesWithAudio" stats) + 1))
             else lookup "notesWithAudio" stats))
    /\ same_but2 "notes" "app_stats" s s'
    /\ (forall noteId,
          Forall (lacks_id noteId) items -> has_id noteId note = true ->
          loadNoteForEditing noteId s' = (Ok note, s')).
Proof.
  intros Hitems Hstats Htotal Haudio Hnote.
  set (s1 := set_localStorage
               (<["notes" := stringify (JArr (items ++ [note]))]> (localStorage s)) s).
  assert (Hstats1 : stats_are s1 stats).
  { unfold stats_are.
    erewrite (stored_insert_ne "app_stats" "notes" "{}" _ s);
      [exact Hstats|discriminate|reflexivity]. }
  destruct (trackNoteCreated_run note stats s1 Hstats1 Htotal Haudio Hnote)
    as (stats' & audio & Hget & Htrack & Hlookup & Hwith).
  assert (Hnotes' : notes_are
                      (set_localStorage
                         (<["app_stats" := stringify (JObj stats')]> (localStorage s1)) s1)
                      (items ++ [note])).
  { unfold notes_are.
    erewrite (stored_insert_ne "notes" "app_stats" "[]" _ s1); [|discriminate|reflexivity].
    erewrite stored_insert_eq; [apply parse_stringify|apply stringify_nonempty|reflexivity]. }
  eexists _, stats'. split; [|split; [exact Hnotes'|split; [|split; [|split; [|split]]]]].
  - unfold saveNote, try_catch.
    erewrite bind_ok by apply getItem_or_stored.
    unfold notes_are in Hitems.
    erewrite bind_ok by (unfold lift, JSON_parse; rewrite Hitems; reflexivity).
    cbv beta iota.
    erewrite bind_ok by reflexivity.
    erewrite bind_ok by exact Htrack.
    unfold ret. rewrite length_app. cbn [length].
    replace (Z.of_nat (length items + 1)) with (Z.of_nat (length items) + 1) by lia.
    reflexivity.
  - unfold stats_are.
    erewrite stored_insert_eq; [apply parse_stringify|apply stringify_nonempty|reflexivity].
  - exact Hlookup.
  - intros audio' Hget'. rewrite Hget in Hget'. injection Hget' as <-. exact Hwith.
  - intros k Hn Ha. cbn. rewrite lookup_insert_ne by congruence.
    apply lookup_insert_ne. congruence.
  - intros noteId Hnone Hid.
    eapply loadNoteForEditing_found; [exact Hnotes'| |exact Hid].
    eapply find_by_id_first. split; [reflexivity|]. split; [exact Hnone|exact Hid].
Qed.

(** X21. A failure in the statistics comes after the note is written.
    When the statistics store holds [null] or a primitive, [saveNote]
    throws [Failed to save note: ] followed by the error, and yet the
    persisted collection holds the note as its last. *)
Theorem saveNote_fails_after_writing (note : json) (items : list json)
    (stats : json) (s : State) :
  notes_are s items ->
  parse (stored "app_stats" "{}" s) = Some stats ->
  (forall members, stats <> JObj members) ->
  (forall elements, stats <> JArr elements) ->
  exists s',
    saveNote note s = (Throw ("Failed to save note: " +:+ TypeError), s')
    /\ notes_are s' (items ++ [note]).
Proof.
  intros Hitems Hstats Hobj Harr.
  set (s1 := set_localStorage
               (<["notes" := stringify (JArr (items ++ [note]))]> (localStorage s)) s).
  assert (Htrack : trackNoteCreated note s1 = (Throw TypeError, s1)).
  { unfold trackNoteCreated.
    erewrite bind_ok by apply getItem_or_stored.
    erewrite bind_ok.
    2:{ unfold lift, JSON_parse.
        erewrite (stored_insert_ne "app_stats" "notes" "{}" _ s); [|discriminate|reflexivity].
        rewrite Hstats. reflexivity. }
    destruct stats as [| b | z | t | elements | members].
    - reflexivity.
    - erewrite bind_ok by reflexivity. erewrite bind_ok by reflexivity. reflexivity.
    - erewrite bind_ok by reflexivity.
      unfold bind at 1, lift at 1.
      destruct (plus_one None) as [x|e] eqn:Hp; [|discriminate Hp]. reflexivity.
    - erewrite bind_ok by reflexivity. erewrite bind_ok by reflexivity. reflexivity.
    - exfalso. exact (Harr elements eq_refl).
    - exfalso. exact (Hobj members eq_refl). }
  exists s1. split.
  - unfold saveNote, try_catch.
    erewrite bind_ok by apply getItem_or_stored.
    unfold notes_are in Hitems.
    erewrite bind_ok by (unfold lift, JSON_parse; rewrite Hitems; reflexivity).
    cbv beta iota.
    erewrite bind_ok by reflexivity.
    erewrite bind_throw by exact Htrack. reflexivity.
  - unfold notes_are.
    erewrite stored_insert_eq; [apply parse_stringify|apply stringify_nonempty|reflexivity].
Qed.

End SavingFacts.

Module AchievementsFacts.
Import JsString Json Js App BusinessLogic Spec Achievements AchievementsSpec.
Import Saving SavingSpec SavingFacts.
Import JsonFacts JsFacts MonadFacts ImportFacts DeletionFacts.
#[local] Open Scope Z_scope.

Lemma held_app (items more : list json) (name : string) :
  held (items ++ more) name = held items name || held more name.
Proof. apply existsb_app. Qed.

Lemma grant_run (reached : bool) (name message : string) (items : list json) (s : State) :
  grant reached name message (JArr items) s
  = (Ok (JArr (items ++ if reached && negb (held items name) then [JStr name] else [])),
     set_toasts
       (toasts s ++ if reached && negb (held items name)
                    then [{| toast_kind := "success"; toast_message := message |}]
                    else [])
       s).
Proof.
  unfold grant. destruct reached; cbn [andb].
  - erewrite bind_ok by reflexivity. fold (held items name).
    destruct (held items name); cbn [negb].
    + unfold ret. rewrite !List.app_nil_r. destruct s. reflexivity.
    + reflexivity.
  - unfold ret. rewrite !List.app_nil_r. destruct s. reflexivity.
Qed.

Lemma checkAchievements_run (stats : list (string * json)) (items : list json) (s : State) :
  stats_are s stats ->
  achievements_are s items ->
  checkAchievements s
  = (Ok tt,
     set_localStorage
       (<["achievements" := stringify (JArr (items ++ map JStr (granted stats items)))]>
          (localStorage s))
       (set_toasts (toasts s ++ map announcement (granted stats items)) s)).
Proof.
  intros Hstats Hitems. unfold checkAchievements.
  erewrite bind_ok by apply getItem_or_stored.
  unfold stats_are in Hstats.
  erewrite bind_ok by (unfold lift, JSON_parse; rewrite Hstats; reflexivity).
  erewrite bind_ok by apply getItem_or_stored.
  unfold achievements_are in Hitems.
  erewrite bind_ok by (unfold lift, JSON_parse; rewrite Hitems; reflexivity).
  erewrite bind_ok by reflexivity.
  erewrite bind_ok by apply grant_run.
  erewrite bind_ok by reflexivity.
  erewrite bind_ok by apply grant_run.
  erewrite bind_ok by reflexivity.
  erewrite bind_ok by apply grant_run.
  cbn [get]. unfold granted, reached.
  rewrite !held_app.
  destruct (strict_eq (lookup "totalNotesCreated" stats) (Some (JNum 1))),
    (strict_eq (lookup "totalNotesCreated" stats) (Some (JNum 10))),
    (strict_eq (lookup "notesWithAudio" stats) (Some (JNum 1)));
    cbn [andb app List.filter];
    destruct (held items "first_note"), (held items "ten_notes"), (held items "first_audio");
    cbn [andb orb negb app List.filter map held existsb strict_eq String.eqb Ascii.eqb
           Bool.eqb];
    cbn [toasts set_toasts]; rewrite ?List.app_nil_r, <- ?List.app_assoc; reflexivity.
Qed.


Lemma filter_none {A : Type} (f : A -> bool) (l : list A) :
  (forall x, In x l -> f x = false) -> List.filter f l = [].
Proof.
  induction l as [|x l IH]; intros H; [reflexivity|]. cbn.
  rewrite (H x) by (left; reflexivity). apply IH. intros y Hy. apply H. right. exact Hy.
Qed.

Lemma held_own (names : list string) (name : string) :
  In name names -> held (map JStr names) name = true.
Proof.
  intros Hin. unfold held. apply existsb_exists. exists (JStr name). split.
  - apply in_map. exact Hin.
  - cbn. apply String.eqb_refl.
Qed.

Lemma reached_NoDup (stats : list (string * json)) : List.NoDup (reached stats).
Proof.
  unfold reached.
  destruct (strict_eq _ (Some (JNum 1))), (strict_eq _ (Some (JNum 10))),
    (strict_eq _ (Some (JNum 1))); cbn [app];
    repeat (constructor; [cbn; intuition discriminate|]); constructor.
Qed.

(** Nothing is left to grant once the granted achievements are held. *)
Lemma granted_again (stats : list (string * json)) (items : list json) :
  granted stats (items ++ map JStr (granted stats items)) = [].
Proof.
  unfold granted at 1. apply filter_none. intros name Hin.
  rewrite held_app. apply negb_false_iff.
  destruct (held items name) eqn:Hheld; [reflexivity|]. cbn [orb].
  apply held_own. unfold granted. apply filter_In. split; [exact Hin|].
  rewrite Hheld. reflexivity.
Qed.

(** X22. [checkAchievements] grants each achievement once. Over
    statistics that are an object and achievements that are an array,
    it adds to the achievements, after those that were there, the
    achievements that the statistics have reached ([first_note] at one
    note created, [ten_notes] at ten, [first_audio] at one note with
    audio) and that the array did not hold, each once, with one toast
    for each; and a second run on the same statistics grants nothing
    and shows no toast. *)
Theorem checkAchievements_grants_once (stats : list (string * json)) (items : list json)
    (s : State) :
  stats_are s stats ->
  achievements_are s items ->
  exists s',
    checkAchievements s = (Ok tt, s')
    /\ achievements_are s' (items ++ map JStr (granted stats items))
    /\ toasts s' = toasts s ++ map announcement (granted stats items)
    /\ (forall name,
          In name (granted stats items)
          <-> In name (reached stats) /\ held items name = false)
    /\ List.NoDup (granted stats items)
    /\ exists s'',
         checkAchievements s' = (Ok tt, s'')
         /\ localStorage s'' = localStorage s'
         /\ toasts s'' = toasts s'.
Proof.
  intros Hstats Hitems. eexists. split; [apply checkAchievements_run; eassumption|].
  match goal with |- achievements_are ?x _ /\ _ => set (s' := x) end.
  assert (Hitems' : achievements_are s' (items ++ map JStr (granted stats items))).
  { unfold achievements_are.
    erewrite stored_insert_eq; [apply parse_stringify|apply stringify_nonempty|reflexivity]. }
  assert (Hstats' : stats_are s' stats).
  { unfold stats_are.
    erewrite (stored_insert_ne "app_stats" "achievements" "{}" _ s);
      [exact Hstats|discriminate|reflexivity]. }
  split; [exact Hitems'|]. split; [reflexivity|]. split; [|split].
  - intros name. unfold granted. rewrite filter_In, negb_true_iff. reflexivity.
  - unfold granted. apply List.NoDup_filter. apply reached_NoDup.
  - eexists. split; [apply checkAchievements_run; eassumption|].
    rewrite granted_again. cbn [map]. rewrite !List.app_nil_r. split; [|reflexivity].
    unfold s'. cbn [localStorage set_localStorage set_toasts].
    apply insert_insert_eq.
Qed.

End AchievementsFacts.

Module BackupsFacts.
Import JsString Json Js App BusinessLogic Backups.
Import BackupsSpec.

(** *** The order of the keys *)

Lemma ascii_compare_N (a b : ascii) : Ascii.compare a b = N.compare (N_of_ascii a) (N_of_ascii b).
Proof. reflexivity. Qed.

Lemma ascii_compare_refl (a : ascii) : Ascii.compare a a = Eq.
Proof. rewrite ascii_compare_N. apply N.compare_refl. Qed.

Lemma compare_lt_trans (a : string) :
  forall b c, String.compare a b = Lt -> String.compare b c = Lt -> String.compare a c = Lt.
Proof.
  induction a as [|x a IH]; intros [|y b] [|z c]; cbn; try discriminate; try reflexivity.
  destruct (Ascii.compare x y) eqn:Hxy; try discriminate.
  - apply Ascii.compare_eq_iff in Hxy. subst y.
    destruct (Ascii.compare x z); try discriminate; [apply IH|reflexivity].
  - intros _. destruct (Ascii.compare y z) eqn:Hyz; try discriminate.
    + apply Ascii.compare_eq_iff in Hyz. subst z. rewrite Hxy. reflexivity.
    + intros _. pose proof (ascii_compare_N x y) as Exy. rewrite Hxy in Exy.
      pose proof (ascii_compare_N y z) as Eyz. rewrite Hyz in Eyz.
      symmetry in Exy, Eyz. apply N.compare_lt_iff in Exy. apply N.compare_lt_iff in Eyz.
      assert (H : (N_of_ascii x < N_of_ascii z)%N) by (eapply N.lt_trans; eassumption).
      apply N.compare_lt_iff in H. rewrite ascii_compare_N, H. reflexivity.
Qed.

Lemma compare_refl (a : string) : String.compare a a = Eq.
Proof. induction a as [|x a IH]; [reflexivity|]. cbn. rewrite ascii_compare_refl. exact IH. Qed.

Lemma leb_cases (a b : string) : String.leb a b = true <-> a = b \/ String.ltb a b = true.
Proof.
  unfold String.leb, String.ltb. destruct (String.compare a b) eqn:H.
  - apply String.compare_eq_iff in H. intuition.
  - intuition.
  - split; [discriminate|]. intros [->|?]; [|discriminate].
    rewrite compare_refl in H. discriminate.
Qed.

Lemma ltb_trans (a b c : string) :
  String.ltb a b = true -> String.ltb b c = true -> String.ltb a c = true.
Proof.
  unfold String.ltb. intros Hab Hbc.
  destruct (String.compare a b) eqn:H1; try discriminate.
  destruct (String.compare b c) eqn:H2; try discriminate.
  rewrite (compare_lt_trans a b c H1 H2). reflexivity.
Qed.

Lemma leb_trans (a b c : string) :
  String.leb a b = true -> String.leb b c = true -> String.leb a c = true.
Proof.
  rewrite !leb_cases. intros [->|Hab] [->|Hbc]; auto.
  right. eapply ltb_trans; eassumption.
Qed.

Lemma leb_false (a b : string) : String.leb a b = false -> String.leb b a = true.
Proof. intros H. destruct (String.leb_total a b) as [H'|H']; [congruence|exact H']. Qed.

(** *** Sorting *)

Lemma insert_key_perm (k : string) (l : list string) : Permutation (k :: l) (insert_key k l).
Proof.
  induction l as [|x l IH]; [constructor; constructor|]. cbn.
  destruct (String.leb k x); [apply Permutation_refl|].
  eapply perm_trans; [apply perm_swap|]. constructor. exact IH.
Qed.

Lemma sort_perm (l : list string) : Permutation l (sort l).
Proof.
  induction l as [|k l IH]; [constructor|]. cbn.
  eapply perm_trans; [|apply insert_key_perm]. constructor. exact IH.
Qed.

Lemma insert_key_ordered (k : string) (l : list string) : ordered l -> ordered (insert_key k l).
Proof.
  unfold ordered. induction 1 as [|x l Hl IH Hx]; cbn.
  - constructor; constructor.
  - destruct (String.leb k x) eqn:Hk.
    + constructor; [constructor; assumption|]. constructor; [exact Hk|].
      eapply List.Forall_impl; [|exact Hx]. intros y Hy. eapply leb_trans; eassumption.
    + constructor; [exact IH|].
      eapply Permutation_Forall; [apply insert_key_perm|].
      constructor; [apply leb_false; exact Hk|exact Hx].
Qed.

Lemma sort_ordered (l : list string) : ordered (sort l).
Proof.
  induction l as [|k l IH]; [constructor|]. cbn. apply insert_key_ordered. exact IH.
Qed.

Lemma in_skipn {A : Type} (x : A) (n : nat) (l : list A) : In x (skipn n l) -> In x l.
Proof. intros H. rewrite <- (firstn_skipn n l). apply in_or_app. right. exact H. Qed.

Lemma in_firstn {A : Type} (x : A) (n : nat) (l : list A) : In x (firstn n l) -> In x l.
Proof. intros H. rewrite <- (firstn_skipn n l). apply in_or_app. left. exact H. Qed.

Lemma ordered_split (l : list string) (n : nat) :
  ordered l ->
  forall a b, In a (firstn n l) -> In b (skipn n l) -> String.leb a b = true.
Proof.
  unfold ordered. intros H. revert n. induction H as [|x l Hl IH Hx]; intros n a b Ha Hb.
  - rewrite firstn_nil in Ha. contradiction.
  - destruct n as [|n]; [contradiction|]. cbn in Ha, Hb. destruct Ha as [<-|Ha].
    + rewrite List.Forall_forall in Hx. apply Hx. eapply in_skipn. exact Hb.
    + eapply IH; eassumption.
Qed.

(** *** The store *)

Lemma backup_keys_NoDup (store : gmap string string) : List.NoDup (backup_keys store).
Proof.
  unfold backup_keys. apply List.NoDup_filter. apply NoDup_ListNoDup.
  apply NoDup_fst_map_to_list.
Qed.

Lemma lookup_fold_delete_out (keys : list string) :
  forall (store : gmap string string) (k : string),
    ~ In k keys ->
    fold_left (fun store key => delete key store) keys store !! k = store !! k.
Proof.
  induction keys as [|x keys IH]; intros store k Hk; [reflexivity|]. cbn [fold_left].
  rewrite IH by (intros H; apply Hk; right; exact H).
  apply lookup_delete_ne. intros ->. apply Hk. left. reflexivity.
Qed.

Lemma lookup_fold_delete_none (keys : list string) :
  forall (store : gmap string string) (k : string),
    store !! k = None ->
    fold_left (fun store key => delete key store) keys store !! k = None.
Proof.
  induction keys as [|x keys IH]; intros store k Hk; [exact Hk|]. cbn [fold_left].
  apply IH. destruct (decide (x = k)) as [->|Hne].
  - apply lookup_delete_eq.
  - rewrite lookup_delete_ne by exact Hne. exact Hk.
Qed.

Lemma lookup_fold_delete_in (keys : list string) :
  forall (store : gmap string string) (k : string),
    In k keys ->
    fold_left (fun store key => delete key store) keys store !! k = None.
Proof.
  induction keys as [|x keys IH]; intros store k Hk; [contradiction|]. cbn [fold_left].
  destruct (decide (x = k)) as [->|Hne].
  - apply lookup_fold_delete_none. apply lookup_delete_eq.
  - destruct Hk as [H|H]; [contradiction|]. apply IH. exact H.
Qed.

Lemma NoDup_apart {A : Type} (l1 l2 : list A) (x : A) :
  List.NoDup (l1 ++ l2) -> In x l1 -> In x l2 -> False.
Proof.
  induction l1 as [|y l1 IH]; intros Hnd H1 H2; [contradiction|].
  inversion Hnd as [|? ? Hnotin Hrest]. subst. destruct H1 as [->|H1].
  - apply Hnotin. apply in_or_app. right. exact H2.
  - exact (IH Hrest H1 H2).
Qed.

Lemma in_backup_keys (store : gmap string string) (k : string) :
  In k (backup_keys store)
  <-> startsWith "auto_backup_" k = true /\ exists v, store !! k = Some v.
Proof.
  unfold backup_keys. rewrite filter_In, in_map_iff. split.
  - intros [([k' v] & <- & Hin) Hp]. split; [exact Hp|]. exists v.
    apply elem_of_map_to_list. apply list_elem_of_In. exact Hin.
  - intros [Hp [v Hv]]. split; [|exact Hp]. exists (k, v). split; [reflexivity|].
    apply list_elem_of_In. apply elem_of_map_to_list. exact Hv.
Qed.

(** X23. [cleanOldBackups] keeps the last five automatic backups. The
    keys of the store that begin with [auto_backup_] are split in two:
    the keys it removes and at most five keys it keeps, exactly five
    when there were five or more, and every key it keeps comes after
    every key it removes in the order of their code units; the removed
    keys are no longer in the store, every other key, of a backup or
    not, holds what it held, and the automatic backups left in the store
    are the kept ones. *)
Theorem cleanOldBackups_keeps_last_5 (s : State) :
  exists s' removed kept,
    cleanOldBackups s = (Ok tt, s')
    /\ Permutation (backup_keys (localStorage s)) (removed ++ kept)
    /\ length kept = Nat.min 5 (length (backup_keys (localStorage s)))
    /\ (forall k, In k removed -> localStorage s' !! k = None)
    /\ (forall k, ~ In k removed -> localStorage s' !! k = localStorage s !! k)
    /\ (forall r k, In r removed -> In k kept -> String.ltb r k = true)
    /\ Permutation (backup_keys (localStorage s')) kept.
Proof.
  set (keys := backup_keys (localStorage s)).
  set (removed := old_backups (localStorage s)).
  set (kept := if (5 <? length keys)%nat then skipn (length keys - 5) (sort keys) else keys).
  set (store' := fold_left (fun store key => delete key store) removed (localStorage s)).
  assert (Hlen : length (sort keys) = length keys).
  { symmetry. apply Permutation_length. apply sort_perm. }
  assert (Hperm : Permutation keys (removed ++ kept)).
  { unfold removed, kept, old_backups. fold keys.
    destruct (5 <? length keys)%nat; [|apply Permutation_refl].
    rewrite firstn_skipn. apply sort_perm. }
  assert (Hnodup : List.NoDup (removed ++ kept)).
  { eapply Permutation_NoDup; [exact Hperm|]. apply backup_keys_NoDup. }
  assert (Hin : forall k, In k removed -> store' !! k = None).
  { intros k Hk. apply lookup_fold_delete_in. exact Hk. }
  assert (Hout : forall k, ~ In k removed -> store' !! k = localStorage s !! k).
  { intros k Hk. apply lookup_fold_delete_out. exact Hk. }
  exists (set_localStorage store' s), removed, kept.
  split; [reflexivity|]. cbn [localStorage set_localStorage].
  split; [exact Hperm|]. split; [|split; [exact Hin|split; [exact Hout|split]]].
  - unfold kept. destruct (Nat.ltb_spec 5 (length keys)) as [Hmany|Hfew].
    + rewrite length_skipn, Hlen. lia.
    + lia.
  - intros r k Hr Hk. unfold removed, kept, old_backups in Hr, Hk. fold keys in Hr, Hk.
    destruct (5 <? length keys)%nat; [|contradiction].
    pose proof (ordered_split (sort keys) (length keys - 5) (sort_ordered keys) r k Hr Hk)
      as Hle.
    apply leb_cases in Hle. destruct Hle as [->|Hlt]; [|exact Hlt].
    exfalso. eapply (NoDup_apart (firstn (length keys - 5) (sort keys))
                       (skipn (length keys - 5) (sort keys)) k); [|exact Hr|exact Hk].
    rewrite firstn_skipn. eapply Permutation_NoDup; [apply sort_perm|].
    apply backup_keys_NoDup.
  - apply Permutation.NoDup_Permutation.
    + apply backup_keys_NoDup.
    + apply NoDup_app_remove_l in Hnodup. exact Hnodup.
    + intros k. rewrite in_backup_keys. split.
      * intros [Hp [v Hv]].
        assert (Hnot : ~ In k removed).
        { intros Hk. rewrite (Hin k Hk) in Hv. discriminate. }
        rewrite (Hout k Hnot) in Hv.
        assert (Hk : In k keys) by (apply in_backup_keys; eauto).
        eapply Permutation_in in Hk; [|exact Hperm].
        apply in_app_or in Hk. destruct Hk as [Hk|Hk]; [contradiction|exact Hk].
      * intros Hk.
        assert (Hnot : ~ In k removed).
        { intros Hr. exact (NoDup_apart removed kept k Hnodup Hr Hk). }
        assert (Hkeys : In k keys).
        { eapply Permutation_in; [apply Permutation_sym; exact Hperm|].
          apply in_or_app. right. exact Hk. }
        apply in_backup_keys in Hkeys. destruct Hkeys as [Hp [v Hv]].
        split; [exact Hp|]. exists v. rewrite (Hout k Hnot). exact Hv.
Qed.

End BackupsFacts.

Module ExportPreparationFacts.
Import JsString Json Js App BusinessLogic Spec ExportPreparation ExportPreparationSpec.
Import JsonFacts JsFacts MonadFacts ImportFacts.

Lemma filter_selected_filter (noteIds : list json) (notes : list json) :
  Forall (fun n => n <> JNull) notes ->
  filter_selected noteIds notes = Ok (List.filter (has_one_of noteIds) notes).
Proof.
  induction 1 as [|note rest Hnote _ IH]; [reflexivity|].
  cbn [filter_selected List.filter]. rewrite IH. unfold selected, has_one_of, has_id.
  destruct note; try contradiction; reflexivity.
Qed.

Lemma member_without_audio (note : json) (k : string) :
  member k (without_audio note)
  = if String.eqb k "audio" then Some JNull else member k note.
Proof.
  unfold member, without_audio, spread. cbn [own_members].
  destruct (String.eqb k "audio") eqn:Hk.
  - apply String.eqb_eq in Hk. subst k. apply lookup_set_eq.
  - apply String.eqb_neq in Hk. apply lookup_set_ne. congruence.
Qed.

(** X24. [prepareExportData] with a list of ids, over a persisted
    collection that is an array without [null]: the notes of the export
    data are the notes of the collection that have one of the ids, in
    the order of the collection; when the audio is not to be included
    each of them is a copy whose [audio] is [null] and whose other
    members are those of the note; the categories are added when asked
    for; and the state, so the store, is as before. *)
Theorem prepareExportData_selects (E : Env) (templates : json) (ids items : list json)
    (includeAudio includeCategories : value) (s : State) :
  notes_are s items ->
  Forall (fun n => n <> JNull) items ->
  exists exported,
    prepareExportData E templates (Some (JArr ids)) includeAudio includeCategories None s
    = (Ok (JObj ([("notes", JArr exported)]
                   ++ (if truthy includeCategories
                       then [("categories", JArr (categories E))] else []))),
       s)
    /\ exported
       = map (fun note => if truthy includeAudio then note else without_audio note)
           (List.filter (has_one_of ids) items)
    /\ Forall (fun note =>
                 exists original,
                   In original items /\ has_one_of ids original = true
                   /\ forall k, k <> "audio" -> member k note = member k original) exported
    /\ (truthy includeAudio = false ->
        Forall (fun note => member "audio" note = Some JNull) exported).
Proof.
  intros Hitems Hnonnull.
  eexists. split; [|split; [reflexivity|split]].
  - unfold prepareExportData.
    erewrite bind_ok by apply getItem_or_stored.
    unfold notes_are in Hitems.
    erewrite bind_ok by (unfold lift, JSON_parse; rewrite Hitems; reflexivity).
    erewrite bind_ok.
    2:{ unfold lift. rewrite (filter_selected_filter ids items Hnonnull). reflexivity. }
    destruct (truthy includeAudio); cbn [negb].
    + erewrite bind_ok by reflexivity.
      unfold ret. cbn [truthy app]. rewrite List.app_nil_r, List.map_id. reflexivity.
    + erewrite bind_ok by reflexivity.
      unfold ret. cbn [truthy app]. rewrite List.app_nil_r. reflexivity.
  - apply List.Forall_forall. intros note Hin. apply in_map_iff in Hin.
    destruct Hin as (original & <- & Hin). apply filter_In in Hin. destruct Hin as [Hin Hsel].
    exists original. split; [exact Hin|]. split; [exact Hsel|].
    intros k Hk. destruct (truthy includeAudio); [reflexivity|].
    rewrite member_without_audio.
    destruct (String.eqb k "audio") eqn:H; [|reflexivity].
    apply String.eqb_eq in H. contradiction.
  - intros Haudio. rewrite Haudio. apply List.Forall_forall. intros note Hin.
    apply in_map_iff in Hin. destruct Hin as (original & <- & _).
    rewrite member_without_audio. reflexivity.
Qed.

End ExportPreparationFacts.

Module CreationFacts.
Import JsString Json Js App BusinessLogic Spec Editing Creation.
Import ValidationSpec ValidationFacts AcceptanceFacts.
Import JsonFacts JsFacts MonadFacts ImportFacts.
#[local] Open Scope Z_scope.

Lemma plain_store_frame (s s' : State) :
  localStorage s' = localStorage s -> plain_store s -> plain_store s'.
Proof.
  intros Hs (items & Hitems & Hall). exists items. split; [|exact Hall].
  unfold notes_are, stored in *. rewrite Hs. exact Hitems.
Qed.

(** X25. The data of a new note made without a template never passes
    the validation. [handleNoteCreation] with no template and a category
    builds a note titled [New Note] with the empty text as content and
    no tags, reading the clock three times; over plain categories and a
    plain store [validateNoteData] returns on it, and always with
    [isValid] false, [Content is required] among the errors and the
    empty content among the business rule violations. *)
Theorem creation_without_template_is_refused (E : Env) (template : value) (category : json)
    (s : State) :
  truthy template = false ->
  category <> JNull ->
  exists note,
    handleNoteCreation E template (Some category) s = (Ok (JObj note), advance 3 1 s)
    /\ lookup "title" note = Some (JStr "New Note")
    /\ lookup "content" note = Some (JStr "")
    /\ lookup "tags" note = Some (JArr [])
    /\ (plain_categories E -> plain_store s ->
        exists v, validateNoteData E (JObj note) (advance 3 1 s) = (Ok v, advance 4 1 s))
    /\ (forall v s',
          validateNoteData E (JObj note) (advance 3 1 s) = (Ok v, s') ->
          isValid v = false
          /\ In "Content is required"%string (errors v)
          /\ In "Empty content not allowed by business rules"%string
               (businessRuleViolations v)).
Proof.
  intros Htemplate Hcategory.
  assert (Hid : exists categoryId, get "id" category = Ok categoryId).
  { destruct category; try contradiction; eexists; reflexivity. }
  destruct Hid as [categoryId Hid].
  assert (Htitle : from_template template "title" (JStr "New Note") = Ok (Some (JStr "New Note"))).
  { unfold from_template. destruct template; [rewrite Htemplate|]; reflexivity. }
  assert (Hcontent : from_template template "content" (JStr "") = Ok (Some (JStr ""))).
  { unfold from_template. destruct template; [rewrite Htemplate|]; reflexivity. }
  assert (Htid : from_template template "id" JNull = Ok (Some JNull)).
  { unfold from_template. destruct template; [rewrite Htemplate|]; reflexivity. }
  eexists. split.
  { unfold handleNoteCreation.
    erewrite bind_ok by reflexivity.
    erewrite bind_ok by (unfold lift; rewrite Htitle; reflexivity).
    erewrite bind_ok by (unfold lift; rewrite Hcontent; reflexivity).
    erewrite bind_ok by (unfold lift; rewrite Hid; reflexivity).
    erewrite bind_ok.
    2:{ unfold lift. destruct template; [rewrite Htemplate|]; reflexivity. }
    erewrite bind_ok by (unfold lift; rewrite Htid; reflexivity).
    erewrite bind_ok by reflexivity.
    erewrite bind_ok by reflexivity.
    reflexivity. }
  match goal with |- lookup "title" ?m = _ /\ _ =>
    assert (Htitle' : lookup "title" m = Some (JStr "New Note"))
      by (destruct categoryId; reflexivity);
    assert (Hcontent' : lookup "content" m = Some (JStr ""))
      by (destruct categoryId; reflexivity);
    assert (Htags' : lookup "tags" m = Some (JArr []))
      by (destruct categoryId; reflexivity)
  end.
  split; [exact Htitle'|]. split; [exact Hcontent'|]. split; [exact Htags'|]. split.
  - intros Hcats Hstore.
    match goal with |- exists v, validateNoteData E (JObj ?m) _ = _ =>
      destruct (validateNoteData_returns E m (advance 3 1 s)) as [v Hv]
    end.
    + split; [right; eexists; exact Htitle'|]. split; [right; eexists; exact Hcontent'|].
      right. eexists. split; [exact Htags'|]. constructor.
    + exact Hcats.
    + eapply plain_store_frame; [|exact Hstore]. reflexivity.
    + exists v. rewrite Hv. reflexivity.
  - intros v s' Hrun.
    destruct (blank_content_refused E _ _ _ _ Hrun) as (Herr & Hviol & Hvalid).
    { rewrite Hcontent'. reflexivity. }
    split; [exact Hvalid|]. split; assumption.
Qed.

End CreationFacts.

Module IdFacts.
Import JsString Json Js App BusinessLogic Spec.
Import JsonFacts JsFacts MonadFacts ImportFacts.

Lemma chars_append (a b : string) : chars (a +:+ b) = chars a ++ chars b.
Proof.
  induction a as [|c a IH]; [reflexivity|].
  change (String c a +:+ b) with (String c (a +:+ b)). cbn. f_equal. exact IH.
Qed.

Lemma chars_inj (a b : string) : chars a = chars b -> a = b.
Proof.
  intros H. rewrite <- (string_of_list_ascii_of_string a), <- (string_of_list_ascii_of_string b).
  f_equal. exact H.
Qed.

(** The time and the suffix can be read back from an id. *)
Lemma note_id_inj (t1 t2 : Z) (r1 r2 : string) :
  "note_" +:+ of_Z t1 +:+ "_" +:+ r1 = "note_" +:+ of_Z t2 +:+ "_" +:+ r2 ->
  t1 = t2 /\ r1 = r2.
Proof.
  intros H. apply (f_equal chars) in H. rewrite !chars_append in H.
  apply List.app_inv_head in H.
  assert (Hp : forall t r,
             parse_number (chars (of_Z t) ++ chars "_" ++ chars r)
             = Some (JNum t, chars "_" ++ chars r)).
  { intros t r. apply (parse_number_print t). reflexivity. }
  pose proof (Hp t1 r1) as H1. rewrite H, Hp in H1. injection H1 as Ht Hr.
  split; [congruence|]. apply chars_inj. congruence.
Qed.

(** X26. Two ids that [generateNoteId] makes are the same only when
    they were made in the same millisecond with the same random suffix:
    the time and the suffix can be read back from the id, which begins
    with [note_]. *)
Theorem generateNoteId_injective (E : Env) (s1 s2 s1' s2' : State) (id1 id2 : string) :
  generateNoteId E s1 = (Ok id1, s1') ->
  generateNoteId E s2 = (Ok id2, s2') ->
  startsWith "note_" id1 = true
  /\ (id1 = id2
      <-> clock E (clock_reads s1) = clock E (clock_reads s2)
          /\ random E (random_reads s1) = random E (random_reads s2)).
Proof.
  unfold generateNoteId, bind, ret, Date_now, Math_random_suffix.
  intros [= <- _] [= <- _]. split; [reflexivity|]. split.
  - apply note_id_inj.
  - intros [-> Hr]. cbn [random_reads set_clock_reads] in *. rewrite Hr. reflexivity.
Qed.

End IdFacts.

Module ErrorStrategyFacts.
Import JsString Json Js ErrorStrategy.
#[local] Open Scope Z_scope.

(** X27. Whatever the error and the options, a strategy that
    [getHandlingStrategy] returns shows a modal exactly when its type is
    [MODAL], and its type is one of [TOAST], [MODAL], [INLINE] and
    [OFFLINE_BANNER]; it retries by itself exactly for an error of
    category [NETWORK] whose operation was retried fewer than 3 times,
    and then after 1000 ms doubled for every earlier retry, so 1000,
    2000 or 4000 ms; and for an error of category [VALIDATION] it never
    allows a retry. *)
Theorem getHandlingStrategy_invariants (onLine : value) (getRetryCount : value -> nat)
    (error : json) (options : value) (strategy : Strategy) :
  getHandlingStrategy onLine getRetryCount error options = Ok strategy ->
  (showModal strategy = true <-> strategy_type strategy = "MODAL"%string)
  /\ In (strategy_type strategy) ["TOAST"; "MODAL"; "INLINE"; "OFFLINE_BANNER"]%string
  /\ (exists category context operation,
        get "category" error = Ok category
        /\ get "context" error = Ok context
        /\ optional_get context "operation" = Ok operation
        /\ (autoRetry strategy = true
            <-> strict_eq category (Some (JStr "NETWORK")) = true
                /\ (getRetryCount operation < 3)%nat)
        /\ retryDelay strategy
           = (if autoRetry strategy
              then Some (1000 * 2 ^ Z.of_nat (getRetryCount operation))
              else None)
        /\ (category = Some (JStr "VALIDATION") ->
            allowRetry strategy = Some (JBool false)))
  /\ (autoRetry strategy = true ->
      In (retryDelay strategy) [Some 1000; Some 2000; Some 4000]).
Proof.
  unfold getHandlingStrategy. intros H.
  destruct (get "category" error) as [category|?] eqn:Hcategory; [|discriminate].
  cbn [rbind] in H.
  destruct (to_string_value category) as [key|?] eqn:Hkey; [|discriminate].
  cbn [rbind] in H.
  match type of H with (let? _ := ?x in _) = _ =>
    destruct x as [retry|?] eqn:Hretry; [|discriminate] end.
  cbn [rbind] in H.
  match type of H with (let? _ := ?x in _) = _ => destruct x as [details|?]; [|discriminate] end.
  cbn [rbind] in H.
  match type of H with (let? _ := ?x in _) = _ => destruct x as [quiet|?]; [|discriminate] end.
  cbn [rbind] in H. cbv zeta in H.
  match type of H with (let? _ := ?x in _) = _ => destruct x as [severity|?]; [|discriminate] end.
  cbn [rbind] in H.
  destruct (get "context" error) as [context|?] eqn:Hcontext; [|discriminate].
  cbn [rbind] in H.
  match type of H with (let? _ := ?x in _) = _ => destruct x as [critical|?]; [|discriminate] end.
  cbn [rbind] in H.
  assert (Hvalidation : category = Some (JStr "VALIDATION") -> retry = Some (JBool false)).
  { intros ->. cbn in Hkey. injection Hkey as <-.
    change (category_retryable "VALIDATION") with (Some (JBool false)) in Hretry.
    congruence. }
  match type of H with (let? _ := ?x in _) = _ =>
    destruct x as [early|?] eqn:Hearly; [|discriminate] end.
  cbn [rbind] in H.
  assert (Hshape : (showModal early = true <-> strategy_type early = "MODAL"%string)
                   /\ In (strategy_type early) ["TOAST"; "MODAL"; "INLINE"; "OFFLINE_BANNER"]%string
                   /\ autoRetry early = false /\ retryDelay early = None
                   /\ (category = Some (JStr "VALIDATION") ->
                       allowRetry early = Some (JBool false))).
  { destruct (strict_eq severity (Some (JStr "critical")) || truthy critical).
    { injection Hearly as <-. cbn. intuition (try discriminate; auto). }
    destruct (strict_eq category (Some (JStr "VALIDATION"))) eqn:Hv.
    { injection Hearly as <-. cbn. intuition (try discriminate; auto). }
    assert (Hnot : category <> Some (JStr "VALIDATION")).
    { intros ->. cbn in Hv. discriminate. }
    destruct (strict_eq category (Some (JStr "NETWORK")) && strict_eq onLine (Some (JBool false))).
    { injection Hearly as <-. cbn. intuition (try discriminate; auto). }
    match type of Hearly with (let? _ := ?x in _) = _ =>
      destruct x as [userInitiated|?]; [|discriminate] end.
    cbn [rbind] in Hearly.
    destruct (truthy userInitiated); injection Hearly as <-; cbn;
      intuition (try discriminate; auto). }
  destruct Hshape as (Hmodal & Htype & Hauto & Hdelay & Hallow).
  destruct (strict_eq category (Some (JStr "NETWORK"))) eqn:Hnetwork.
  - match type of H with (let? _ := ?x in _) = _ =>
      destruct x as [operation|?] eqn:Hoperation; [|discriminate] end.
    cbn [rbind] in H. cbv zeta in H. unfold maxRetries in H.
    destruct (Z.ltb_spec (Z.of_nat (getRetryCount operation)) 3) as [Hlt|Hge];
      injection H as <-; cbn [showModal strategy_type autoRetry retryDelay allowRetry].
    + split; [exact Hmodal|]. split; [exact Htype|]. split.
      * exists category, context, operation.
        split; [reflexivity|]. split; [reflexivity|]. split; [exact Hoperation|].
        split; [|split].
        -- split; [intros _; split; [exact Hnetwork|lia]|reflexivity].
        -- f_equal. lia.
        -- exact Hallow.
      * intros _.
        assert (Hn : getRetryCount operation = 0%nat \/ getRetryCount operation = 1%nat
                     \/ getRetryCount operation = 2%nat) by lia.
        destruct Hn as [-> | [-> | ->] ]; cbn; auto.
    + split; [exact Hmodal|]. split; [exact Htype|]. split.
      * exists category, context, operation. rewrite Hauto, Hdelay.
        split; [reflexivity|]. split; [reflexivity|]. split; [exact Hoperation|].
        split; [|split].
        -- split; [discriminate|intros [_ Hc]; lia].
        -- reflexivity.
        -- exact Hallow.
      * rewrite Hauto. discriminate.
  - injection H as <-. split; [exact Hmodal|]. split; [exact Htype|]. split.
    + assert (Hop : exists operation, optional_get context "operation" = Ok operation).
      { unfold optional_get. destruct context as [[]|]; eexists; reflexivity. }
      destruct Hop as [operation Hop].
      exists category, context, operation. rewrite Hauto, Hdelay.
      split; [reflexivity|]. split; [reflexivity|]. split; [exact Hop|].
      split; [|split].
      * split; [discriminate|intros [Hc _]; congruence].
      * reflexivity.
      * exact Hallow.
    + rewrite Hauto. discriminate.
Qed.

End ErrorStrategyFacts.

(** ** Examples of the runs *)

Module Witnesses.
Import JsString Json Js App DataManager BusinessLogic Spec Samples.
Import JsonFacts JsFacts MonadFacts ImportFacts DeletionFacts.

Lemma performDataImport_imports_all_witness :
  exists (s' : State) (copies : list json),
    performDataImport (env_at 1700000000000 true)
      (JObj [("notes", JArr [note_now; JNull; JStr "ab"])]) default_options
      (state_with no_store)
    = (Ok {| imported := 3; skipped := 0; import_errors := [] |}, s')
    /\ notes_are s' ([] ++ copies)
    /\ length copies = 3%nat
    /\ (forall i note,
          nth_error [note_now; JNull; JStr "ab"] i = Some note ->
          exists copy,
            nth_error copies i = Some copy
            /\ appended_for (env_at 1700000000000 true) (0 + 3 * i) (0 + i) note copy).
Proof.
  apply (performDataImport_imports_all (env_at 1700000000000 true)
           [("notes", JArr [note_now; JNull; JStr "ab"])] [note_now; JNull; JStr "ab"] []
           default_options (state_with no_store)).
  - reflexivity.
  - vm_compute. reflexivity.
Defined.

(** C10 as stated fails: over a store whose notes are an object, [push]
    throws for every note, so the error branch is taken and nothing is
    imported. *)
Lemma import_error_branch_reached :
  ~ imports_all_as_stated (env_at 1700000000000 true) [note_now; note_now] default_options
      (state_with object_store).
Proof.
  intros [s' Hrun]. vm_compute in Hrun. discriminate Hrun.
Qed.

Lemma export_import_roundtrip_witness :
  exists (text : string) (s1 : State) (doc : json) (s2 : State) (copies : list json),
    exportData (env_at 1700000000000 true) [note_now] "json" (state_with no_store)
    = (Ok text, s1)
    /\ parse text = Some doc
    /\ performDataImport (env_at 1700000000000 true) doc default_options s1
       = (Ok {| imported := 1; skipped := 0; import_errors := [] |}, s2)
    /\ notes_are s2 ([] ++ copies)
    /\ length copies = 1%nat
    /\ copies_of (env_at 1700000000000 true) 1 0 [note_now] copies.
Proof.
  apply (export_import_roundtrip (env_at 1700000000000 true) [note_now] []
           default_options (state_with no_store)).
  vm_compute. reflexivity.
Defined.

(** C1 as stated fails: a note written in the millisecond of the import
    comes back with the same createdAt (and lastModified) as the original. *)
Lemma roundtrip_timestamps_can_repeat :
  ~ roundtrip_as_stated (env_at 1700000000000 true) [note_now] [] default_options
      (state_with no_store).
Proof.
  intros H.
  assert (Hstore : notes_are (state_with no_store) []) by (vm_compute; reflexivity).
  destruct (H Hstore) as (text & s1 & doc & s2 & copies & He & Hp & Hi & Hs & _ & HF).
  rewrite exportData_json_run in He. injection He as <- <-.
  rewrite parse_stringify2 in Hp. injection Hp as <-.
  unfold exportDocument in Hi.
  erewrite performDataImport_run in Hi; [|reflexivity|exact Hstore].
  injection Hi as <-.
  unfold notes_are in Hs. rewrite stored_set_localStorage in Hs by apply stringify_nonempty.
  rewrite parse_stringify in Hs. injection Hs as Hs. cbn [app imports] in Hs. subst copies.
  inversion HF as [|? ? ? ? [_ (_ & Hc & _)] _]. apply Hc. vm_compute. reflexivity.
Qed.


Lemma deletion_declined_witness :
  let E := env_at 1700000000000 false in
  let s := state_with one_note_store in
  let run := startNoteDeletionWorkflow E (JStr "note_1700000000000_a1b2c3d4e") s in
  fst run = Ok (DeletionCancelled "User cancelled deletion")
  /\ localStorage (snd run) = localStorage s
  /\ currentWorkflow (snd run) = None
  /\ exists w,
       workflowHistory (snd run) = keep_last_50 (workflowHistory s ++ [w])
       /\ wf_type w = "note_deletion"
       /\ wf_status w = Some "cancelled"
       /\ wf_error w = None.
Proof.
  intros E s run.
  apply (deletion_declined E (JStr "note_1700000000000_a1b2c3d4e") s (snd run) (fst run)).
  - apply surjective_pairing.
  - vm_compute. discriminate.
  - reflexivity.
Defined.

Lemma unique_id_one (noteId n : json) : unique_id noteId [n].
Proof.
  intros i j a b Hi Hj _ _. destruct i as [|[|i]], j as [|[|j]]; cbn in *; congruence.
Qed.

Lemma deletion_backs_up_witness :
  let E := env_at 1700000000000 true in
  let s := state_with one_note_store in
  let id := JStr "note_1700000000000_a1b2c3d4e" in
  let s' := snd (startNoteDeletionWorkflow E id s) in
  (In note_now [note_now] /\ has_id id note_now = true)
  /\ (exists backups' timestamp,
        backups_are s' backups'
        /\ lookup "deletion_backup_1700000000000_note_1700000000000_a1b2c3d4e" backups'
           = Some (JObj [("note", note_now); ("timestamp", JStr timestamp);
                         ("type", JStr "deletion_backup")]))
  /\ (exists items',
        notes_are s' items'
        /\ Forall (fun n => has_id id n = false) items'
        /\ S (length items') = length [note_now]).
Proof.
  intros E s id s'.
  apply (deletion_backs_up E id s s' note_now
           "deletion_backup_1700000000000_note_1700000000000_a1b2c3d4e" None
           [note_now] []).
  - vm_compute. reflexivity.
  - vm_compute. reflexivity.
  - apply unique_id_one.
  - vm_compute. reflexivity.
Defined.

(** C5 as stated fails: of two notes with the id only the first is
    removed, so after a run that returns [success: true] the persisted
    collection still holds a note with the id. *)
Lemma deletion_leaves_a_twin :
  ~ deletion_as_stated (env_at 1700000000000 true) (JStr "note_1700000000000_a1b2c3d4e")
      (state_with twin_store).
Proof.
  intros H.
  set (run := startNoteDeletionWorkflow (env_at 1700000000000 true)
                (JStr "note_1700000000000_a1b2c3d4e") (state_with twin_store)).
  destruct (H note_now "deletion_backup_1700000000000_note_1700000000000_a1b2c3d4e" None
              (snd run))
    as (_ & items' & Hitems & Hnone).
  - vm_compute. reflexivity.
  - assert (Hleft : notes_are (snd run) [note_now]) by (vm_compute; reflexivity).
    unfold notes_are in Hitems, Hleft. rewrite Hleft in Hitems. injection Hitems as <-.
    inversion Hnone as [|n rest Hid _]. vm_compute in Hid. discriminate Hid.
Qed.

(** *** The import workflow never asks about the warnings *)

(** [validateImportData] never clears [isValid]: it only adds warnings. *)
Lemma validateImportData_valid (data : json) (v : DataValidation) :
  validateImportData data = Ok v -> dv_isValid v = true.
Proof.
  unfold validateImportData. destruct (get "notes" data) as [notes|e]; cbn; [|discriminate].
  destruct (truthy notes).
  - destruct notes as [[]|]; try discriminate.
    destruct (check_import_notes _ _ _); cbn; [|discriminate].
    intros [= <-]. reflexivity.
  - intros [= <-].
    repeat match goal with |- context [if ?c then _ else _] => destruct c end; reflexivity.
Qed.

(** C9, at a JSON file whose one note has no title. The validation
    gives the warning and stays valid, so the workflow goes on to the
    preview without showing the Import Warnings dialog: the one dialog
    of the run is Confirm Import, whatever the user answers, and when
    the user confirms it the note is imported; the user is never asked
    to confirm the import despite its warnings. *)
Theorem import_warnings_never_confirmed :
  validateImportData (JObj [("notes", JArr [JObj [("content", JStr "x")]])])
  = Ok {| dv_isValid := true; dv_warnings := ["Note 1 missing title"] |}
  /\ (forall answer : bool,
        map dialog_title
          (dialogs (snd (startImportWorkflow (env_at 1700000000000 answer) untitled_file
                           (state_with no_store))))
        = ["Confirm Import"])
  /\ fst (startImportWorkflow (env_at 1700000000000 true) untitled_file
            (state_with no_store))
     = Ok (Imported 1 0 [])
  /\ fst (startImportWorkflow (env_at 1700000000000 false) untitled_file
            (state_with no_store))
     = Ok (ImportCancelled "User cancelled after preview").
Proof.
  split; [reflexivity|]. split; [intros []; vm_compute; reflexivity|].
  split; vm_compute; reflexivity.
Qed.

End Witnesses.

(** ** Examples of the validation *)

Module ValidationWitnesses.
Import JsString Json Js App BusinessLogic Spec Samples ValidationSpec ValidationFacts.
#[local] Open Scope Z_scope.

Lemma plain_titled (title : string) : plain_note (titled title).
Proof.
  split; [right; eexists; reflexivity|]. split; [right; eexists; reflexivity|].
  right. eexists. split; [reflexivity|]. repeat constructor. eexists. reflexivity.
Qed.

Lemma plain_sample_categories (now : Z) (answer : bool) : plain_categories (env_at now answer).
Proof. repeat constructor. discriminate. Qed.

Lemma plain_one_note_store : plain_store (state_with one_note_store).
Proof.
  exists [note_now]. split; [vm_compute; reflexivity|].
  repeat constructor. eexists. split; [reflexivity|]. right. eexists. reflexivity.
Qed.

Lemma validateNoteData_length_limits_witness :
  let E := env_at 1700000000000 true in
  let s := state_with one_note_store in
  exists v s',
    validateNoteData E (JObj (titled (letters 201))) s = (Ok v, s')
    /\ In title_too_long (errors v) /\ isValid v = false.
Proof.
  intros E s.
  destruct (validateNoteData_length_limits E (titled (letters 201)) s) as [Hreturns Hlimits].
  destruct Hreturns as (v & s' & Hrun).
  - apply plain_titled.
  - apply plain_sample_categories.
  - apply plain_one_note_store.
  - exists v, s'. split; [exact Hrun|].
    destruct (Hlimits v s' Hrun) as (Htitle & _).
    destruct (Htitle (letters 201) eq_refl) as [_ Hlong].
    apply Hlong. vm_compute. reflexivity.
Defined.

Lemma plain_full_day_store : plain_store (state_with full_day_store).
Proof.
  exists (repeat note_now 100). split; [vm_compute; reflexivity|].
  apply List.Forall_forall. intros n Hn. apply repeat_spec in Hn. subst n.
  eexists. split; [reflexivity|]. right. eexists. reflexivity.
Qed.

Lemma validateNoteData_daily_quota_witness :
  let E := env_at 1700000000000 true in
  let s := state_with full_day_store in
  notes_are s (repeat note_now 100)
  /\ exists v s',
       validateNoteData E (JObj (titled "Shopping")) s = (Ok v, s')
       /\ In daily_limit_reached (businessRuleViolations v) /\ isValid v = false.
Proof.
  intros E s.
  assert (Hitems : notes_are s (repeat note_now 100)) by (vm_compute; reflexivity).
  split; [exact Hitems|].
  destruct (validateNoteData_daily_quota E (titled "Shopping") s (repeat note_now 100) Hitems)
    as (_ & Hreturns & Hquota).
  destruct Hreturns as (v & s' & Hrun).
  - apply plain_titled.
  - apply plain_sample_categories.
  - apply plain_full_day_store.
  - exists v, s'. split; [exact Hrun|].
    destruct (Hquota v s' Hrun) as [Hfull _]. apply Hfull. vm_compute. discriminate.
Defined.

End ValidationWitnesses.

Module MoreWitnesses.
Import JsString Json Js App DataManager ErrorHandler BusinessLogic Spec ValidationSpec Samples.
Import MoreSamples.
Import CollectionSpec ImportSpec ExportSpec AcceptanceSpec ChangesSpec Editing EditingSpec.
Import Saving SavingSpec Achievements AchievementsSpec Creation ErrorStrategy Backups.
Import ExportPreparation ExportPreparationSpec.
Import CollectionFacts WorkflowFacts TextImportFacts ImportWorkflowFacts ExportFacts.
Import AcceptanceFacts ChangesMoreFacts EditingFacts SavingFacts AchievementsFacts IdFacts.
Import CreationFacts ErrorStrategyFacts BackupsFacts ExportPreparationFacts.
Import TextImportSpec BackupsSpec ValidationWitnesses.
#[local] Open Scope Z_scope.

Lemma deletion_of_missing_note_witness :
  exists s' w,
    startNoteDeletionWorkflow (env_at 1700000000000 true) (JStr "missing")
      (state_with one_note_store)
    = (Throw "Note not found", s')
    /\ localStorage s' = one_note_store
    /\ wf_status w = Some "error"%string
    /\ workflowHistory s' = keep_last_50 ([] ++ [w]).
Proof.
  destruct (deletion_of_missing_note (env_at 1700000000000 true) (JStr "missing") [note_now]
              (state_with one_note_store))
    as (s' & w & Hrun & Hstore & _ & _ & _ & Hhistory & _ & Hstatus & _).
  - vm_compute. reflexivity.
  - repeat constructor. discriminate.
  - exists s', w. repeat split; assumption.
Defined.

Lemma deletion_of_protected_note_witness :
  exists s' w,
    startNoteDeletionWorkflow (env_at 1700000000000 true) (JStr "p1")
      (state_with protected_store)
    = (Throw "Cannot delete note: Note is protected from deletion", s')
    /\ localStorage s' = protected_store
    /\ dialogs s' = []
    /\ map fst (wf_steps w) = ["load_note"; "validate_permissions"]%string.
Proof.
  destruct (deletion_of_protected_note (env_at 1700000000000 true) (JStr "p1")
              [note_now; protected_note] [note_now] protected_note [] (Some (JBool true))
              (state_with protected_store))
    as (s' & w & Hrun & Hstore & Hdialogs & _ & _ & _ & _ & Hsteps).
  - vm_compute. reflexivity.
  - split; [reflexivity|]. split; [|reflexivity].
    repeat constructor. discriminate.
  - reflexivity.
  - reflexivity.
  - exists s', w. repeat split; assumption.
Defined.

Lemma performNoteDeletion_removes_first_witness :
  exists s',
    performNoteDeletion (JStr "p1") (state_with protected_store)
    = (Ok (Some protected_note), s')
    /\ notes_are s' ([note_now] ++ [])
    /\ same_but "notes" (state_with protected_store) s'.
Proof.
  apply (performNoteDeletion_removes_first (JStr "p1") [note_now; protected_note]
           [note_now] protected_note [] (state_with protected_store)).
  - vm_compute. reflexivity.
  - split; [reflexivity|]. split; [|reflexivity].
    repeat constructor. discriminate.
Defined.

Lemma completeWorkflow_keeps_last_50_witness :
  exists s',
    completeWorkflow (env_at 1700000000000 true) "completed" None state_running = (Ok tt, s')
    /\ currentWorkflow s' = None
    /\ workflowHistory s' = [finish 1700000000000 "completed" None running].
Proof.
  destruct (completeWorkflow_keeps_last_50 (env_at 1700000000000 true) "completed" None
              running state_running)
    as (s' & Hrun & Hcurrent & Hhistory & _).
  - reflexivity.
  - exists s'. repeat split; assumption.
Defined.

Lemma import_of_invalid_file_witness :
  exists s',
    startImportWorkflow (env_at 1700000000000 true) picture_file (state_with one_note_store)
    = (Throw "Invalid file: Unsupported file type", s')
    /\ localStorage s' = one_note_store
    /\ dialogs s' = [].
Proof.
  destruct (import_of_invalid_file (env_at 1700000000000 true) picture_file
              (state_with one_note_store))
    as (s' & w & Hrun & Hstore & Hdialogs & _).
  - reflexivity.
  - exists s'. repeat split; assumption.
Defined.

Lemma import_declined_at_preview_witness :
  let E := env_at 1700000000000 false in
  let s := state_with one_note_store in
  fst (startImportWorkflow E untitled_file s)
  = Ok (ImportCancelled "User cancelled after preview")
  /\ localStorage (snd (startImportWorkflow E untitled_file s)) = one_note_store.
Proof.
  intros E s.
  destruct (import_declined_at_preview E untitled_file s
              (snd (startImportWorkflow E untitled_file s))
              (fst (startImportWorkflow E untitled_file s)))
    as (Hresult & _ & Hstore & _).
  - vm_compute. reflexivity.
  - vm_compute. discriminate.
  - reflexivity.
  - split; assumption.
Defined.

Lemma exportData_unsupported_format_witness :
  exportData (env_at 1700000000000 true) [note_now] "XML" (state_with no_store)
  = (Throw "Export failed: Unsupported export format: XML", state_with no_store).
Proof.
  apply (exportData_unsupported_format (env_at 1700000000000 true) [note_now] "XML"
           (state_with no_store)).
  vm_compute. intuition discriminate.
Defined.

Lemma exportData_format_case_witness :
  exportData (env_at 1700000000000 true) [note_now] "CSV" (state_with no_store)
  = exportData (env_at 1700000000000 true) [note_now] (toLowerCase "CSV")
      (state_with no_store).
Proof.
  apply (exportData_format_case (env_at 1700000000000 true) [note_now] "CSV"
           (state_with no_store)).
  vm_compute. auto.
Defined.

Lemma validateNoteData_valid_iff_clean_witness :
  exists v s',
    validateNoteData (env_at 1700000000000 true) (JObj (titled "Shopping"))
      (state_with one_note_store)
    = (Ok v, s')
    /\ (isValid v = true <-> errors v = [] /\ businessRuleViolations v = []).
Proof.
  eexists. eexists. split.
  - vm_compute. reflexivity.
  - apply (validateNoteData_valid_iff_clean (env_at 1700000000000 true)
             (JObj (titled "Shopping")) (state_with one_note_store)
             (advance 1 0 (state_with one_note_store))).
    vm_compute. reflexivity.
Defined.

Lemma validateNoteData_blank_content_witness :
  exists v s',
    validateNoteData (env_at 1700000000000 true) (JObj blank_fields)
      (state_with one_note_store)
    = (Ok v, s')
    /\ In "Content is required"%string (errors v)
    /\ In "Empty content not allowed by business rules"%string (businessRuleViolations v)
    /\ isValid v = false.
Proof.
  eexists. eexists. split.
  - vm_compute. reflexivity.
  - apply (validateNoteData_blank_content (env_at 1700000000000 true) blank_fields
             (state_with one_note_store) (advance 1 0 (state_with one_note_store))).
    + vm_compute. reflexivity.
    + right. exists "   "%string. split; reflexivity.
Defined.

Lemma sample_active_category (now : Z) (answer : bool) :
  active_category (env_at now answer) "personal".
Proof. eexists. split; [left; reflexivity|]. split; reflexivity. Qed.

Lemma sample_known_priority (title : string) :
  known_priority (lookup "priority" (titled title)).
Proof. right. exists "low"%string. split; [reflexivity|]. left. reflexivity. Qed.

Lemma validateNoteData_accepts_witness :
  exists v,
    validateNoteData (env_at 1700000000000 true) (JObj (titled "Shopping"))
      (state_with one_note_store)
    = (Ok v, advance 1 0 (state_with one_note_store))
    /\ isValid v = true /\ errors v = [] /\ businessRuleViolations v = [].
Proof.
  apply (validateNoteData_accepts (env_at 1700000000000 true) (titled "Shopping")
           "Shopping" "milk" "personal" [note_now] (state_with one_note_store)).
  - reflexivity.
  - vm_compute. discriminate.
  - vm_compute. discriminate.
  - reflexivity.
  - vm_compute. discriminate.
  - vm_compute. discriminate.
  - reflexivity.
  - discriminate.
  - apply sample_active_category.
  - apply plain_titled.
  - apply plain_sample_categories.
  - apply sample_known_priority.
  - apply plain_one_note_store.
  - vm_compute. reflexivity.
  - vm_compute. reflexivity.
Defined.

Lemma updateExistingNote_replaces_first_witness :
  exists s',
    updateExistingNote (JStr "p1") (JObj (titled "Keys")) (state_with protected_store)
    = (Ok (JObj (titled "Keys")), s')
    /\ notes_are s' ([note_now] ++ JObj (titled "Keys") :: [])
    /\ same_but "notes" (state_with protected_store) s'.
Proof.
  destruct (updateExistingNote_replaces_first (JStr "p1") (JObj (titled "Keys"))
              [note_now; protected_note] (state_with protected_store)) as [Hfound _].
  - vm_compute. reflexivity.
  - apply (Hfound [note_now] protected_note []).
    split; [reflexivity|]. split; [|reflexivity].
    repeat constructor. discriminate.
Defined.

Lemma editing_start_backs_up_witness :
  exists s' w backups',
    startNoteEditingWorkflow (env_at 1700000000000 true) (JStr "p1")
      (state_with protected_store)
    = (Ok {| started_note := protected_note;
             started_backup := "backup_1700000000000_p1";
             started_workflow := None |}, s')
    /\ backups_are s' backups'
    /\ lookup "backup_1700000000000_p1" backups'
       = Some (JObj [("note", protected_note);
                     ("timestamp", JStr (JsDate.toISOString 1700000000000));
                     ("type", JStr "edit_backup")])
    /\ notes_are s' [note_now; protected_note]
    /\ workflowHistory s' = keep_last_50 ([] ++ [w])
    /\ wf_status w = Some "editing_started"%string.
Proof.
  destruct (editing_start_backs_up (env_at 1700000000000 true) (JStr "p1")
              [note_now; protected_note] [note_now] protected_note [] []
              (state_with protected_store))
    as (s' & idText & w & Hid & Hrun & (backups' & Hbackups & Hrecord & _) & Hnotes
        & _ & _ & Hhistory & _ & Hstatus & _).
  - vm_compute. reflexivity.
  - split; [reflexivity|]. split; [|reflexivity].
    repeat constructor. discriminate.
  - vm_compute. reflexivity.
  - injection Hid as <-. exists s', w, backups'. repeat split; assumption.
Defined.

Lemma edit_blocked_by_daily_quota_witness :
  exists s',
    completeNoteEditingWorkflow (env_at 1700000000000 true) id_now
      (JObj (titled "Groceries")) (state_with full_day_store)
    = (Throw "Validation failed: ", s')
    /\ localStorage s' = full_day_store.
Proof.
  apply (edit_blocked_by_daily_quota (env_at 1700000000000 true) id_now (titled "Groceries")
           "Groceries" "milk" "personal" (repeat note_now 100) (state_with full_day_store)).
  - reflexivity.
  - vm_compute. discriminate.
  - vm_compute. discriminate.
  - reflexivity.
  - vm_compute. discriminate.
  - vm_compute. discriminate.
  - reflexivity.
  - discriminate.
  - apply sample_active_category.
  - apply plain_titled.
  - apply plain_sample_categories.
  - apply sample_known_priority.
  - apply plain_full_day_store.
  - vm_compute. reflexivity.
  - vm_compute. discriminate.
Defined.

Lemma edit_saves_merged_note_witness :
  exists s' changes updatedNote,
    completeNoteEditingWorkflow (env_at 1700000000000 true) id_now
      (JObj (titled "Groceries")) (state_with one_note_store)
    = (Ok {| completed_note := updatedNote; completed_changes := changes |}, s')
    /\ notes_are s' ([] ++ updatedNote :: [])
    /\ member "title" updatedNote = Some (JStr "Groceries")
    /\ member "id" updatedNote = Some id_now
    /\ member "lastModified" updatedNote
       = Some (JStr (JsDate.toISOString 1700000000000))
    /\ exists entry, member "editHistory" updatedNote = Some (JArr ([] ++ [entry])).
Proof.
  eassert (Hrun : validateNoteData (env_at 1700000000000 true) (JObj (titled "Groceries"))
                    (state_with one_note_store) = (Ok _, _)) by (vm_compute; reflexivity).
  destruct (edit_saves_merged_note (env_at 1700000000000 true) id_now
              (JObj (titled "Groceries")) _ [note_now] [] (own_members note_now) [] []
              (state_with one_note_store) _ Hrun)
    as (s' & changes & updatedNote & entry & announced & _ & Hedit & Hnotes & _ & _ & _
        & Hmodified & Hhistory & _ & Hmembers & _).
  - reflexivity.
  - vm_compute. reflexivity.
  - split; [reflexivity|]. split; [constructor|reflexivity].
  - left. split; reflexivity.
  - apply (bool_decide_unpack _). vm_compute. reflexivity.
  - exists s', changes, updatedNote. split; [exact Hedit|]. split; [exact Hnotes|].
    split; [rewrite Hmembers by discriminate; reflexivity|].
    split; [rewrite Hmembers by discriminate; reflexivity|].
    split; [exact Hmodified|]. exists entry. exact Hhistory.
Defined.

Lemma saveNote_appends_witness :
  exists s',
    saveNote protected_note (state_with one_note_store) = (Ok (protected_note, 2), s')
    /\ notes_are s' [note_now; protected_note]
    /\ loadNoteForEditing (JStr "p1") s' = (Ok protected_note, s').
Proof.
  destruct (saveNote_appends protected_note [note_now] [] (state_with one_note_store))
    as (s' & stats' & Hrun & Hnotes & _ & _ & _ & _ & Hload).
  - vm_compute. reflexivity.
  - vm_compute. reflexivity.
  - left. reflexivity.
  - left. reflexivity.
  - discriminate.
  - exists s'. split; [exact Hrun|]. split; [exact Hnotes|].
    apply Hload; [|reflexivity]. repeat constructor. discriminate.
Defined.

Lemma saveNote_fails_after_writing_witness :
  exists s',
    saveNote protected_note (state_with null_stats_store)
    = (Throw ("Failed to save note: " +:+ TypeError), s')
    /\ notes_are s' ([note_now] ++ [protected_note]).
Proof.
  apply (saveNote_fails_after_writing protected_note [note_now] JNull
           (state_with null_stats_store)).
  - vm_compute. reflexivity.
  - vm_compute. reflexivity.
  - discriminate.
  - discriminate.
Defined.

Lemma checkAchievements_grants_once_witness :
  exists s',
    checkAchievements (state_with first_note_store) = (Ok tt, s')
    /\ achievements_are s' [JStr "first_note"]
    /\ length (toasts s') = 1%nat
    /\ exists s'',
         checkAchievements s' = (Ok tt, s'') /\ toasts s'' = toasts s'.
Proof.
  destruct (checkAchievements_grants_once [("totalNotesCreated", JNum 1)] []
              (state_with first_note_store))
    as (s' & Hrun & Hheld & Htoasts & _ & _ & s'' & Hagain & _ & Hquiet).
  - vm_compute. reflexivity.
  - vm_compute. reflexivity.
  - exists s'. split; [exact Hrun|]. split; [exact Hheld|].
    split; [rewrite Htoasts; reflexivity|].
    exists s''. split; assumption.
Defined.

Lemma prepareExportData_selects_witness :
  exists exported,
    prepareExportData (env_at 1700000000000 true) (JArr []) (Some (JArr [JStr "p1"]))
      None None None (state_with protected_store)
    = (Ok (JObj [("notes", JArr exported)]), state_with protected_store)
    /\ exported = [without_audio protected_note].
Proof.
  destruct (prepareExportData_selects (env_at 1700000000000 true) (JArr []) [JStr "p1"]
              [note_now; protected_note] None None (state_with protected_store))
    as (exported & Hrun & Hexported & _).
  - vm_compute. reflexivity.
  - repeat constructor; discriminate.
  - exists exported. split; assumption.
Defined.

Lemma creation_without_template_is_refused_witness :
  exists note,
    handleNoteCreation (env_at 1700000000000 true) None (Some (JStr "personal"))
      (state_with one_note_store)
    = (Ok (JObj note), advance 3 1 (state_with one_note_store))
    /\ lookup "content" note = Some (JStr "")
    /\ exists v,
         validateNoteData (env_at 1700000000000 true) (JObj note)
           (advance 3 1 (state_with one_note_store))
         = (Ok v, advance 4 1 (state_with one_note_store))
         /\ isValid v = false.
Proof.
  destruct (creation_without_template_is_refused (env_at 1700000000000 true) None
              (JStr "personal") (state_with one_note_store))
    as (note & Hrun & _ & Hcontent & _ & Hreturns & Hrefused).
  - reflexivity.
  - discriminate.
  - exists note. split; [exact Hrun|]. split; [exact Hcontent|].
    destruct Hreturns as [v Hv].
    + apply plain_sample_categories.
    + apply plain_one_note_store.
    + exists v. split; [exact Hv|]. apply (Hrefused v _ Hv).
Defined.

Lemma generateNoteId_injective_witness :
  let E := env_at 1700000000000 true in
  let s := state_with no_store in
  startsWith "note_" "note_1700000000000_k3x9q2m1z" = true
  /\ ("note_1700000000000_k3x9q2m1z" = "note_1700000000000_k3x9q2m1z"
      <-> clock E (clock_reads s) = clock E (clock_reads (advance 1 1 s))
          /\ random E (random_reads s) = random E (random_reads (advance 1 1 s))).
Proof.
  intros E s.
  apply (generateNoteId_injective E s (advance 1 1 s)
           (snd (generateNoteId E s)) (snd (generateNoteId E (advance 1 1 s)))).
  - vm_compute. reflexivity.
  - vm_compute. reflexivity.
Defined.

Lemma getHandlingStrategy_invariants_witness :
  exists strategy,
    getHandlingStrategy (Some (JBool true)) (fun _ => 1%nat) network_error None = Ok strategy
    /\ autoRetry strategy = true
    /\ In (retryDelay strategy) [Some 1000; Some 2000; Some 4000].
Proof.
  eexists. split; [vm_compute; reflexivity|].
  split; [reflexivity|].
  eapply (getHandlingStrategy_invariants (Some (JBool true)) (fun _ => 1%nat) network_error
            None).
  - vm_compute. reflexivity.
  - reflexivity.
Defined.

End MoreWitnesses.
